(** * GenAI_Eval_Sys: a shallow embedding of the evaluation workflow

    The development follows the Python sources file by file:
    [models.py] (the persisted entities), [database.py] (the unit of work),
    [config.py] (thresholds), [quality_control.py], [evaluator.py],
    [utils.py] and [analytics.py].

    Modelling conventions.
    - A table is the list of its rows in insertion (rowid) order; the primary
      key is an explicit field, [session.query(T).get(k)] is the first row
      whose key is [k], [.filter(...).first()] the first row that passes the
      filter and [.all()] every such row in table order.
    - A Python [dict] argument is the list of its items in insertion order.
    - A Python [float] is a finite number, held as an exact rational ([Q]):
      sums, quotients and comparisons are those of the numbers, without
      rounding; NaN and the infinities are outside the model.
    - A [datetime] is the number of microseconds since the epoch ([Z]).
    - A function that opens [get_db_session()] takes the stored state and
      returns the state after commit (or the untouched state after a
      rollback) together with its result.  A function that only reads is a
      function of the stored state.  All units of work share the one
      scoped session of [database.py]: a unit of work opened inside another
      one commits and closes the session for both, so the objects the outer
      one had loaded are detached and later assignments to them are not
      written ([submit_evaluation] with answers to check).
    - Columns the application always fills when it creates a row
      ([start_time], [scale_min], [scale_max], the keys) are not optional;
      columns it fills later ([completion_time], [duration_seconds],
      [passed_quality_checks]) are. *)

From Stdlib Require Import ZArith QArith Qround Qminmax List String Ascii Bool.
From Stdlib Require Import Lia Permutation DecimalString.
Import ListNotations.

Open Scope Z_scope.

(** ** Python built-ins used by the sources *)

Module Py.

(** Exceptions the embedded code paths can raise. *)
Inductive exn : Type :=
| UnboundLocalError (name : string)
| TypeError (msg : string).

(** The result of running a Python call: a returned value or a raised
    exception. *)
Inductive outcome (A : Type) : Type :=
| Returned (a : A)
| Raised (e : exn).

Arguments Returned {A} a.
Arguments Raised {A} e.

(** [str(n)] / [f"{n}"] for an int. *)
Definition str_of_int (n : Z) : string := NilZero.string_of_int (Z.to_int n).

(** [c.lower()] on one ASCII character. *)
Definition lower_ascii (c : ascii) : ascii :=
  let n := nat_of_ascii c in
  if ((65 <=? n)%nat && (n <=? 90)%nat)%bool then ascii_of_nat (n + 32) else c.

(** [s.lower()] (ASCII letters). *)
Fixpoint lower (s : string) : string :=
  match s with
  | EmptyString => EmptyString
  | String c rest => String (lower_ascii c) (lower rest)
  end.

(** [len(s)]. *)
Definition len_str (s : string) : Z := Z.of_nat (String.length s).

(** [a < b] on floats. *)
Definition Qlt_bool (a b : Q) : bool := negb (Qle_bool b a).

(** [max(a, b)]: Python keeps [a] unless [b > a]. *)
Definition max2 (a b : Q) : Q := if Qlt_bool a b then b else a.

(** [sum(l)] on floats. *)
Definition sumQ (l : list Q) : Q := fold_left Qplus l (0 # 1)%Q.

(** [sum(l) / len(l)]. *)
Definition avgQ (l : list Q) : Q := (sumQ l / inject_Z (Z.of_nat (List.length l)))%Q.

(** Truthiness of an [Optional[int]]: [None] and [0] are falsy. *)
Definition truthy_int (o : option Z) : bool :=
  match o with
  | None => false
  | Some n => negb (n =? 0)
  end.

(** The dynamic type of a number handed to [isinstance(x, float)]. *)
Inductive num : Type :=
| PyInt (z : Z)
| PyFloat (q : Q).

Definition num_value (x : num) : Q :=
  match x with
  | PyInt z => inject_Z z
  | PyFloat q => q
  end.

Definition isinstance_float (x : num) : bool :=
  match x with
  | PyFloat _ => true
  | PyInt _ => false
  end.

(** Round a rational to the nearest integer, ties to even. *)
Definition round_half_even (q : Q) : Z :=
  let f := Qfloor q in
  let r := (q - inject_Z f)%Q in
  if Qlt_bool r (1 # 2) then f
  else if Qlt_bool (1 # 2) r then f + 1
  else if Z.even f then f else f + 1.

Definition two_digits (n : Z) : string :=
  if n <? 10 then ("0" ++ str_of_int n)%string else str_of_int n.

(** [f"{x:.2f}"]. *)
Definition format_2f (x : Q) : string :=
  let cents := round_half_even (x * inject_Z 100)%Q in
  let a := Z.abs cents in
  let body := (str_of_int (a / 100) ++ "." ++ two_digits (a mod 100))%string in
  if Qlt_bool x 0 then ("-" ++ body)%string else body.

(** Python dicts in insertion order, with the key equality as a
    parameter. *)
Section Dict.

Context {K V : Type} (eqb : K -> K -> bool).

(** [d.get(k)]. *)
Fixpoint dict_get (d : list (K * V)) (k : K) : option V :=
  match d with
  | [] => None
  | (k', v) :: rest => if eqb k' k then Some v else dict_get rest k
  end.

(** [d[k] = v]: an existing key keeps its place, a new key goes last. *)
Fixpoint dict_set (d : list (K * V)) (k : K) (v : V) : list (K * V) :=
  match d with
  | [] => [(k, v)]
  | (k', v') :: rest =>
    if eqb k' k then (k', v) :: rest else (k', v') :: dict_set rest k v
  end.

End Dict.

(** [if k not in d: d[k] = []] followed by [d[k].append(v)]. *)
Definition dict_append {K V : Type} (eqb : K -> K -> bool)
    (d : list (K * list V)) (k : K) (v : V) : list (K * list V) :=
  match dict_get eqb d k with
  | None => dict_set eqb d k [v]
  | Some vs => dict_set eqb d k (vs ++ [v])%list
  end.

(** Sequencing of calls that may raise. *)
Definition bindO {A B : Type} (m : outcome A) (k : A -> outcome B) : outcome B :=
  match m with
  | Returned a => k a
  | Raised e => Raised e
  end.

(** A [for] loop whose body may raise. *)
Fixpoint foldO {A B : Type} (body : A -> B -> outcome A) (l : list B) (a : A)
  : outcome A :=
  match l with
  | [] => Returned a
  | x :: rest => bindO (body a x) (foldO body rest)
  end.

End Py.

Import Py.

(** ** config.py *)

Module Config.

Definition MIN_EVALUATION_TIME_SECONDS : Z := 60.
Definition IMPROVEMENT_THRESHOLD : Q := (3 # 10)%Q.

End Config.

(** ** models.py *)

Module Models.

Record User : Type := mkUser {
  user_id : Z;
  username : string;
  role : string;
  is_active : bool
}.

Record Content : Type := mkContent {
  content_id : Z;
  title : string;
  text : string;
  content_domain : string;
  source_type : string;
  model_name : option string
}.

Record EvaluationCriterion : Type := mkCriterion {
  criterion_id : Z;
  criterion_name : string;
  scale_min : Z;
  scale_max : Z;
  criterion_domain : option string
}.

Record Evaluation : Type := mkEvaluation {
  evaluation_id : Z;
  evaluator_id : Z;
  evaluation_content_id : Z;
  start_time : Z;
  completion_time : option Z;
  duration_seconds : option Z;
  overall_rating : option Q;
  comments : option string;
  passed_quality_checks : option bool
}.

Record EvaluationScore : Type := mkScore {
  score_id : Z;
  score_evaluation_id : Z;
  score_criterion_id : Z;
  score : Q
}.

Record QualityCheckQuestion : Type := mkQuestion {
  question_id : Z;
  question_text : string;
  correct_answer : string;
  question_domain : option string;
  active : bool
}.

Record AnalyticsReport : Type := mkReport {
  report_id : Z;
  report_type : string;
  report_title : string;
  report_description : string;
  report_created_at : Z
}.

Record ImprovementSuggestion : Type := mkImprovement {
  improvement_id : Z;
  improvement_model_name : string;
  improvement_domain : option string;
  improvement_criterion : string;
  current_score : Q;
  target_score : Q;
  suggestion : string;
  priority : string;
  status : string
}.

End Models.

Import Models.

(** ** database.py: the stored state and the unit of work *)

Module Database.

Record DB : Type := mkDB {
  users : list User;
  contents : list Content;
  criteria : list EvaluationCriterion;
  evaluations : list Evaluation;
  evaluation_scores : list EvaluationScore;
  questions : list QualityCheckQuestion;
  reports : list AnalyticsReport;
  improvements : list ImprovementSuggestion
}.

(** [session.query(T).get(k)]. *)
Definition get {T : Type} (key : T -> Z) (table : list T) (k : Z) : option T :=
  find (fun row => key row =? k) table.

(** The key an autoincrement column gives the next inserted row. *)
Definition next_id {T : Type} (key : T -> Z) (table : list T) : Z :=
  1 + fold_left Z.max (map key table) 0.

(** [with get_db_session() as session: body]: commit on a normal exit,
    rollback and re-raise on an exception. *)
Definition get_db_session {A : Type} (body : DB -> outcome (DB * A)) (db : DB)
  : DB * outcome A :=
  match body db with
  | Returned (db', a) => (db', Returned a)
  | Raised e => (db, Raised e)
  end.

(** Assignment to the fields of the object a query returned: the first row
    that passes [p] is replaced by its image under [f]. *)
Fixpoint update_first {T : Type} (p : T -> bool) (f : T -> T) (table : list T)
  : list T :=
  match table with
  | [] => []
  | row :: rest => if p row then f row :: rest else row :: update_first p f rest
  end.

Definition set_evaluations (db : DB) (l : list Evaluation) : DB :=
  mkDB (users db) (contents db) (criteria db) l (evaluation_scores db)
       (questions db) (reports db) (improvements db).

Definition set_evaluation_scores (db : DB) (l : list EvaluationScore) : DB :=
  mkDB (users db) (contents db) (criteria db) (evaluations db) l
       (questions db) (reports db) (improvements db).

Definition set_reports (db : DB) (l : list AnalyticsReport) : DB :=
  mkDB (users db) (contents db) (criteria db) (evaluations db)
       (evaluation_scores db) (questions db) l (improvements db).

Definition set_improvements (db : DB) (l : list ImprovementSuggestion) : DB :=
  mkDB (users db) (contents db) (criteria db) (evaluations db)
       (evaluation_scores db) (questions db) (reports db) l.

End Database.

Import Database.

(** ** quality_control.py *)

Module QualityController.

(** [validate_quality_checks(answers)]: the share of answers that match the
    stored correct answer must reach 70%. *)
Definition pass_threshold : Q := (7 # 10)%Q.

(** The body of the loop over [answers.items()]: an unknown question is
    skipped, a matching answer is counted. *)
Definition count_step (db : DB) (correct_count : Z) (item : Z * string) : Z :=
  let (qid, answer) := item in
  match get question_id (questions db) qid with
  | None => correct_count
  | Some question =>
    if String.eqb (lower (correct_answer question)) (lower answer)
    then correct_count + 1
    else correct_count
  end.

Definition validate_quality_checks (db : DB) (answers : list (Z * string)) : bool :=
  match answers with
  | [] => false
  | _ :: _ =>
    let total_count := Z.of_nat (List.length answers) in
    let correct_count := fold_left (count_step db) answers 0 in
    if 0 <? total_count
    then Qle_bool pass_threshold (inject_Z correct_count / inject_Z total_count)
    else false
  end.

(** [check_evaluation_time(evaluation_id)].  Comparing a missing duration
    with an int raises [TypeError] in Python. *)
Definition check_evaluation_time (db : DB) (eid : Z) : outcome bool :=
  match get evaluation_id (evaluations db) eid with
  | None => Returned false
  | Some evaluation =>
    match completion_time evaluation with
    | None => Returned false
    | Some _ =>
      match duration_seconds evaluation with
      | None => Raised (TypeError "'<' not supported between instances of 'NoneType' and 'int'")
      | Some duration =>
        if duration <? Config.MIN_EVALUATION_TIME_SECONDS then Returned false
        else
          match get content_id (contents db) (evaluation_content_id evaluation) with
          | None => Returned false
          | Some content =>
            let text_length := len_str (text content) in
            let expected_time :=
              max2 (inject_Z Config.MIN_EVALUATION_TIME_SECONDS)
                   (inject_Z text_length / inject_Z 10) in
            let min_acceptable := (expected_time * (1 # 2))%Q in
            if Qlt_bool (inject_Z duration) min_acceptable
            then Returned false
            else Returned true
          end
      end
    end
  end.

(** One entry of the list [flag_low_quality_evaluations] returns.  The
    source renders [completion_time] with [isoformat()]; the record keeps the
    timestamp itself. *)
Record flagged : Type := mkFlagged {
  flagged_evaluation_id : Z;
  flagged_evaluator_id : Z;
  flagged_content_id : Z;
  flags : list string;
  flagged_completion_time : Z
}.

(** [session.query(EvaluationScore).filter(evaluation_id == eid).all()]. *)
Definition scores_of (db : DB) (eid : Z) : list EvaluationScore :=
  filter (fun s => score_evaluation_id s =? eid) (evaluation_scores db).

(** [len(scores) >= 2 and all(s.score == scores[0].score for s in scores)]. *)
Definition straight_line (scores : list EvaluationScore) : bool :=
  match scores with
  | first :: _ :: _ => forallb (fun s => Qeq_bool (score s) (score first)) scores
  | _ => false
  end.

(** The flags one evaluation collects, in the order the source appends
    them. *)
Definition flags_of (db : DB) (evaluation : Evaluation) : list string :=
  let fast :=
    match duration_seconds evaluation with
    | Some d =>
      if (truthy_int (Some d) && (d <? Config.MIN_EVALUATION_TIME_SECONDS))%bool
      then [("Fast completion: " ++ str_of_int d ++ " seconds")%string]
      else []
    | None => []
    end in
  let failed :=
    match passed_quality_checks evaluation with
    | Some false => ["Failed quality checks"%string]
    | _ => []
    end in
  let straight :=
    if straight_line (scores_of db (evaluation_id evaluation))
    then ["Straight-line scoring"%string]
    else [] in
  (fast ++ failed ++ straight)%list.

(** The body of the loop over the completed evaluations: an evaluation
    with at least one flag adds one record. *)
Definition flag_step (db : DB) (flagged_evaluations : list flagged)
    (evaluation : Evaluation) : list flagged :=
  match completion_time evaluation with
  | None => flagged_evaluations
  | Some completed =>
    match flags_of db evaluation with
    | [] => flagged_evaluations
    | fl =>
      (flagged_evaluations ++
       [mkFlagged (evaluation_id evaluation) (evaluator_id evaluation)
                  (evaluation_content_id evaluation) fl completed])%list
    end
  end.

(** [flag_low_quality_evaluations()]: the query keeps the evaluations whose
    [completion_time] is set, the loop visits them in table order. *)
Definition flag_low_quality_evaluations (db : DB) : list flagged :=
  fold_left (flag_step db) (evaluations db) [].

(** *** Scores grouped by criterion *)

(** [scores_by_criterion]: a dict of lists, in first-insertion order. *)
Definition scores_by_criterion (scores : list EvaluationScore) : list (Z * list Q) :=
  fold_left (fun groups s => dict_append Z.eqb groups (score_criterion_id s) (score s))
            scores [].

End QualityController.

(** ** evaluator.py *)

Module Evaluator.

(** [session.query(Evaluation).filter(evaluator_id == u, content_id == c)]. *)
Definition same_pair (u c : Z) (e : Evaluation) : bool :=
  (evaluator_id e =? u) && (evaluation_content_id e =? c).

(** [start_evaluation(user_id, content_id)] at time [now]. *)
Definition start_evaluation (now : Z) (uid cid : Z) (db : DB) : DB * outcome (option Z) :=
  get_db_session
    (fun session =>
       match get user_id (users session) uid, get content_id (contents session) cid with
       | Some _, Some _ =>
         match find (same_pair uid cid) (evaluations session) with
         | Some existing => Returned (session, Some (evaluation_id existing))
         | None =>
           let evaluation :=
             mkEvaluation (next_id evaluation_id (evaluations session))
                          uid cid now None None None None None in
           Returned (set_evaluations session (evaluations session ++ [evaluation])%list,
                     Some (evaluation_id evaluation))
         end
       | _, _ => Returned (session, None)
       end)
    db.

(** [evaluation.completion_time = now] and the four assignments after
    it. *)
Definition complete_evaluation (now : Z) (duration : Z) (rating : Q)
    (comment : option string) (passed : bool) (e : Evaluation) : Evaluation :=
  mkEvaluation (evaluation_id e) (evaluator_id e) (evaluation_content_id e)
               (start_time e) (Some now) (Some duration) (Some rating)
               comment (Some passed).

(** The body of the loop over [scores.items()]: skip an unknown criterion,
    skip a score out of the criterion's scale, otherwise add a row. *)
Definition add_score (eid : Z) (session : DB) (item : Z * Q) : DB :=
  let (cid, sc) := item in
  match get criterion_id (criteria session) cid with
  | None => session
  | Some criterion =>
    if (Qlt_bool sc (inject_Z (scale_min criterion)) ||
        Qlt_bool (inject_Z (scale_max criterion)) sc)%bool
    then session
    else
      let score_record :=
        mkScore (next_id score_id (evaluation_scores session)) eid cid sc in
      set_evaluation_scores session (evaluation_scores session ++ [score_record])%list
  end.

(** [int((now - start_time).total_seconds())]: whole seconds, truncated
    toward zero. *)
Definition whole_seconds (now start : Z) : Z := Z.quot (now - start) 1000000.

(** [submit_evaluation(evaluation_id, scores, overall_rating, comments,
    quality_check_answers)] at time [now].

    [database.py] hands every [get_db_session()] the same scoped session.
    With answers to check, [validate_quality_checks] opens its own
    [get_db_session()] block, and the [session.close()] that ends it
    detaches the evaluation loaded here: the five assignments that follow
    change an object the session no longer tracks, and no commit writes
    them.  The score rows are added to the session itself and are written.
    Without answers ([None] or an empty dict) no inner block is opened and
    the evaluation is written as well. *)
Definition submit_evaluation (now : Z) (eid : Z) (scores : list (Z * Q))
    (rating : Q) (comment : option string)
    (quality_check_answers : option (list (Z * string))) (db : DB)
  : DB * outcome (bool * string) :=
  get_db_session
    (fun session =>
       match get evaluation_id (evaluations session) eid with
       | None =>
         Returned (session,
                   (false, ("Evaluation ID " ++ str_of_int eid ++ " not found")%string))
       | Some evaluation =>
         match completion_time evaluation with
         | Some _ =>
           Returned (session,
                     (false,
                      ("Evaluation ID " ++ str_of_int eid ++ " already completed")%string))
         | None =>
           let duration := whole_seconds now (start_time evaluation) in
           let (passed_checks, attached) :=
             match quality_check_answers with
             | Some (a :: rest) =>
               (QualityController.validate_quality_checks session (a :: rest), false)
             | _ => (true, true)
             end in
           let session1 :=
             if attached
             then set_evaluations session
                    (update_first (fun e => evaluation_id e =? eid)
                       (complete_evaluation now duration rating comment passed_checks)
                       (evaluations session))
             else session in
           let session2 := fold_left (add_score eid) scores session1 in
           Returned (session2, (true, "Evaluation submitted successfully"%string))
         end
       end)
    db.

End Evaluator.

(** ** utils.py: password generation *)

Module Utils.

(** The random source: an arbitrary stream of draws and a read position.
    [randbelow n] is what [random.choice] and [random.shuffle] are built
    on. *)
Record rng : Type := mkRng { draws : nat -> nat; position : nat }.

Definition Rand (A : Type) : Type := rng -> A * rng.

Definition ret {A : Type} (a : A) : Rand A := fun g => (a, g).

Definition bind {A B : Type} (m : Rand A) (k : A -> Rand B) : Rand B :=
  fun g => let (a, g') := m g in k a g'.

Notation "x <- m ;; k" := (bind m (fun x => k))
  (at level 61, m at next level, right associativity).

Definition randbelow (n : nat) : Rand nat :=
  fun g => ((draws g (position g) mod n)%nat, mkRng (draws g) (S (position g))).

(** [random.choice(seq)]. *)
Definition choice (seq : list ascii) : Rand ascii :=
  i <- randbelow (List.length seq) ;;
  ret (nth i seq "000"%char).

(** [[random.choice(seq) for _ in range(n)]]. *)
Fixpoint choices (seq : list ascii) (n : nat) : Rand (list ascii) :=
  match n with
  | O => ret []
  | S n' =>
    c <- choice seq ;;
    cs <- choices seq n' ;;
    ret (c :: cs)
  end.

(** [x[i] = v]. *)
Fixpoint set_nth (x : list ascii) (i : nat) (v : ascii) : list ascii :=
  match x, i with
  | [], _ => []
  | _ :: rest, O => v :: rest
  | a :: rest, S i' => a :: set_nth rest i' v
  end.

(** [x[i], x[j] = x[j], x[i]]. *)
Definition swap (x : list ascii) (i j : nat) : list ascii :=
  let xi := nth i x "000"%char in
  let xj := nth j x "000"%char in
  set_nth (set_nth x i xj) j xi.

(** [random.shuffle(x)]: for [i] from [len(x) - 1] down to [1], swap
    [x[i]] with [x[randbelow(i + 1)]].  The argument [n] counts the
    positions still to visit. *)
Fixpoint shuffle_from (n : nat) (x : list ascii) : Rand (list ascii) :=
  match n with
  | O => ret x
  | S i =>
    match i with
    | O => ret x
    | S _ =>
      j <- randbelow (S i) ;;
      shuffle_from i (swap x i j)
    end
  end.

Definition shuffle (x : list ascii) : Rand (list ascii) :=
  shuffle_from (List.length x) x.

Definition ascii_lowercase : string := "abcdefghijklmnopqrstuvwxyz".
Definition ascii_uppercase : string := "ABCDEFGHIJKLMNOPQRSTUVWXYZ".
Definition digits : string := "0123456789".
Definition special : string := "!@#$%^&*()-_=+[]{}|;:,.<>?".

(** [generate_password(length)]. *)
Definition generate_password (length : Z) : Rand string :=
  c1 <- choice (list_ascii_of_string ascii_lowercase) ;;
  c2 <- choice (list_ascii_of_string ascii_uppercase) ;;
  c3 <- choice (list_ascii_of_string digits) ;;
  c4 <- choice (list_ascii_of_string special) ;;
  let all_chars := (ascii_lowercase ++ ascii_uppercase ++ digits ++ special)%string in
  more <- choices (list_ascii_of_string all_chars) (Z.to_nat (length - 4)) ;;
  password <- shuffle ([c1; c2; c3; c4] ++ more)%list ;;
  ret (string_of_list_ascii password).

(** Does the string hold a character of the given set? *)
Definition contains_one_of (set : string) (s : string) : Prop :=
  exists c, In c (list_ascii_of_string s) /\ In c (list_ascii_of_string set).

End Utils.

(** ** analytics.py: improvement areas *)

Module AnalyticsEngine.

(** The dict [_get_model_scores] builds (the human benchmark fills the
    first two entries only). *)
Record score_data : Type := mkScoreData {
  sd_criteria : list (string * Q);
  sd_domains : list (string * Q);
  domain_contents : list (string * list Z);
  content_evals : list (Z * list Z);
  eval_scores : list (Z * list (string * Q))
}.

Definition option_string_eqb (a : option string) (b : string) : bool :=
  match a with
  | Some s => String.eqb s b
  | None => false
  end.

Definition mem (k : Z) (l : list Z) : bool := existsb (Z.eqb k) l.

(** [Evaluation.content_id.in_(content_ids)],
    [Evaluation.passed_quality_checks != False] and
    [Evaluation.completion_time.isnot(None)].  In SQL the comparison of a
    NULL flag with [False] is not true, so a row without a flag is left
    out. *)
Definition counted_evaluation (content_ids : list Z) (e : Evaluation) : bool :=
  mem (evaluation_content_id e) content_ids &&
  match passed_quality_checks e with Some true => true | _ => false end &&
  match completion_time e with Some _ => true | None => false end.

(** The join of the scores of the given evaluations with the name of their
    criterion. *)
Definition named_scores (db : DB) (evaluation_ids : list Z)
  : list (EvaluationScore * string) :=
  flat_map
    (fun s =>
       map (fun c => (s, criterion_name c))
           (filter (fun c => criterion_id c =? score_criterion_id s) (criteria db)))
    (filter (fun s => mem (score_evaluation_id s) evaluation_ids)
            (evaluation_scores db)).

(** [{k: sum(v) / len(v) for k, v in d.items() if v}]. *)
Definition averages {K : Type} (d : list (K * list Q)) : list (K * Q) :=
  flat_map (fun kv => match snd kv with
                      | [] => []
                      | _ :: _ => [(fst kv, avgQ (snd kv))]
                      end) d.

(** The inner loops that find which domains a score belongs to: a domain
    takes the score once if one of its contents holds the evaluation. *)
Definition domain_holds (content_evals : list (Z * list Z)) (eid : Z)
    (content_ids : list Z) : bool :=
  existsb (fun cid => match dict_get Z.eqb content_evals cid with
                      | Some evals => mem eid evals
                      | None => false
                      end) content_ids.

Definition add_domain_score (domain_contents : list (string * list Z))
    (content_evals : list (Z * list Z)) (eid : Z) (v : Q)
    (domain_scores : list (string * list Q)) : list (string * list Q) :=
  fold_left
    (fun ds (dc : string * list Z) =>
       if domain_holds content_evals eid (snd dc)
       then dict_append String.eqb ds (fst dc) v
       else ds)
    domain_contents domain_scores.

(** [result["domain_contents"]]: the content ids of each domain. *)
Definition group_by_domain (cs : list Content) : list (string * list Z) :=
  fold_left (fun d c => dict_append String.eqb d (content_domain c) (content_id c)) cs [].

(** [result["content_evals"]]: the evaluation ids of each content. *)
Definition group_by_content (evals : list Evaluation) : list (Z * list Z) :=
  fold_left (fun d e => dict_append Z.eqb d (evaluation_content_id e) (evaluation_id e))
            evals [].

(** [result["eval_scores"]]: for each evaluation, its score by criterion
    name. *)
Definition eval_scores_step (d : list (Z * list (string * Q)))
    (sn : EvaluationScore * string) : list (Z * list (string * Q)) :=
  let (s, cname) := sn in
  let inner := match dict_get Z.eqb d (score_evaluation_id s) with
               | Some i => i
               | None => []
               end in
  dict_set Z.eqb d (score_evaluation_id s) (dict_set String.eqb inner cname (score s)).

(** [criteria_scores]: the scores of each criterion name. *)
Definition criteria_scores_of (scores : list (EvaluationScore * string))
  : list (string * list Q) :=
  fold_left (fun d (sn : EvaluationScore * string) =>
               dict_append String.eqb d (snd sn) (score (fst sn)))
            scores [].

(** [domain_scores]: the scores of each domain, every domain of the model
    starting with the empty list. *)
Definition domain_scores_of (dcs : list (string * list Z)) (ces : list (Z * list Z))
    (scores : list (EvaluationScore * string)) : list (string * list Q) :=
  fold_left (fun d (sn : EvaluationScore * string) =>
               add_domain_score dcs ces (score_evaluation_id (fst sn)) (score (fst sn)) d)
            scores (map (fun dc => (fst dc, [])) dcs).

(** [_get_model_scores(session, model_name)]. *)
Definition _get_model_scores (db : DB) (name : string) : score_data :=
  let cs := filter (fun c => option_string_eqb (model_name c) name &&
                             String.eqb (source_type c) "ai") (contents db) in
  match cs with
  | [] => mkScoreData [] [] [] [] []
  | _ :: _ =>
    let dcs := group_by_domain cs in
    let content_ids := map content_id cs in
    let evals := filter (counted_evaluation content_ids) (evaluations db) in
    match evals with
    | [] => mkScoreData [] [] dcs [] []
    | _ :: _ =>
      let ces := group_by_content evals in
      let scores := named_scores db (map evaluation_id evals) in
      mkScoreData (averages (criteria_scores_of scores))
                  (averages (domain_scores_of dcs ces scores))
                  dcs ces (fold_left eval_scores_step scores [])
    end
  end.

(** [_get_human_benchmark_scores(session)]. *)
Definition _get_human_benchmark_scores (db : DB) : score_data :=
  let cs := filter (fun c => String.eqb (source_type c) "human") (contents db) in
  match cs with
  | [] => mkScoreData [] [] [] [] []
  | _ :: _ =>
    let content_ids := map content_id cs in
    let evals := filter (counted_evaluation content_ids) (evaluations db) in
    match evals with
    | [] => mkScoreData [] [] [] [] []
    | _ :: _ =>
      let eval_domains :=
        fold_left
          (fun d c =>
             fold_left
               (fun d' e =>
                  if evaluation_content_id e =? content_id c
                  then dict_set Z.eqb d' (evaluation_id e) (content_domain c)
                  else d')
               evals d)
          cs [] in
      let scores := named_scores db (map evaluation_id evals) in
      let domain_scores :=
        fold_left (fun d (sn : EvaluationScore * string) =>
                     match dict_get Z.eqb eval_domains (score_evaluation_id (fst sn)) with
                     | Some domain => dict_append String.eqb d domain (score (fst sn))
                     | None => d
                     end)
                  scores [] in
      mkScoreData (averages (criteria_scores_of scores)) (averages domain_scores) [] [] []
    end
  end.

(** The dict [_create_improvement_suggestion] returns. *)
Record suggestion_dict : Type := mkSuggestion {
  sg_model_name : string;
  sg_criterion : string;
  sg_current_score : Q;
  sg_target_score : num;
  sg_priority : string;
  sg_domain : option string;
  sg_suggestion : string
}.

(** The tip appended for a known criterion name. *)
Definition criterion_tip (criterion : string) : string :=
  let c := lower criterion in
  if String.eqb c "accuracy" then
    " Enhance factual correctness by improving source validation and fact-checking processes."
  else if String.eqb c "coherence" then
    " Improve logical flow and narrative consistency by strengthening contextual awareness across longer texts."
  else if String.eqb c "relevance" then
    " Improve focus on provided topics by enhancing prompt understanding and topic adherence mechanisms."
  else if String.eqb c "creativity" then
    " Increase originality by expanding the model's diverse expression patterns and reducing repetitive structures."
  else if String.eqb c "completeness" then
    " Ensure comprehensive coverage of subjects by improving the model's thoroughness in addressing all aspects of a topic."
  else if String.eqb c "language_quality" then
    " Enhance grammar, vocabulary and writing style by refining linguistic patterns and reducing awkward phrasing."
  else "".

(** Truthiness of an [Optional[str]]. *)
Definition truthy_str (o : option string) : option string :=
  match o with
  | Some EmptyString => None
  | other => other
  end.

(** [_create_improvement_suggestion(model_name, domain, criterion,
    current_score, target_score)].  Line 620 formats [target_formatted]
    with itself: when [target_score] is a float the name is read before it
    is bound. *)
Definition _create_improvement_suggestion (name : string) (domain : option string)
    (criterion : string) (current : Q) (target : num) : outcome suggestion_dict :=
  let current_formatted := format_2f current in
  bindO
    (if isinstance_float target
     then Raised (UnboundLocalError "target_formatted")
     else Returned "N/A"%string)
    (fun target_formatted =>
       let score_gap :=
         if isinstance_float target then (num_value target - current)%Q else 0%Q in
       let prio :=
         if Qle_bool 1 score_gap then "high"%string
         else if Qle_bool (1 # 2) score_gap then "medium"%string
         else "low"%string in
       let where_ :=
         match truthy_str domain with
         | Some d => ("in " ++ d ++ " content ")%string
         | None => ""%string
         end in
       let suggestion_text :=
         ("Improve " ++ criterion ++ " " ++ where_ ++
          "from " ++ current_formatted ++ " to " ++ target_formatted ++ "." ++
          criterion_tip criterion)%string in
       Returned (mkSuggestion name criterion current target prio
                              (truthy_str domain) suggestion_text)).

(** One entry of [criteria_to_improve] / [domains_to_improve]. *)
Record gap_entry : Type := mkGap {
  gap_key : string;
  gap_model_score : Q;
  gap_benchmark_score : Q;
  gap : Q
}.

(** The gaps that reach the threshold, for one of the two dicts. *)
Definition gaps_of (threshold : Q) (model comparison : list (string * Q))
  : list gap_entry :=
  flat_map
    (fun kv =>
       match dict_get String.eqb comparison (fst kv) with
       | Some comparison_score =>
         let g := (comparison_score - snd kv)%Q in
         if Qle_bool threshold g
         then [mkGap (fst kv) (snd kv) comparison_score g]
         else []
       | None => []
       end)
    model.

(** [sorted(d.items(), key=lambda x: x[1])]: a stable insertion sort. *)
Fixpoint insert_sorted (x : string * Q) (l : list (string * Q)) : list (string * Q) :=
  match l with
  | [] => [x]
  | y :: rest => if Qlt_bool (snd x) (snd y) then x :: y :: rest
                 else y :: insert_sorted x rest
  end.

Definition sorted_by_value (l : list (string * Q)) : list (string * Q) :=
  fold_left (fun acc x => insert_sorted x acc) l [].

(** [d.get(k, [])]. *)
Definition get_list {K A : Type} (eqb : K -> K -> bool) (d : list (K * list A)) (k : K)
  : list A :=
  match dict_get eqb d k with
  | Some l => l
  | None => []
  end.

(** The three nested loops that collect the per-criterion scores of one
    domain's evaluations. *)
Definition collect_score (d : list (string * list Q)) (cs : string * Q)
  : list (string * list Q) :=
  dict_append String.eqb d (fst cs) (snd cs).

Definition collect_evaluation (ms : score_data) (d : list (string * list Q)) (eid : Z)
  : list (string * list Q) :=
  fold_left collect_score (get_list Z.eqb (eval_scores ms) eid) d.

Definition collect_content (ms : score_data) (d : list (string * list Q)) (cid : Z)
  : list (string * list Q) :=
  fold_left (collect_evaluation ms) (get_list Z.eqb (content_evals ms) cid) d.

Definition domain_criteria (ms : score_data) (domain : string)
  : list (string * list Q) :=
  fold_left (collect_content ms) (get_list String.eqb (domain_contents ms) domain) [].

(** The body of the loop over [domains_to_improve]. *)
Definition domain_suggestion (name : string) (ms : score_data)
    (suggestions : list suggestion_dict) (domain_gap : gap_entry)
  : outcome (list suggestion_dict) :=
  match sorted_by_value (averages (domain_criteria ms (gap_key domain_gap))) with
  | [] => Returned suggestions
  | (worst_criterion, worst_score) :: _ =>
    bindO (_create_improvement_suggestion name (Some (gap_key domain_gap))
             worst_criterion worst_score (PyFloat (gap_benchmark_score domain_gap)))
          (fun s => Returned (suggestions ++ [s])%list)
  end.

(** The body of the loop over [criteria_to_improve]. *)
Definition criterion_suggestion (name : string)
    (suggestions : list suggestion_dict) (criterion_gap : gap_entry)
  : outcome (list suggestion_dict) :=
  if existsb (fun s => String.eqb (sg_criterion s) (gap_key criterion_gap)) suggestions
  then Returned suggestions
  else
    bindO (_create_improvement_suggestion name None (gap_key criterion_gap)
             (gap_model_score criterion_gap)
             (PyFloat (gap_benchmark_score criterion_gap)))
          (fun s => Returned (suggestions ++ [s])%list).

(** [session.add(ImprovementSuggestion(..., status="open"))]. *)
Definition add_improvement (name : string) (session : DB) (s : suggestion_dict) : DB :=
  set_improvements session
    (improvements session ++
     [mkImprovement (next_id improvement_id (improvements session)) name
        (sg_domain s) (sg_criterion s) (sg_current_score s)
        (num_value (sg_target_score s)) (sg_suggestion s) (sg_priority s) "open"])%list.

(** [save_analytics_report(report_type, title, description, ...)]. *)
Definition save_analytics_report (now : Z) (rtype rtitle rdescription : string)
    (session : DB) : DB :=
  set_reports session
    (reports session ++
     [mkReport (next_id report_id (reports session)) rtype rtitle rdescription now])%list.

Inductive improvement_areas : Type :=
| No_evaluation_data (name : string)
| Improvement_areas (criteria_to_improve domains_to_improve : list gap_entry)
                    (suggestions : list suggestion_dict).

(** The baseline: the named comparison model when it has data, the human
    benchmark otherwise. *)
Definition comparison_of (db : DB) (comparison_model : option string)
  : score_data * string :=
  match truthy_str comparison_model with
  | Some other =>
    let cmp := _get_model_scores db other in
    match sd_criteria cmp with
    | [] => (_get_human_benchmark_scores db, "human benchmark"%string)
    | _ :: _ => (cmp, other)
    end
  | None => (_get_human_benchmark_scores db, "human benchmark"%string)
  end.

(** [identify_improvement_areas(model_name, threshold, comparison_model)]
    at time [now]. *)
Definition identify_improvement_areas (now : Z) (name : string) (threshold : Q)
    (comparison_model : option string) (db : DB)
  : DB * outcome improvement_areas :=
  get_db_session
    (fun session =>
       let model_scores := _get_model_scores session name in
       match sd_criteria model_scores with
       | [] => Returned (session, No_evaluation_data name)
       | _ :: _ =>
         let (comparison_scores, comparison_name) :=
           comparison_of session comparison_model in
         let criteria_to_improve :=
           gaps_of threshold (sd_criteria model_scores) (sd_criteria comparison_scores) in
         let domains_to_improve :=
           gaps_of threshold (sd_domains model_scores) (sd_domains comparison_scores) in
         bindO (foldO (domain_suggestion name model_scores) domains_to_improve [])
           (fun suggestions1 =>
              bindO (foldO (criterion_suggestion name) criteria_to_improve suggestions1)
                (fun suggestions =>
                   let session1 := fold_left (add_improvement name) suggestions session in
                   let session2 :=
                     save_analytics_report now "improvement_areas"
                       ("Improvement Areas for " ++ name)%string
                       ("Analysis of areas where " ++ name ++
                        " needs improvement compared to " ++ comparison_name)%string
                       session1 in
                   Returned (session2,
                             Improvement_areas criteria_to_improve domains_to_improve
                                               suggestions)))
       end)
    db.

End AnalyticsEngine.

(** ** The vocabulary of the specification

    Each definition below restates a notion the specification uses, in its
    own words, so that the theorems can compare it with what the code
    computes. *)

Module Spec.

(** An answer is correct when its question is stored and its text equals the
    stored correct answer up to case. *)
Definition answer_is_correct (db : DB) (item : Z * string) : bool :=
  match get question_id (questions db) (fst item) with
  | Some q => String.eqb (lower (correct_answer q)) (lower (snd item))
  | None => false
  end.

Definition references_unknown_question (db : DB) (item : Z * string) : bool :=
  match get question_id (questions db) (fst item) with
  | Some _ => false
  | None => true
  end.

Definition correct_answers (db : DB) (answers : list (Z * string)) : nat :=
  List.length (filter (answer_is_correct db) answers).

Definition unknown_answers (db : DB) (answers : list (Z * string)) : nat :=
  List.length (filter (references_unknown_question db) answers).

(** The fraction of the supplied answers that are correct. *)
Definition fraction_correct (db : DB) (answers : list (Z * string)) : Q :=
  (inject_Z (Z.of_nat (correct_answers db answers)) /
   inject_Z (Z.of_nat (List.length answers)))%Q.

(** The three conditions the low-quality scan looks for, as the code tests
    them: a stored, non-zero duration under the minimum; quality checks
    explicitly failed; at least two scores, all equal. *)
Definition fast_completion (e : Evaluation) : bool :=
  match duration_seconds e with
  | Some d => negb (d =? 0) && (d <? Config.MIN_EVALUATION_TIME_SECONDS)
  | None => false
  end.

Definition failed_quality_checks (e : Evaluation) : bool :=
  match passed_quality_checks e with
  | Some false => true
  | _ => false
  end.

Definition straight_line_scoring (db : DB) (e : Evaluation) : bool :=
  let given := map score (QualityController.scores_of db (evaluation_id e)) in
  (2 <=? List.length given)%nat &&
  forallb (fun v => Qeq_bool v (hd 0%Q given)) given.

Definition low_quality (db : DB) (e : Evaluation) : bool :=
  match completion_time e with
  | Some _ => fast_completion e || failed_quality_checks e || straight_line_scoring db e
  | None => false
  end.

(** The expected reading time of a text: ten characters a second, and never
    under the minimum evaluation time. *)
Definition expected_time (content : Content) : Q :=
  Qmax (inject_Z Config.MIN_EVALUATION_TIME_SECONDS)
       (inject_Z (len_str (text content)) / inject_Z 10).

(** A submitted pair is valid when its criterion is stored and the score
    lies within the criterion's scale. *)
Definition score_is_valid (db : DB) (item : Z * Q) : bool :=
  match get criterion_id (criteria db) (fst item) with
  | Some c => Qle_bool (inject_Z (scale_min c)) (snd item) &&
              Qle_bool (snd item) (inject_Z (scale_max c))
  | None => false
  end.

(** The (criterion, score) pair a stored EvaluationScore row records. *)
Definition score_row_pair (r : EvaluationScore) : Z * Q := (score_criterion_id r, score r).

(** The number of Evaluation rows of one (evaluator, content) pair. *)
Definition pair_rows (db : DB) (uid cid : Z) : nat :=
  List.length (filter (Evaluator.same_pair uid cid) (evaluations db)).

(** The statement of the specification about starting an evaluation twice:
    the same id both times, no new row at the second call, and exactly one
    row for the pair afterwards. *)
Definition idempotent_start (db : DB) (now1 now2 uid cid : Z) : Prop :=
  exists id db1,
    Evaluator.start_evaluation now1 uid cid db = (db1, Returned (Some id)) /\
    Evaluator.start_evaluation now2 uid cid db1 = (db1, Returned (Some id)) /\
    pair_rows db1 uid cid = 1%nat.

(** The statement of the specification about generated passwords. *)
Definition password_as_requested (length : Z) (g : Utils.rng) : Prop :=
  let pw := fst (Utils.generate_password length g) in
  Z.of_nat (String.length pw) = length /\
  Utils.contains_one_of Utils.ascii_lowercase pw /\
  Utils.contains_one_of Utils.ascii_uppercase pw /\
  Utils.contains_one_of Utils.digits pw /\
  Utils.contains_one_of Utils.special pw.

End Spec.

(** ** Invariants of the loops, used by the proofs *)

Module Invariants.

(** One when the two characters are the same, zero otherwise: the
    contribution of one list position to an occurrence count. *)
Definition hit (a c : ascii) : nat := if ascii_dec a c then 1%nat else 0%nat.

(** Every list stored in the dict is non-empty. *)
Definition all_nonempty {K V : Type} (d : list (K * list V)) : Prop :=
  Forall (fun kv => snd kv <> []) d.

(** A non-empty dict of non-empty lists: what the collecting loops of
    [identify_improvement_areas] hold once one score has been collected. *)
Definition collected (d : list (string * list Q)) : Prop :=
  d <> [] /\ all_nonempty d.

(** The evaluation has a non-empty entry in [eval_scores]. *)
Definition recorded (d : list (Z * list (string * Q))) (eid : Z) : Prop :=
  exists inner, dict_get Z.eqb d eid = Some inner /\ inner <> [].

(** Every non-empty list of domain scores comes from a joined score whose
    evaluation belongs to one of the domain's contents. *)
Definition sourced (dcs : list (string * list Z)) (ces : list (Z * list Z))
    (scores : list (EvaluationScore * string)) (ds : list (string * list Q)) : Prop :=
  forall k l, In (k, l) ds -> l <> [] ->
    exists sn cids, In sn scores /\ In (k, cids) dcs /\
                    AnalyticsEngine.domain_holds ces (score_evaluation_id (fst sn)) cids
                    = true.

End Invariants.

(** ** Concrete stores used by the examples *)

Module Scenarios.

Open Scope string_scope.

Definition evaluator_1 : User := mkUser 1 "eve" "evaluator" true.

Definition ai_article : Content :=
  mkContent 1 "Release notes" "A short generated body." "news_articles" "ai" (Some "gpt").

Definition human_article : Content :=
  mkContent 2 "Editorial" "A short written body." "news_articles" "human" None.

Definition accuracy : EvaluationCriterion := mkCriterion 1 "accuracy" 1 5 None.
Definition coherence : EvaluationCriterion := mkCriterion 2 "coherence" 1 5 None.

(** Ten stored quality-check questions, numbered 1 to 10, whose correct
    answer is ["Yes"]. *)
Definition ten_questions : list QualityCheckQuestion :=
  map (fun k => mkQuestion k "Is the text in English?" "Yes" None true)
      [1; 2; 3; 4; 5; 6; 7; 8; 9; 10].

(** A store with a user, an AI text, a human text, two criteria and the ten
    questions; nothing has been evaluated yet. *)
Definition fresh_db : DB :=
  mkDB [evaluator_1] [ai_article; human_article] [accuracy; coherence]
       [] [] ten_questions [] [].

(** Ten answers, the first seven right (in mixed case), the last three
    wrong. *)
Definition seven_right : list (Z * string) :=
  [(1, "yes"); (2, "YES"); (3, "Yes"); (4, "yEs"); (5, "yes"); (6, "yes");
   (7, "yes"); (8, "no"); (9, "no"); (10, "maybe")].

(** Ten answers, six of them right. *)
Definition six_right : list (Z * string) :=
  [(1, "yes"); (2, "YES"); (3, "Yes"); (4, "yEs"); (5, "yes"); (6, "yes");
   (7, "no"); (8, "no"); (9, "no"); (10, "maybe")].

(** Two right answers to stored questions and one answer to a question that
    is not stored. *)
Definition two_right_one_unknown : list (Z * string) :=
  [(1, "yes"); (2, "Yes"); (99, "yes")].

(** A text of one thousand characters. *)
Definition thousand_chars : string := string_of_list_ascii (repeat "a"%char 1000).

Definition long_article : Content :=
  mkContent 3 "Long read" thousand_chars "news_articles" "human" None.

(** An evaluation of the long text completed in [d] seconds. *)
Definition timed_db (d : Z) : DB :=
  mkDB [evaluator_1] [long_article] [accuracy] 
       [mkEvaluation 1 1 3 0 (Some (d * 1000000)) (Some d) (Some (3 # 1)%Q) None (Some true)]
       [] [] [] [].

(** The evaluator starts on the AI text at time 0 and submits half a second
    later: the store [submit_evaluation] leaves holds a completed evaluation
    of zero whole seconds. *)
Definition rushed_db : DB :=
  let started := fst (Evaluator.start_evaluation 0 1 1 fresh_db) in
  fst (Evaluator.submit_evaluation 500000 1 [(1, (3 # 1)%Q)] (3 # 1)%Q None None started).

(** The AI text was rated 2 and the human text 4 on accuracy, each through
    [start_evaluation] and [submit_evaluation]. *)
Definition rated_db : DB :=
  let s1 := fst (Evaluator.start_evaluation 0 1 1 fresh_db) in
  let s2 := fst (Evaluator.submit_evaluation 90000000 1 [(1, (2 # 1)%Q)] (2 # 1)%Q
                                             None None s1) in
  let s3 := fst (Evaluator.start_evaluation 100000000 1 2 s2) in
  fst (Evaluator.submit_evaluation 190000000 2 [(1, (4 # 1)%Q)] (4 # 1)%Q None None s3).

(** Two rows for the same (evaluator, content) pair, as two racing
    [start_evaluation] calls leave them. *)
Definition duplicated_db : DB :=
  mkDB [evaluator_1] [ai_article; human_article] [accuracy; coherence]
       [mkEvaluation 1 1 1 0 None None None None None;
        mkEvaluation 2 1 1 0 None None None None None]
       [] ten_questions [] [].

(** A pending evaluation of the AI text by the evaluator. *)
Definition pending_db : DB := fst (Evaluator.start_evaluation 0 1 1 fresh_db).

(** A random source. *)
Definition some_rng : Utils.rng := Utils.mkRng (fun n => (7 * n + 3)%nat) 0.

End Scenarios.

(** ** utils.py: text helpers *)

Module TextUtils.

(** The strings of this module are ASCII text, one character for each code
    point below 128: there [str.upper], [str.lower] and [str.capitalize]
    change the letters A-Z and a-z only and keep the length.  On other
    characters Python's case mappings differ (they can even change the
    length), so a statement that depends on them is made for ASCII text. *)
Definition is_ascii (s : string) : bool :=
  forallb (fun c => (nat_of_ascii c <? 128)%nat) (list_ascii_of_string s).

(** [c.upper()] on one ASCII character. *)
Definition upper_ascii (c : ascii) : ascii :=
  let n := nat_of_ascii c in
  if ((97 <=? n)%nat && (n <=? 122)%nat)%bool then ascii_of_nat (n - 32) else c.

(** [text[:k]]: a negative stop counts from the end, and the stop is clipped
    to the string. *)
Definition slice_to (text : string) (k : Z) : string :=
  let n := len_str text in
  let stop := if k <? 0 then Z.max 0 (n + k) else Z.min k n in
  substring 0 (Z.to_nat stop) text.

(** [truncate_text(text, max_length, ellipsis)]. *)
Definition truncate_text (text : string) (max_length : Z) (ellipsis : string) : string :=
  match text with
  | EmptyString => EmptyString
  | String _ _ =>
    if len_str text <=? max_length then text
    else (slice_to text (max_length - len_str ellipsis) ++ ellipsis)%string
  end.

(** [s.split(sep)] for a one-character separator: the pieces between the
    separators, empty pieces included; never the empty list. *)
Fixpoint split (sep : ascii) (s : string) : list string :=
  match s with
  | EmptyString => [EmptyString]
  | String c rest =>
    if Ascii.eqb c sep then EmptyString :: split sep rest
    else match split sep rest with
         | word :: words => String c word :: words
         | [] => [String c EmptyString]
         end
  end.

(** [word.capitalize()] on ASCII text: the first character in upper case,
    the others in lower case. *)
Definition capitalize (word : string) : string :=
  match word with
  | EmptyString => EmptyString
  | String c rest => String (upper_ascii c) (lower rest)
  end.

(** [sep.join(words)]. *)
Fixpoint join (sep : string) (words : list string) : string :=
  match words with
  | [] => EmptyString
  | [word] => word
  | word :: rest => (word ++ sep ++ join sep rest)%string
  end.

(** [get_domain_label(domain_code)] on ASCII text. *)
Definition get_domain_label (domain_code : string) : string :=
  match domain_code with
  | EmptyString => EmptyString
  | String _ _ => join " " (map capitalize (split "_" domain_code))
  end.

(** The label read off the code one character at a time: an underscore
    becomes a space, a character that starts a word is put in upper case and
    any other character in lower case. *)
Fixpoint label_from (word_start : bool) (code : string) : string :=
  match code with
  | EmptyString => EmptyString
  | String c rest =>
    if Ascii.eqb c "_" then String " " (label_from true rest)
    else String (if word_start then upper_ascii c else lower_ascii c)
                (label_from false rest)
  end.

End TextUtils.


(** ** evaluator.py: the queries of the evaluator *)

Module Queries.

(** Reading an attribute of [None]. *)
Inductive attempt (A : Type) : Type :=
| Done : A -> attempt A
| AttributeError : string -> attempt A.

Arguments Done {A} _.
Arguments AttributeError {A} _.

(** One entry of the list [get_pending_evaluations] returns.  The source
    renders [start_time] with [isoformat()]; the record keeps the timestamp
    itself. *)
Record pending : Type := mkPending {
  pending_evaluation_id : Z;
  pending_content_id : Z;
  pending_title : string;
  pending_domain : string;
  pending_start_time : Z;
  elapsed_seconds : Q
}.

(** [Evaluation.evaluator_id == user_id, Evaluation.completion_time.is_(None)]. *)
Definition pending_of (uid : Z) (e : Evaluation) : bool :=
  (evaluator_id e =? uid) &&
  match completion_time e with
  | None => true
  | Some _ => false
  end.

(** [(now - start).total_seconds()]. *)
Definition total_seconds (now start : Z) : Q := (inject_Z (now - start) / inject_Z 1000000)%Q.

(** The loop of [get_pending_evaluations]: [clock i] is what
    [datetime.utcnow()] reads in the iteration numbered [i]. *)
Fixpoint pending_loop (db : DB) (clock : nat -> Z) (i : nat) (evals : list Evaluation)
    (result : list pending) : attempt (list pending) :=
  match evals with
  | [] => Done result
  | e :: rest =>
    match get content_id (contents db) (evaluation_content_id e) with
    | None => AttributeError "'NoneType' object has no attribute 'id'"
    | Some content =>
      pending_loop db clock (S i) rest
        (result ++ [mkPending (evaluation_id e) (content_id content) (title content)
                              (content_domain content) (start_time e)
                              (total_seconds (clock i) (start_time e))])%list
    end
  end.

(** [get_pending_evaluations(user_id)]. *)
Definition get_pending_evaluations (clock : nat -> Z) (uid : Z) (db : DB)
  : attempt (list pending) :=
  pending_loop db clock 0 (filter (pending_of uid) (evaluations db)) [].

(** [get_evaluation_criteria(domain)]: with a domain, its criteria and the
    general ones; all criteria when the domain is [None] or empty. *)
Definition get_evaluation_criteria (domain : option string) (db : DB)
  : list EvaluationCriterion :=
  match AnalyticsEngine.truthy_str domain with
  | Some d =>
    filter (fun c => match criterion_domain c with
                     | Some cd => String.eqb cd d
                     | None => true
                     end)
           (criteria db)
  | None => criteria db
  end.

(** [random.random()]: a multiple of [2 ** -53] in [[0, 1)]. *)
Definition random_float : Utils.Rand Q :=
  fun g =>
    ((Z.of_nat (Utils.draws g (Utils.position g)) mod 2 ^ 53) # (2 ^ 53),
     Utils.mkRng (Utils.draws g) (S (Utils.position g))).

(** The filters of [get_content_for_evaluation]; a filter whose argument is
    [None] or empty is not applied. *)
Definition content_matches (domain source_type model_name : option string)
    (exclude_ids : option (list Z)) (c : Content) : bool :=
  match AnalyticsEngine.truthy_str domain with
  | Some d => String.eqb (content_domain c) d
  | None => true
  end &&
  match AnalyticsEngine.truthy_str source_type with
  | Some s => String.eqb (Models.source_type c) s
  | None => true
  end &&
  match AnalyticsEngine.truthy_str model_name with
  | Some m => match Models.model_name c with
              | Some cm => String.eqb cm m
              | None => false
              end
  | None => true
  end &&
  match exclude_ids with
  | Some (x :: xs) => negb (AnalyticsEngine.mem (content_id c) (x :: xs))
  | _ => true
  end.

(** [session.query(Evaluation).filter(content_id == content.id).count()]. *)
Definition eval_count (db : DB) (c : Content) : Z :=
  Z.of_nat (List.length (filter (fun e => evaluation_content_id e =? content_id c)
                                (evaluations db))).

(** The sort key [(x[1], random.random())], one draw for each element in
    list order. *)
Fixpoint with_keys (db : DB) (contents : list Content)
  : Utils.Rand (list (Content * (Z * Q))) :=
  match contents with
  | [] => Utils.ret []
  | c :: rest =>
    Utils.bind random_float (fun r =>
    Utils.bind (with_keys db rest) (fun keyed =>
    Utils.ret ((c, (eval_count db c, r)) :: keyed)))
  end.

(** The order of Python tuples [(int, float)]. *)
Definition key_lt (a b : Z * Q) : bool :=
  (fst a <? fst b) || ((fst a =? fst b) && Qlt_bool (snd a) (snd b)).

(** [list.sort(key=...)] is stable: the elements are placed from the last to
    the first, each one before the first element whose key is not smaller. *)
Fixpoint insert_by_key {A : Type} (x : A * (Z * Q)) (sorted : list (A * (Z * Q)))
  : list (A * (Z * Q)) :=
  match sorted with
  | [] => [x]
  | y :: rest =>
    if key_lt (snd y) (snd x) then y :: insert_by_key x rest else x :: y :: rest
  end.

Definition sort_by_key {A : Type} (l : list (A * (Z * Q))) : list (A * (Z * Q)) :=
  fold_right insert_by_key [] l.

(** [get_content_for_evaluation(domain, source_type, model_name,
    exclude_ids)]. *)
Definition get_content_for_evaluation (domain source_type model_name : option string)
    (exclude_ids : option (list Z)) (db : DB) : Utils.Rand (option Content) :=
  match filter (content_matches domain source_type model_name exclude_ids)
               (contents db) with
  | [] => Utils.ret None
  | matching =>
    Utils.bind (with_keys db matching) (fun contents_with_counts =>
    Utils.ret (match sort_by_key contents_with_counts with
               | first :: _ => Some (fst first)
               | [] => None
               end))
  end.

End Queries.

(** ** Conditions on the store *)

Module Store.

(** Every evaluation refers to a stored content (the foreign key
    [evaluations.content_id]). *)
Definition content_stored (db : DB) : Prop :=
  Forall (fun e => get content_id (contents db) (evaluation_content_id e) <> None)
         (evaluations db).

(** No (evaluator, content) pair has two evaluation rows. *)
Definition pairs_unique (evals : list Evaluation) : Prop :=
  forall uid cid, (List.length (filter (Evaluator.same_pair uid cid) evals) <= 1)%nat.

End Store.

(** ** config.py: the content domains *)

Module Settings.

Definition CONTENT_DOMAINS : list string :=
  ["creative_writing"; "technical_documentation"; "marketing_copy";
   "news_articles"; "academic_papers"; "social_media_posts"]%string.

End Settings.

(** ** models.py, evaluator.py, utils.py: expert profiles *)

Module Experts.

(** What the JSON column [ExpertProfile.domains] holds: NULL, a list of
    domain names, or a text, which the code hands to [json.loads]. *)
Inductive domains_column : Type :=
| DomainsNull
| DomainsList (l : list string)
| DomainsText (s : string).

Record ExpertProfile : Type := mkProfile {
  profile_id : Z;
  profile_user_id : Z;
  profile_domains : domains_column;
  years_experience : Z;
  qualifications : option string;
  bio : option string;
  verified : bool
}.

(** [domain in domains] on a list of strings. *)
Definition has_domain (domain : string) (domains : list string) : bool :=
  existsb (String.eqb domain) domains.

(** [session.query(User).filter(User.id == uid, User.is_active == True).first()]. *)
Definition active_user (db : DB) (uid : Z) : option User :=
  find (fun u => (user_id u =? uid) && is_active u) (users db).

Section Decoding.

(** [json.loads] on the text of a [domains] column: the list the text
    encodes, [None] when decoding raises.  Texts that encode anything but a
    list of strings are left out of the model. *)
Variable json_loads : string -> option (list string).

(** The value of [domains] after
    [if isinstance(domains, str): try: ... except: domains = []]. *)
Definition decoded (column : domains_column) : option (list string) :=
  match column with
  | DomainsNull => None
  | DomainsList l => Some l
  | DomainsText s =>
    match json_loads s with
    | Some l => Some l
    | None => Some []
    end
  end.

(** [get_expert_qualification(user_id, domain)]. *)
Definition get_expert_qualification (profiles : list ExpertProfile) (uid : Z)
    (domain : string) (db : DB) : bool :=
  match active_user db uid with
  | None => false
  | Some user =>
    if String.eqb (role user) "admin" then true
    else
      match find (fun p => (profile_user_id p =? uid) && verified p) profiles with
      | None => false
      | Some profile =>
        match decoded (profile_domains profile) with
        | Some (d :: ds) => has_domain domain (d :: ds)
        | _ => false
        end
      end
  end.

(** The first loop of [assign_content_to_experts], over the verified
    profiles: [domain in None] raises. *)
Definition qualify (db : DB) (domain : string) (qualified_experts : list Z)
    (profile : ExpertProfile) : outcome (list Z) :=
  match decoded (profile_domains profile) with
  | None => Raised (TypeError "argument of type 'NoneType' is not iterable")
  | Some domains =>
    if has_domain domain domains then
      match active_user db (profile_user_id profile) with
      | Some user => Returned (qualified_experts ++ [user_id user])%list
      | None => Returned qualified_experts
      end
    else Returned qualified_experts
  end.

Definition qualified_experts (profiles : list ExpertProfile) (domain : string) (db : DB)
  : outcome (list Z) :=
  foldO (qualify db domain) (filter verified profiles) [].

(** The second loop, over the qualified experts: [clock] is what
    [datetime.utcnow()] reads when a row is created. *)
Definition assign (cid : Z) (clock : nat -> Z) (state : DB * list Z) (expert_id : Z)
  : DB * list Z :=
  let (session, evaluation_ids) := state in
  match find (Evaluator.same_pair expert_id cid) (evaluations session) with
  | Some existing => (session, (evaluation_ids ++ [evaluation_id existing])%list)
  | None =>
    let evaluation :=
      mkEvaluation (next_id evaluation_id (evaluations session)) expert_id cid
                   (clock (List.length evaluation_ids)) None None None None None in
    (set_evaluations session (evaluations session ++ [evaluation])%list,
     (evaluation_ids ++ [evaluation_id evaluation])%list)
  end.

(** [assign_content_to_experts(content_id, domain)]. *)
Definition assign_content_to_experts (profiles : list ExpertProfile) (clock : nat -> Z)
    (cid : Z) (domain : string) (db : DB) : DB * outcome (list Z) :=
  get_db_session
    (fun session =>
       bindO (qualified_experts profiles domain session)
             (fun experts => Returned (fold_left (assign cid clock) experts (session, []))))
    db.

End Decoding.

(** [profile.domains = domains] and the four assignments after it. *)
Definition update_profile (domains : list string) (years : Z)
    (quals about : option string) (is_verified : bool) (p : ExpertProfile)
  : ExpertProfile :=
  mkProfile (profile_id p) (profile_user_id p) (DomainsList domains) years quals about
            is_verified.

(** [create_expert_profile(user_id, domains, years_experience,
    qualifications, bio, verified)] on the table of profiles. *)
Definition create_expert_profile (uid : Z) (domains : list string) (years : Z)
    (quals about : option string) (is_verified : bool) (db : DB)
    (profiles : list ExpertProfile) : list ExpertProfile * option Z :=
  if negb (forallb (fun d => has_domain d Settings.CONTENT_DOMAINS) domains)
  then (profiles, None)
  else
    match get user_id (users db) uid with
    | None => (profiles, None)
    | Some _ =>
      match find (fun p => profile_user_id p =? uid) profiles with
      | Some profile =>
        (update_first (fun p => profile_user_id p =? uid)
                      (update_profile domains years quals about is_verified) profiles,
         Some (profile_id profile))
      | None =>
        let profile :=
          mkProfile (next_id profile_id profiles) uid (DomainsList domains) years
                    quals about is_verified in
        ((profiles ++ [profile])%list, Some (profile_id profile))
      end
    end.

End Experts.

(** ** database.py and quality_control.py: filling the store *)

Module Setup.

Definition set_criteria (db : DB) (l : list EvaluationCriterion) : DB :=
  mkDB (users db) (contents db) l (evaluations db) (evaluation_scores db)
       (questions db) (reports db) (improvements db).

Definition set_users (db : DB) (l : list User) : DB :=
  mkDB l (contents db) (criteria db) (evaluations db) (evaluation_scores db)
       (questions db) (reports db) (improvements db).

Definition set_questions (db : DB) (l : list QualityCheckQuestion) : DB :=
  mkDB (users db) (contents db) (criteria db) (evaluations db) (evaluation_scores db)
       l (reports db) (improvements db).

(** The names of [default_criteria], each on the scale 1 to 5 and without a
    domain. *)
Definition default_criteria : list string :=
  ["accuracy"; "coherence"; "relevance"; "creativity"; "completeness";
   "language_quality"]%string.

(** [session.add(criterion)]. *)
Definition add_criterion (session : DB) (name : string) : DB :=
  set_criteria session
    (criteria session ++
     [mkCriterion (next_id criterion_id (criteria session)) name 1 5 None])%list.

(** [_add_default_criteria(session)]. *)
Definition _add_default_criteria (session : DB) : DB :=
  fold_left add_criterion default_criteria session.

(** The [email] column of the users table.  The record [User] does not hold
    it, so [init_db] takes the e-mail addresses in use beside the store and
    returns them with it. *)
Definition admin_email : string := "admin@example.com".

(** [_create_admin_user(session)]. *)
Definition _create_admin_user (session : DB) : DB :=
  set_users session
    (users session ++
     [mkUser (next_id user_id (users session)) "admin" "admin" true])%list.

(** [init_db()]: the defaults are added to an empty table of criteria, the
    admin when no user is called admin.  The admin's e-mail address must be
    new ([email] is unique): when a user already has it, the commit fails,
    the unit of work is rolled back with the criteria it had added, and
    [init_db] returns [False]. *)
Definition init_db (emails : list string) (db : DB) : (DB * list string) * bool :=
  let session1 :=
    if (List.length (criteria db) =? 0)%nat then _add_default_criteria db else db in
  if (List.length (filter (fun u => String.eqb (username u) "admin") (users session1))
      =? 0)%nat
  then
    if existsb (String.eqb admin_email) emails
    then ((db, emails), false)
    else ((_create_admin_user session1, (emails ++ [admin_email])%list), true)
  else ((session1, emails), true).

(** [create_quality_check_question(question_text, correct_answer, domain,
    difficulty)]; the difficulty is not among the columns kept. *)
Definition create_quality_check_question (text answer : string) (domain : option string)
    (db : DB) : DB * option Z :=
  let question :=
    mkQuestion (next_id question_id (questions db)) text answer domain true in
  (set_questions db (questions db ++ [question])%list, Some (question_id question)).

End Setup.

(** ** quality_control.py: analyze_evaluator_patterns *)

Module Patterns.

(** The dict [analyze_evaluator_patterns] returns when the analysis is
    completed. *)
Record analysis : Type := mkAnalysis {
  total_evaluations : Z;
  low_variance_criteria : list Z;
  low_variance_criteria_count : Z;
  straight_line_evaluations : Z;
  straight_line_percentage : Q;
  time_variance : Q;
  suspicious_patterns : bool
}.

(** The three results, told apart by their ["status"]. *)
Inductive patterns : Type :=
| No_completed_evaluations
| No_evaluation_scores_found
| Analysis_completed (a : analysis).

(** [Evaluation.evaluator_id == user_id, Evaluation.completion_time.isnot(None)]. *)
Definition completed_by (uid : Z) (e : Evaluation) : bool :=
  (evaluator_id e =? uid) &&
  match completion_time e with
  | Some _ => true
  | None => false
  end.

(** [sum((s - mean) ** 2 for s in l) / len(l)] with [mean = sum(l) / len(l)]. *)
Definition variance (l : list Q) : Q :=
  let mean := avgQ l in
  avgQ (map (fun s => (s - mean) * (s - mean))%Q l).

(** The loop that fills [variance_by_criterion]: a criterion with fewer than
    two scores is skipped. *)
Definition variance_step (variance_by_criterion : list (Z * Q)) (item : Z * list Q)
  : list (Z * Q) :=
  let (criterion_id, criterion_scores) := item in
  if (List.length criterion_scores <? 2)%nat then variance_by_criterion
  else dict_set Z.eqb variance_by_criterion criterion_id (variance criterion_scores).

Definition low_variance_threshold : Q := (2 # 10)%Q.

(** The loop that counts the straight-line evaluations. *)
Definition straight_line_step (scores : list EvaluationScore) (straight_line_count : Z)
    (eval_id : Z) : Z :=
  let eval_scores := filter (fun s => score_evaluation_id s =? eval_id) scores in
  if QualityController.straight_line eval_scores then straight_line_count + 1
  else straight_line_count.

(** [round(x, 1)], of the exact number: the float the code rounds can lie
    on the other side of a tie. *)
Definition round1 (x : Q) : Q := (inject_Z (round_half_even (x * inject_Z 10)) / inject_Z 10)%Q.

(** [analyze_evaluator_patterns(user_id)]. *)
Definition analyze_evaluator_patterns (uid : Z) (db : DB) : patterns :=
  match filter (completed_by uid) (evaluations db) with
  | [] => No_completed_evaluations
  | evaluations =>
    let evaluation_ids := map evaluation_id evaluations in
    match filter (fun s => AnalyticsEngine.mem (score_evaluation_id s) evaluation_ids)
                 (evaluation_scores db) with
    | [] => No_evaluation_scores_found
    | scores =>
      let scores_by_criterion := QualityController.scores_by_criterion scores in
      let variance_by_criterion := fold_left variance_step scores_by_criterion [] in
      let low_variance_criteria :=
        map fst (filter (fun cv => Qlt_bool (snd cv) low_variance_threshold)
                        variance_by_criterion) in
      let straight_line_count :=
        fold_left (straight_line_step scores) evaluation_ids 0 in
      let completion_times :=
        flat_map (fun e => match duration_seconds e with
                           | Some d => if truthy_int (Some d) then [inject_Z d] else []
                           | None => []
                           end)
                 evaluations in
      let time_variance :=
        if (1 <? List.length completion_times)%nat then variance completion_times
        else 0%Q in
      let total := Z.of_nat (List.length evaluations) in
      Analysis_completed
        (mkAnalysis
           total
           low_variance_criteria
           (Z.of_nat (List.length low_variance_criteria))
           straight_line_count
           (round1 (inject_Z straight_line_count / inject_Z total * inject_Z 100))
           time_variance
           ((0 <? Z.of_nat (List.length low_variance_criteria)) ||
            Qlt_bool (inject_Z total * (3 # 10)) (inject_Z straight_line_count)))
    end
  end.

End Patterns.

(** ** analytics.py: analyze_human_ai_gap *)

Module GapAnalysis.

(** One entry of [criteria_gaps] / [domain_gaps]. *)
Record gap_data : Type := mkGapData {
  human_score : Q;
  ai_score : Q;
  gap_value : Q;
  best_model : string
}.

(** The three results: the two error dicts, whose timestamp is not kept, and
    the analysis. *)
Inductive gap_report : Type :=
| No_human_benchmark_data
| No_AI_model_data
| Gap_analysis (overall_gap : Q) (criteria domains : list (string * gap_data))
               (generated_at : Z).

(** The values of a list without repetition, in the order of their first
    occurrence. *)
Definition distinct (l : list string) : list string :=
  fold_left (fun seen x => if existsb (String.eqb x) seen then seen else (seen ++ [x])%list)
            l [].

(** The model names of the AI contents, [.distinct()] and without the empty
    ones, in the order of the table. *)
Definition ai_models (db : DB) : list string :=
  distinct
    (flat_map (fun c => if String.eqb (source_type c) "ai"
                        then match AnalyticsEngine.truthy_str (model_name c) with
                             | Some m => [m]
                             | None => []
                             end
                        else [])
              (contents db)).

(** [all_model_scores]. *)
Definition all_model_scores (db : DB) : list (string * AnalyticsEngine.score_data) :=
  map (fun m => (m, AnalyticsEngine._get_model_scores db m)) (ai_models db).

(** [key in d]. *)
Definition has_key {V : Type} (d : list (string * V)) (key : string) : bool :=
  match dict_get String.eqb d key with
  | Some _ => true
  | None => false
  end.

(** The domains the analysis covers: the requested ones for which both
    sides have data, or, without a request, every domain of either side
    ([list(set(...))], whose order is not used below). *)
Definition covered_domains (domains : option (list string))
    (human : AnalyticsEngine.score_data)
    (models : list (string * AnalyticsEngine.score_data)) : list string :=
  match domains with
  | Some (d :: ds) =>
    filter (fun domain =>
              has_key (AnalyticsEngine.sd_domains human) domain &&
              existsb (fun md => has_key (AnalyticsEngine.sd_domains (snd md)) domain)
                      models)
           (d :: ds)
  | _ =>
    distinct (map fst (AnalyticsEngine.sd_domains human) ++
              flat_map (fun md => map fst (AnalyticsEngine.sd_domains (snd md))) models)
  end.

(** The inner loop over [all_model_scores.items()]: a model takes the lead
    with a score above the best so far, which starts at 0. *)
Definition best_step (pick : AnalyticsEngine.score_data -> list (string * Q))
    (key : string) (best : Q * option string)
    (entry : string * AnalyticsEngine.score_data) : Q * option string :=
  match dict_get String.eqb (pick (snd entry)) key with
  | Some score =>
    if Qlt_bool (fst best) score then (score, Some (fst entry)) else best
  | None => best
  end.

(** The outer loop: [best[key] = {"score": ..., "model": ...}] when a model
    took the lead. *)
Definition best_ai (pick : AnalyticsEngine.score_data -> list (string * Q))
    (models : list (string * AnalyticsEngine.score_data)) (keys : list string)
  : list (string * (Q * string)) :=
  fold_left
    (fun best key =>
       match fold_left (best_step pick key) models (0%Q, None) with
       | (best_score, Some model) =>
         match AnalyticsEngine.truthy_str (Some model) with
         | Some _ => dict_set String.eqb best key (best_score, model)
         | None => best
         end
       | (_, None) => best
       end)
    keys [].

(** The loops that fill [criteria_gaps] and [domain_gaps]. *)
Definition gaps (human : list (string * Q)) (best : list (string * (Q * string)))
  : list (string * gap_data) :=
  fold_left
    (fun gaps_so_far (item : string * Q) =>
       match dict_get String.eqb best (fst item) with
       | Some (score, model) =>
         dict_set String.eqb gaps_so_far (fst item)
                  (mkGapData (snd item) score (snd item - score) model)
       | None => gaps_so_far
       end)
    human [].

(** [analyze_human_ai_gap(domains)]; the result is generated at [now] and
    the report saved at [saved_at]. *)
Definition analyze_human_ai_gap (now saved_at : Z) (domains : option (list string))
    (db : DB) : DB * gap_report :=
  let human := AnalyticsEngine._get_human_benchmark_scores db in
  match AnalyticsEngine.sd_criteria human with
  | [] => (db, No_human_benchmark_data)
  | _ :: _ =>
    match ai_models db with
    | [] => (db, No_AI_model_data)
    | _ :: _ =>
      let models := all_model_scores db in
      let covered := covered_domains domains human models in
      let best_ai_criteria :=
        best_ai AnalyticsEngine.sd_criteria models
                (map fst (AnalyticsEngine.sd_criteria human)) in
      let best_ai_domains := best_ai AnalyticsEngine.sd_domains models covered in
      let criteria_gaps := gaps (AnalyticsEngine.sd_criteria human) best_ai_criteria in
      let domain_gaps := gaps (AnalyticsEngine.sd_domains human) best_ai_domains in
      let all_gaps :=
        (map (fun g => gap_value (snd g)) criteria_gaps ++
         map (fun g => gap_value (snd g)) domain_gaps)%list in
      let overall_gap :=
        match all_gaps with
        | [] => 0%Q
        | _ :: _ => avgQ all_gaps
        end in
      (AnalyticsEngine.save_analytics_report saved_at "human_ai_gap"
         "Human vs AI Content Gap Analysis"
         "Analysis of the performance gap between human and AI-generated content" db,
       Gap_analysis overall_gap criteria_gaps domain_gaps now)
    end
  end.

(** What an entry of the analysis says about its key, for the criteria
    ([pick = sd_criteria]) or the domains ([pick = sd_domains]): the human
    score is the benchmark's, the gap is the difference, and the AI score is
    a positive score of the best model that no model exceeds. *)
Definition leads (pick : AnalyticsEngine.score_data -> list (string * Q))
    (human : AnalyticsEngine.score_data)
    (models : list (string * AnalyticsEngine.score_data))
    (entry : string * gap_data) : Prop :=
  let (key, g) := entry in
  In (key, human_score g) (pick human) /\
  gap_value g = (human_score g - ai_score g)%Q /\
  (0 < ai_score g)%Q /\
  (exists data,
     In (best_model g, data) models /\
     dict_get String.eqb (pick data) key = Some (ai_score g)) /\
  (forall model data score,
     In (model, data) models ->
     dict_get String.eqb (pick data) key = Some score ->
     (score <= ai_score g)%Q).

End GapAnalysis.

(** ** utils.py: import_content_from_json *)

Module Importer.

Local Open Scope string_scope.

Definition set_contents (db : DB) (l : list Content) : DB :=
  mkDB (users db) l (criteria db) (evaluations db) (evaluation_scores db)
       (questions db) (reports db) (improvements db).

(** One item of the file: a JSON object whose values are strings, as a dict
    in the order of the file. *)
Definition item : Type := list (string * string).

Definition required_fields : list string :=
  ["title"; "text"; "domain"; "source_type"]%string.

(** The body of the loop over [data]: an item that lacks a required field,
    names an unknown domain or a source type other than ai and human is
    skipped; the others become content rows. *)
Definition import_item (state : DB * Z) (it : item) : DB * Z :=
  let (session, imported_items) := state in
  if negb (forallb (GapAnalysis.has_key it) required_fields) then state
  else
    match dict_get String.eqb it "domain", dict_get String.eqb it "source_type",
          dict_get String.eqb it "title", dict_get String.eqb it "text" with
    | Some domain, Some source_type, Some title, Some text =>
      if negb (Experts.has_domain domain Settings.CONTENT_DOMAINS) then state
      else if negb (Experts.has_domain source_type ["ai"; "human"]%string) then state
      else
        (set_contents session
           (contents session ++
            [mkContent (next_id content_id (contents session)) title text domain
                       source_type (dict_get String.eqb it "model_name")])%list,
         imported_items + 1)
    | _, _, _, _ => state
    end.

(** [import_content_from_json(file_path)] on the decoded file: [None] when
    the file does not hold a list. *)
Definition import_content_from_json (data : option (list item)) (db : DB)
  : DB * (Z * Z) :=
  match data with
  | None => (db, (0, 0))
  | Some items =>
    let (session, imported_items) := fold_left import_item items (db, 0) in
    (session, (imported_items, Z.of_nat (List.length items)))
  end.

End Importer.

(** ** evaluator.py: get_evaluation_statistics *)

Module Statistics.

Record statistics : Type := mkStatistics {
  total_evaluations : Z;
  completed_evaluations : Z;
  completion_rate : Q;
  domain_distribution : list (string * Z);
  ai_content : Z;
  human_content : Z
}.

(** [if user_id: query.filter(Evaluation.evaluator_id == user_id)]: no
    filter for [None] and for 0. *)
Definition of_user (uid : option Z) (e : Evaluation) : bool :=
  match uid with
  | Some u => if truthy_int (Some u) then evaluator_id e =? u else true
  | None => true
  end.

(** [session.query(Content).join(Evaluation, Content.id ==
    Evaluation.content_id)], with the filter on the evaluator: one row for
    each pair of a content and an evaluation of it. *)
Definition joined (uid : option Z) (db : DB) : list (Content * Evaluation) :=
  flat_map (fun c => map (pair c)
                         (filter (fun e => (content_id c =? evaluation_content_id e)
                                           && of_user uid e)
                                 (evaluations db)))
           (contents db).

Definition count {A : Type} (p : A -> bool) (l : list A) : Z :=
  Z.of_nat (List.length (filter p l)).

(** [get_evaluation_statistics(user_id)]. *)
Definition get_evaluation_statistics (uid : option Z) (db : DB) : statistics :=
  let query := filter (of_user uid) (evaluations db) in
  let total := Z.of_nat (List.length query) in
  let completed :=
    count (fun e => match completion_time e with Some _ => true | None => false end)
          query in
  let contents := joined uid db in
  mkStatistics
    total completed
    (if total =? 0 then 0%Q
     else Patterns.round1 (inject_Z completed / inject_Z total * inject_Z 100))
    (map (fun domain =>
            (domain, count (fun ce => String.eqb (content_domain (fst ce)) domain) contents))
         Settings.CONTENT_DOMAINS)
    (count (fun ce => String.eqb (source_type (fst ce)) "ai") contents)
    (count (fun ce => String.eqb (source_type (fst ce)) "human") contents).

End Statistics.

(** ** Further stores used as examples *)

Module Examples.

Open Scope string_scope.

(** No text decodes. *)
Definition no_json (s : string) : option (list string) := None.

(** The evaluator of [Scenarios.fresh_db] as a verified expert on news
    articles. *)
Definition news_expert : Experts.ExpertProfile :=
  Experts.mkProfile 1 1 (Experts.DomainsList ["news_articles"]) 5 None None true.

(** A verified profile of another user whose [domains] column is NULL. *)
Definition blank_expert : Experts.ExpertProfile :=
  Experts.mkProfile 2 2 Experts.DomainsNull 5 None None true.

Definition noon (i : nat) : Z := 43200000000.

(** The evaluator rates the AI text and the human text 4 on accuracy, each
    through [start_evaluation] and [submit_evaluation]. *)
Definition steady_db : DB :=
  let s1 := fst (Evaluator.start_evaluation 0 1 1 Scenarios.fresh_db) in
  let s2 := fst (Evaluator.submit_evaluation 90000000 1 [(1, (4 # 1)%Q)] (4 # 1)%Q
                                             None None s1) in
  let s3 := fst (Evaluator.start_evaluation 100000000 1 2 s2) in
  fst (Evaluator.submit_evaluation 190000000 2 [(1, (4 # 1)%Q)] (4 # 1)%Q None None s3).

End Examples.
(** * Theorems *)

(** ** Python helpers *)

Lemma Qlt_bool_iff (a b : Q) : Qlt_bool a b = true <-> (a < b)%Q.
Proof.
  unfold Qlt_bool. rewrite negb_true_iff.
  split; intro H.
  - apply Qnot_le_lt. intro Hle. apply Qle_bool_iff in Hle. congruence.
  - destruct (Qle_bool b a) eqn:E; [|reflexivity].
    apply Qle_bool_iff in E. exfalso. exact (Qlt_not_le _ _ H E).
Qed.

Lemma Qlt_bool_false_iff (a b : Q) : Qlt_bool a b = false <-> (b <= a)%Q.
Proof.
  unfold Qlt_bool. rewrite negb_false_iff. apply Qle_bool_iff.
Qed.

Lemma find_some_first {T : Type} (p : T -> bool) (f : T -> T) (l : list T) (x : T) :
  find p l = Some x -> p (f x) = true ->
  find p (update_first p f l) = Some (f x).
Proof.
  induction l as [|y l IH]; simpl; [discriminate|].
  destruct (p y) eqn:Hy; intros Hfind Hpf.
  - injection Hfind as ->. simpl. now rewrite Hpf.
  - simpl. rewrite Hy. now apply IH.
Qed.

(** ** quality_control.py: validate_quality_checks *)

Section ValidateQualityChecks.

Variable db : DB.

Lemma count_step_correct (n : Z) (item : Z * string) :
  QualityController.count_step db n item =
  n + (if Spec.answer_is_correct db item then 1 else 0).
Proof.
  unfold QualityController.count_step, Spec.answer_is_correct.
  destruct item as [qid answer]. simpl.
  destruct (get question_id (questions db) qid) as [q|]; [|lia].
  destruct (String.eqb _ _); lia.
Qed.

Lemma count_loop (answers : list (Z * string)) (n : Z) :
  fold_left (QualityController.count_step db) answers n =
  n + Z.of_nat (Spec.correct_answers db answers).
Proof.
  unfold Spec.correct_answers.
  revert n. induction answers as [|item rest IH]; intro n; simpl.
  - lia.
  - rewrite IH, count_step_correct.
    destruct (Spec.answer_is_correct db item); simpl List.length; lia.
Qed.

Lemma validate_unfold (answers : list (Z * string)) :
  answers <> [] ->
  QualityController.validate_quality_checks db answers =
  Qle_bool QualityController.pass_threshold (Spec.fraction_correct db answers).
Proof.
  intro Hne. destruct answers as [|a rest]; [congruence|].
  unfold QualityController.validate_quality_checks, Spec.fraction_correct.
  rewrite count_loop.
  replace (0 <? Z.of_nat (List.length (a :: rest))) with true
    by (symmetry; apply Z.ltb_lt; simpl List.length; lia).
  reflexivity.
Qed.

(** With [n > 0] answers of which [c] are correct, the 70% test is the
    integer comparison [7 n <= 10 c]. *)
Lemma threshold_as_integers (c n : nat) :
  (0 < n)%nat ->
  Qle_bool QualityController.pass_threshold
           (inject_Z (Z.of_nat c) / inject_Z (Z.of_nat n)) = true <->
  (7 * n <= 10 * c)%nat.
Proof.
  intro Hn. rewrite Qle_bool_iff. unfold QualityController.pass_threshold.
  assert (Hpos : (0 < inject_Z (Z.of_nat n))%Q).
  { replace 0%Q with (inject_Z 0) by reflexivity. rewrite <- Zlt_Qlt. lia. }
  assert (E : (inject_Z (Z.of_nat c) / inject_Z (Z.of_nat n) * inject_Z (Z.of_nat n)
               == inject_Z (Z.of_nat c))%Q).
  { field. intro E0. rewrite E0 in Hpos. now apply Qlt_irrefl in Hpos. }
  split; intro H.
  - apply (Qmult_le_r _ _ _ Hpos) in H.
    rewrite E in H. unfold Qle, Qmult, inject_Z in H. cbn [Qnum Qden] in H. lia.
  - apply (Qmult_le_r _ _ _ Hpos).
    rewrite E. unfold Qle, Qmult, inject_Z. cbn [Qnum Qden]. lia.
Qed.

End ValidateQualityChecks.

(** C6. [validate_quality_checks] returns true exactly when the answer set
    is not empty and the fraction of supplied answers that equal the stored
    correct answer up to case is at least 0.7; so 7 correct answers out of
    10 pass, 6 out of 10 fail, and the empty answer set fails. *)
Theorem validate_quality_checks_threshold (db : DB) (answers : list (Z * string)) :
  (QualityController.validate_quality_checks db answers = true <->
   answers <> [] /\ (7 # 10 <= Spec.fraction_correct db answers)%Q) /\
  (List.length answers = 10%nat -> Spec.correct_answers db answers = 7%nat ->
   QualityController.validate_quality_checks db answers = true) /\
  (List.length answers = 10%nat -> Spec.correct_answers db answers = 6%nat ->
   QualityController.validate_quality_checks db answers = false) /\
  QualityController.validate_quality_checks db [] = false.
Proof.
  repeat split.
  - destruct answers; [discriminate | congruence].
  - destruct answers as [|a rest]; [discriminate|].
    rewrite validate_unfold in H by congruence. now apply Qle_bool_iff in H.
  - intros [Hne Hle]. rewrite validate_unfold by assumption.
    now apply Qle_bool_iff.
  - intros Hn Hc. rewrite validate_unfold by (intros ->; discriminate).
    unfold Spec.fraction_correct. rewrite Hn, Hc. reflexivity.
  - intros Hn Hc. rewrite validate_unfold by (intros ->; discriminate).
    unfold Spec.fraction_correct. rewrite Hn, Hc. reflexivity.
Qed.

(** Seven right answers out of ten to the ten stored questions pass. *)
Lemma validate_seven_of_ten :
  QualityController.validate_quality_checks Scenarios.fresh_db Scenarios.seven_right = true.
Proof.
  apply (proj1 (proj2 (validate_quality_checks_threshold
                         Scenarios.fresh_db Scenarios.seven_right)));
    reflexivity.
Defined.

Lemma unknown_is_never_correct (db : DB) (item : Z * string) :
  Spec.references_unknown_question db item = true ->
  Spec.answer_is_correct db item = false.
Proof.
  unfold Spec.references_unknown_question, Spec.answer_is_correct.
  destruct (get question_id (questions db) (fst item)); [discriminate | reflexivity].
Qed.

Lemma correct_answers_app (db : DB) (l1 l2 : list (Z * string)) :
  Spec.correct_answers db (l1 ++ l2) =
  (Spec.correct_answers db l1 + Spec.correct_answers db l2)%nat.
Proof.
  unfold Spec.correct_answers. now rewrite filter_app, length_app.
Qed.

Lemma correct_and_unknown_partition (db : DB) (answers : list (Z * string)) :
  (forall item, In item answers ->
                Spec.references_unknown_question db item = false ->
                Spec.answer_is_correct db item = true) ->
  (Spec.correct_answers db answers + Spec.unknown_answers db answers)%nat =
  List.length answers.
Proof.
  unfold Spec.correct_answers, Spec.unknown_answers.
  induction answers as [|item rest IH]; intro Hall; [reflexivity|].
  simpl filter.
  assert (IH' := IH (fun i Hi => Hall i (or_intror Hi))).
  destruct (Spec.references_unknown_question db item) eqn:Hu.
  - rewrite (unknown_is_never_correct _ _ Hu). simpl List.length. lia.
  - rewrite (Hall item (or_introl eq_refl) Hu). simpl List.length. lia.
Qed.

(** C10. Every supplied answer counts in the denominator of the pass
    fraction, also an answer to a question that is not stored, and such an
    answer never counts as correct: appending one leaves the count of
    correct answers and raises the total.  So when every answer to a stored
    question is correct and more than 30% of the answers name unknown
    questions the check fails, and there is such a non-empty answer set. *)
Theorem unknown_questions_count_in_denominator :
  (forall db answers, answers <> [] ->
     QualityController.validate_quality_checks db answers =
     Qle_bool (7 # 10)
       (inject_Z (Z.of_nat (Spec.correct_answers db answers)) /
        inject_Z (Z.of_nat (List.length answers)))) /\
  (forall db answers qid a,
     get question_id (questions db) qid = None ->
     QualityController.validate_quality_checks db (answers ++ [(qid, a)]) =
     Qle_bool (7 # 10)
       (inject_Z (Z.of_nat (Spec.correct_answers db answers)) /
        inject_Z (Z.of_nat (S (List.length answers))))) /\
  (forall db answers,
     answers <> [] ->
     (forall item, In item answers ->
                   Spec.references_unknown_question db item = false ->
                   Spec.answer_is_correct db item = true) ->
     (3 * List.length answers < 10 * Spec.unknown_answers db answers)%nat ->
     QualityController.validate_quality_checks db answers = false) /\
  (exists db answers,
     answers <> [] /\
     (forall item, In item answers ->
                   Spec.references_unknown_question db item = false ->
                   Spec.answer_is_correct db item = true) /\
     QualityController.validate_quality_checks db answers = false).
Proof.
  split; [|split; [|split]].
  - intros db answers Hne. now rewrite validate_unfold.
  - intros db answers qid a Hnone.
    rewrite validate_unfold by (destruct answers; discriminate).
    unfold Spec.fraction_correct.
    rewrite correct_answers_app, length_app. simpl List.length.
    replace (Spec.correct_answers db [(qid, a)]) with 0%nat.
    + now rewrite Nat.add_0_r, Nat.add_1_r.
    + unfold Spec.correct_answers, Spec.answer_is_correct. simpl.
      now rewrite Hnone.
  - intros db answers Hne Hall Hmany.
    rewrite validate_unfold by assumption. unfold Spec.fraction_correct.
    assert (Hlen : (0 < List.length answers)%nat)
      by (destruct answers; [congruence | simpl; lia]).
    destruct (Qle_bool _ _) eqn:E; [|reflexivity].
    apply (threshold_as_integers _ _ Hlen) in E.
    pose proof (correct_and_unknown_partition db answers Hall). lia.
  - exists Scenarios.fresh_db, Scenarios.two_right_one_unknown.
    split; [discriminate|]. split; [|reflexivity].
    intros item Hin Hknown. simpl in Hin.
    destruct Hin as [<-|[<-|[<-|[]]]]; try reflexivity. discriminate.
Qed.

(** Two right answers and one answer to an unknown question fail. *)
Lemma two_right_one_unknown_fails :
  QualityController.validate_quality_checks
    Scenarios.fresh_db Scenarios.two_right_one_unknown = false.
Proof.
  apply (proj1 (proj2 (proj2 unknown_questions_count_in_denominator))).
  - discriminate.
  - intros item Hin Hknown. simpl in Hin.
    destruct Hin as [<-|[<-|[<-|[]]]]; try reflexivity. discriminate.
  - vm_compute. lia.
Defined.

(** ** quality_control.py: check_evaluation_time *)

Lemma max2_is_max (a b : Q) : (max2 a b == Qmax a b)%Q.
Proof.
  unfold max2. destruct (Qlt_bool a b) eqn:E.
  - apply Qlt_bool_iff in E. symmetry. apply Q.max_r. now apply Qlt_le_weak.
  - apply Qlt_bool_false_iff in E. symmetry. now apply Q.max_l.
Qed.

Lemma check_evaluation_time_unfold (db : DB) (eid d t : Z) (e : Evaluation) (c : Content) :
  get evaluation_id (evaluations db) eid = Some e ->
  completion_time e = Some t ->
  duration_seconds e = Some d ->
  get content_id (contents db) (evaluation_content_id e) = Some c ->
  QualityController.check_evaluation_time db eid =
  Returned ((60 <=? d) && Qle_bool (Spec.expected_time c * (1 # 2)) (inject_Z d)).
Proof.
  intros He Ht Hd Hc. unfold QualityController.check_evaluation_time.
  rewrite He, Ht, Hd. unfold Config.MIN_EVALUATION_TIME_SECONDS.
  destruct (d <? 60) eqn:Hlt.
  - apply Z.ltb_lt in Hlt. replace (60 <=? d) with false; [reflexivity|].
    symmetry. apply Z.leb_gt. exact Hlt.
  - apply Z.ltb_ge in Hlt. replace (60 <=? d) with true
      by (symmetry; now apply Z.leb_le).
    rewrite Hc. simpl andb. unfold Spec.expected_time, Config.MIN_EVALUATION_TIME_SECONDS.
    assert (Heq : (max2 (inject_Z 60) (inject_Z (len_str (text c)) / inject_Z 10) * (1 # 2)
                   == Qmax (inject_Z 60) (inject_Z (len_str (text c)) / inject_Z 10) * (1 # 2))%Q)
      by now rewrite max2_is_max.
    unfold Qlt_bool. rewrite (Qleb_comp _ _ Heq _ _ (Qeq_refl (inject_Z d))).
    now destruct (Qle_bool _ _).
Qed.

(** C8. For a completed evaluation whose content exists,
    [check_evaluation_time] returns false when the duration is under 60
    seconds; otherwise it returns true exactly when the duration is at least
    half of the expected time [max(60, len(text) / 10)].  For a text of 1000
    characters the expected time is 100 seconds: 40 seconds fail and 60
    seconds pass. *)
Theorem check_evaluation_time_plausibility
    (db : DB) (eid d t : Z) (e : Evaluation) (c : Content) :
  get evaluation_id (evaluations db) eid = Some e ->
  completion_time e = Some t ->
  duration_seconds e = Some d ->
  get content_id (contents db) (evaluation_content_id e) = Some c ->
  (d < Config.MIN_EVALUATION_TIME_SECONDS ->
   QualityController.check_evaluation_time db eid = Returned false) /\
  (Config.MIN_EVALUATION_TIME_SECONDS <= d ->
   exists b, QualityController.check_evaluation_time db eid = Returned b /\
             (b = true <-> (Spec.expected_time c * (1 # 2) <= inject_Z d)%Q)) /\
  (len_str (text c) = 1000 ->
   (Spec.expected_time c == 100)%Q /\
   (d = 40 -> QualityController.check_evaluation_time db eid = Returned false) /\
   (d = 60 -> QualityController.check_evaluation_time db eid = Returned true)).
Proof.
  intros He Ht Hd Hc.
  rewrite (check_evaluation_time_unfold db eid d t e c He Ht Hd Hc).
  unfold Config.MIN_EVALUATION_TIME_SECONDS.
  split; [|split].
  - intro Hlt. replace (60 <=? d) with false; [reflexivity|].
    symmetry. now apply Z.leb_gt.
  - intro Hge. replace (60 <=? d) with true by (symmetry; now apply Z.leb_le).
    eexists. split; [reflexivity|]. simpl andb. apply Qle_bool_iff.
  - intro Hlen. unfold Spec.expected_time. rewrite Hlen.
    unfold Config.MIN_EVALUATION_TIME_SECONDS.
    split; [reflexivity|]. split; intros ->; reflexivity.
Qed.

(** The thousand-character text read in 60 seconds passes. *)
Lemma sixty_seconds_on_thousand_chars :
  QualityController.check_evaluation_time (Scenarios.timed_db 60) 1 = Returned true.
Proof.
  apply (proj2 (proj2 (proj2 (check_evaluation_time_plausibility
           (Scenarios.timed_db 60) 1 60 60000000
           (mkEvaluation 1 1 3 0 (Some 60000000) (Some 60) (Some (3 # 1)%Q) None (Some true))
           Scenarios.long_article eq_refl eq_refl eq_refl eq_refl)) eq_refl));
  reflexivity.
Defined.

(** ** quality_control.py: flag_low_quality_evaluations *)

(** C5, where the code departs from the specification.  An evaluation
    submitted within a second of its start is completed with
    [duration_seconds = 0]; the guard [evaluation.duration_seconds and ...]
    reads that 0 as "no duration", so the evaluation collects no
    fast-completion flag and is not returned, although
    [check_evaluation_time] calls the same evaluation too quick. *)
Theorem zero_second_evaluation_is_not_flagged :
  (exists e,
     get evaluation_id (evaluations Scenarios.rushed_db) 1 = Some e /\
     completion_time e = Some 500000 /\
     duration_seconds e = Some 0 /\
     0 < Config.MIN_EVALUATION_TIME_SECONDS) /\
  QualityController.flag_low_quality_evaluations Scenarios.rushed_db = [] /\
  QualityController.check_evaluation_time Scenarios.rushed_db 1 = Returned false.
Proof.
  split; [|split]; [|reflexivity|reflexivity].
  eexists. repeat split; reflexivity.
Qed.

(** ** analytics.py: identify_improvement_areas *)

Lemma create_improvement_suggestion_raises
    (name : string) (domain : option string) (criterion : string) (current t : Q) :
  AnalyticsEngine._create_improvement_suggestion name domain criterion current (PyFloat t)
  = Raised (UnboundLocalError "target_formatted").
Proof. reflexivity. Qed.

(** C2, where the code departs from the specification.  Every benchmark
    score is a float, so the suggestion builder always reaches the branch
    that formats [target_formatted] with itself and raises.  On a store where
    the AI text is rated 2 and the human text 4 on accuracy the gap of 2
    reaches the threshold, the call raises, the unit of work is rolled back
    and no ImprovementSuggestion row is written. *)
Theorem flagged_gap_raises_instead_of_suggesting :
  AnalyticsEngine.gaps_of Config.IMPROVEMENT_THRESHOLD
    (AnalyticsEngine.sd_criteria (AnalyticsEngine._get_model_scores Scenarios.rated_db "gpt"))
    (AnalyticsEngine.sd_criteria (AnalyticsEngine._get_human_benchmark_scores Scenarios.rated_db))
  = [AnalyticsEngine.mkGap "accuracy" (2 # 1) (4 # 1) ((4 # 1) - (2 # 1))] /\
  AnalyticsEngine.identify_improvement_areas
    200000000 "gpt" Config.IMPROVEMENT_THRESHOLD None Scenarios.rated_db
  = (Scenarios.rated_db, Raised (UnboundLocalError "target_formatted")) /\
  improvements Scenarios.rated_db = [].
Proof.
  split; [|split]; reflexivity.
Qed.

(** ** evaluator.py: submit_evaluation *)

Section SubmitEvaluation.

Variable eid : Z.

Lemma add_score_cases (s : DB) (item : Z * Q) :
  Evaluator.add_score eid s item =
  if Spec.score_is_valid s item
  then set_evaluation_scores s
         (evaluation_scores s ++
          [mkScore (next_id score_id (evaluation_scores s)) eid (fst item) (snd item)])
  else s.
Proof.
  unfold Evaluator.add_score, Spec.score_is_valid. destruct item as [cid sc]. simpl.
  destruct (get criterion_id (criteria s) cid) as [c|]; [|reflexivity].
  unfold Qlt_bool.
  destruct (Qle_bool (inject_Z (scale_min c)) sc), (Qle_bool sc (inject_Z (scale_max c)));
    reflexivity.
Qed.

Lemma add_scores_rows (scores : list (Z * Q)) :
  forall s : DB,
  exists rows,
    fold_left (Evaluator.add_score eid) scores s =
      set_evaluation_scores s (evaluation_scores s ++ rows) /\
    map Spec.score_row_pair rows = filter (Spec.score_is_valid s) scores /\
    Forall (fun r => score_evaluation_id r = eid) rows.
Proof.
  induction scores as [|item rest IH]; intro s.
  - exists []. split; [|split]; [|reflexivity|constructor].
    simpl. rewrite app_nil_r. now destruct s.
  - simpl fold_left. rewrite add_score_cases. simpl filter.
    destruct (Spec.score_is_valid s item) eqn:Hv.
    + destruct (IH (set_evaluation_scores s
                      (evaluation_scores s ++
                       [mkScore (next_id score_id (evaluation_scores s)) eid
                                (fst item) (snd item)])))
        as (rows & Hfold & Hmap & Hall).
      exists (mkScore (next_id score_id (evaluation_scores s)) eid (fst item) (snd item)
              :: rows).
      split; [|split].
      * rewrite Hfold. unfold set_evaluation_scores. simpl.
        now rewrite <- app_assoc.
      * simpl map. unfold Spec.score_row_pair at 1. simpl.
        rewrite Hmap. destruct item; simpl. f_equal.
      * constructor; [reflexivity | assumption].
    + destruct (IH s) as (rows & Hfold & Hmap & Hall).
      exists rows. now repeat split.
Qed.

End SubmitEvaluation.

Lemma get_evaluation_id (l : list Evaluation) (eid : Z) (e : Evaluation) :
  get evaluation_id l eid = Some e -> evaluation_id e = eid.
Proof.
  unfold get. intro H. apply find_some in H. destruct H as [_ H].
  now apply Z.eqb_eq in H.
Qed.

(** The store a submission without answers leaves. *)
Lemma submit_without_answers_store
    (now eid : Z) (scores : list (Z * Q)) (rating : Q) (comment : option string)
    (answers : option (list (Z * string))) (db : DB) (e : Evaluation) :
  get evaluation_id (evaluations db) eid = Some e ->
  completion_time e = None ->
  answers = None \/ answers = Some [] ->
  exists rows,
    Evaluator.submit_evaluation now eid scores rating comment answers db =
    (mkDB (users db) (contents db) (criteria db)
          (update_first (fun row => evaluation_id row =? eid)
             (Evaluator.complete_evaluation now
                (Evaluator.whole_seconds now (start_time e)) rating comment true)
             (evaluations db))
          (evaluation_scores db ++ rows) (questions db) (reports db) (improvements db),
     Returned (true, "Evaluation submitted successfully"%string)) /\
    map Spec.score_row_pair rows = filter (Spec.score_is_valid db) scores /\
    Forall (fun r => score_evaluation_id r = eid) rows.
Proof.
  intros Hget Hpending Hnone.
  unfold Evaluator.submit_evaluation, get_db_session. rewrite Hget, Hpending.
  assert (Hno : (let (passed_checks, attached) :=
                   match answers with
                   | Some (a :: rest) =>
                     (QualityController.validate_quality_checks db (a :: rest), false)
                   | _ => (true, true)
                   end in (passed_checks, attached)) = (true, true))
    by (destruct Hnone as [-> | ->]; reflexivity).
  destruct (match answers with
            | Some (a :: rest) =>
              (QualityController.validate_quality_checks db (a :: rest), false)
            | _ => (true, true)
            end) as [passed attached].
  injection Hno as -> ->.
  match goal with
  | |- context [fold_left (Evaluator.add_score eid) scores ?s] =>
    destruct (add_scores_rows eid scores s) as (rows & Hfold & Hmap & Hall)
  end.
  exists rows. rewrite Hfold. split; [reflexivity|]. split; [exact Hmap | exact Hall].
Qed.

(** The store a submission with answers to check leaves: the evaluations
    as they were, the scores added. *)
Lemma submit_with_answers_store
    (now eid : Z) (scores : list (Z * Q)) (rating : Q) (comment : option string)
    (given : list (Z * string)) (db : DB) (e : Evaluation) :
  get evaluation_id (evaluations db) eid = Some e ->
  completion_time e = None ->
  given <> [] ->
  exists rows,
    Evaluator.submit_evaluation now eid scores rating comment (Some given) db =
    (set_evaluation_scores db (evaluation_scores db ++ rows),
     Returned (true, "Evaluation submitted successfully"%string)) /\
    map Spec.score_row_pair rows = filter (Spec.score_is_valid db) scores /\
    Forall (fun r => score_evaluation_id r = eid) rows.
Proof.
  intros Hget Hpending Hgiven.
  unfold Evaluator.submit_evaluation, get_db_session. rewrite Hget, Hpending.
  destruct given as [|a rest]; [congruence|]. cbv zeta iota beta.
  destruct (add_scores_rows eid scores db) as (rows & Hfold & Hmap & Hall).
  exists rows. rewrite Hfold. split; [reflexivity|]. split; [exact Hmap | exact Hall].
Qed.

(** C1, where the code departs from the specification.  A submission that
    carries answers to quality-check questions, on an existing evaluation
    that is not yet completed, returns success and adds, in order, one
    EvaluationScore row for every pair whose criterion is stored and whose
    score lies in the criterion's scale, and no row for any other pair, as
    the claim says.  But the evaluation is not marked completed: its row,
    and every other evaluation row, is left as it was, so the evaluation is
    still pending after the call. *)
Theorem submit_with_answers_leaves_evaluation_pending
    (now eid : Z) (scores : list (Z * Q)) (rating : Q) (comment : option string)
    (given : list (Z * string)) (db : DB) (e : Evaluation) :
  get evaluation_id (evaluations db) eid = Some e ->
  completion_time e = None ->
  given <> [] ->
  exists db' rows,
    Evaluator.submit_evaluation now eid scores rating comment (Some given) db =
      (db', Returned (true, "Evaluation submitted successfully"%string)) /\
    evaluation_scores db' = (evaluation_scores db ++ rows)%list /\
    map Spec.score_row_pair rows = filter (Spec.score_is_valid db) scores /\
    Forall (fun r => score_evaluation_id r = eid) rows /\
    evaluations db' = evaluations db /\
    get evaluation_id (evaluations db') eid = Some e /\
    completion_time e = None.
Proof.
  intros Hget Hpending Hgiven.
  destruct (submit_with_answers_store now eid scores rating comment given db e
              Hget Hpending Hgiven) as (rows & Hstore & Hmap & Hall).
  exists (set_evaluation_scores db (evaluation_scores db ++ rows)), rows.
  split; [exact Hstore|]. split; [reflexivity|]. split; [exact Hmap|].
  split; [exact Hall|]. split; [reflexivity|]. split; [exact Hget | exact Hpending].
Qed.

(** The pending evaluation submitted with one valid score, one score for an
    unknown criterion, one score out of range, and seven right answers of
    ten: success is returned, one score row is stored, and evaluation 1 has
    no completion time. *)
Lemma submit_with_seven_right_stays_pending :
  exists db' rows,
    Evaluator.submit_evaluation 90000000 1
      [(1, (4 # 1)%Q); (7, (3 # 1)%Q); (2, (9 # 1)%Q)] (4 # 1)%Q None
      (Some Scenarios.seven_right) Scenarios.pending_db =
      (db', Returned (true, "Evaluation submitted successfully"%string)) /\
    evaluation_scores db' = (evaluation_scores Scenarios.pending_db ++ rows)%list /\
    map Spec.score_row_pair rows =
      filter (Spec.score_is_valid Scenarios.pending_db)
             [(1, (4 # 1)%Q); (7, (3 # 1)%Q); (2, (9 # 1)%Q)] /\
    Forall (fun r => score_evaluation_id r = 1) rows /\
    evaluations db' = evaluations Scenarios.pending_db /\
    get evaluation_id (evaluations db') 1 =
      Some (mkEvaluation 1 1 1 0 None None None None None) /\
    completion_time (mkEvaluation 1 1 1 0 None None None None None) = None.
Proof.
  apply (submit_with_answers_leaves_evaluation_pending 90000000 1
           [(1, (4 # 1)%Q); (7, (3 # 1)%Q); (2, (9 # 1)%Q)] (4 # 1)%Q None
           Scenarios.seven_right Scenarios.pending_db
           (mkEvaluation 1 1 1 0 None None None None None)
           eq_refl eq_refl ltac:(discriminate)).
Defined.

(** C4. Submitting an evaluation whose [completion_time] is set fails with
    the "already completed" message, and submitting an unknown evaluation id
    fails with the "not found" message; in both cases the store after the
    call is the store before it, so no field changes and no EvaluationScore
    row is created. *)
Theorem submit_evaluation_rejects_without_mutation
    (now eid : Z) (scores : list (Z * Q)) (rating : Q) (comment : option string)
    (answers : option (list (Z * string))) (db : DB) :
  (forall e t,
     get evaluation_id (evaluations db) eid = Some e ->
     completion_time e = Some t ->
     Evaluator.submit_evaluation now eid scores rating comment answers db =
     (db, Returned (false,
            ("Evaluation ID " ++ str_of_int eid ++ " already completed")%string))) /\
  (get evaluation_id (evaluations db) eid = None ->
   Evaluator.submit_evaluation now eid scores rating comment answers db =
   (db, Returned (false, ("Evaluation ID " ++ str_of_int eid ++ " not found")%string))).
Proof.
  split.
  - intros e t Hget Hdone. unfold Evaluator.submit_evaluation, get_db_session.
    now rewrite Hget, Hdone.
  - intro Hnone. unfold Evaluator.submit_evaluation, get_db_session.
    now rewrite Hnone.
Qed.

(** Evaluation 1 of the rated store is completed: a second submission is
    refused and changes nothing. *)
Lemma resubmission_is_refused :
  Evaluator.submit_evaluation 300000000 1 [(1, (5 # 1)%Q)] (5 # 1)%Q None None
    Scenarios.rated_db =
  (Scenarios.rated_db, Returned (false, "Evaluation ID 1 already completed"%string)).
Proof.
  apply (proj1 (submit_evaluation_rejects_without_mutation 300000000 1
                  [(1, (5 # 1)%Q)] (5 # 1)%Q None None Scenarios.rated_db)
               (mkEvaluation 1 1 1 0 (Some 90000000) (Some 90) (Some (2 # 1)%Q) None
                             (Some true))
               90000000);
    reflexivity.
Defined.

(** ** evaluator.py: start_evaluation *)

Lemma find_none_filter {T : Type} (p : T -> bool) (l : list T) :
  find p l = None -> filter p l = [].
Proof.
  induction l as [|x l IH]; simpl; [reflexivity|].
  destruct (p x); [discriminate | exact IH].
Qed.

Lemma find_some_filter {T : Type} (p : T -> bool) (l : list T) (x : T) :
  find p l = Some x -> (1 <= List.length (filter p l))%nat.
Proof.
  induction l as [|y l IH]; simpl; [discriminate|].
  destruct (p y); simpl; [lia | exact IH].
Qed.

Lemma find_app_none {T : Type} (p : T -> bool) (l1 l2 : list T) :
  find p l1 = None -> find p (l1 ++ l2) = find p l2.
Proof.
  induction l1 as [|x l1 IH]; simpl; [reflexivity|].
  destruct (p x); [discriminate | exact IH].
Qed.

Lemma start_evaluation_existing (now uid cid : Z) (db : DB) (u : User) (c : Content)
    (existing : Evaluation) :
  get user_id (users db) uid = Some u ->
  get content_id (contents db) cid = Some c ->
  find (Evaluator.same_pair uid cid) (evaluations db) = Some existing ->
  Evaluator.start_evaluation now uid cid db = (db, Returned (Some (evaluation_id existing))).
Proof.
  intros Hu Hc Hfind. unfold Evaluator.start_evaluation, get_db_session.
  now rewrite Hu, Hc, Hfind.
Qed.

Lemma start_evaluation_new (now uid cid : Z) (db : DB) (u : User) (c : Content) :
  get user_id (users db) uid = Some u ->
  get content_id (contents db) cid = Some c ->
  find (Evaluator.same_pair uid cid) (evaluations db) = None ->
  Evaluator.start_evaluation now uid cid db =
  (set_evaluations db
     (evaluations db ++
      [mkEvaluation (next_id evaluation_id (evaluations db)) uid cid now
                    None None None None None]),
   Returned (Some (next_id evaluation_id (evaluations db)))).
Proof.
  intros Hu Hc Hfind. unfold Evaluator.start_evaluation, get_db_session.
  now rewrite Hu, Hc, Hfind.
Qed.

Lemma same_pair_refl (uid cid id now : Z) :
  Evaluator.same_pair uid cid (mkEvaluation id uid cid now None None None None None) = true.
Proof. unfold Evaluator.same_pair. simpl. now rewrite !Z.eqb_refl. Qed.

(** C3, as the code has it. For an existing user and an existing content,
    two calls of [start_evaluation] with the same pair return the same
    evaluation id, and the second call leaves the store as the first call
    left it.  The two calls add at most one row: a row is added only when the
    pair had none, so the pair ends with [max 1 n] rows when it had [n], and
    with exactly one row whenever it had at most one. *)
Theorem start_evaluation_twice
    (now1 now2 uid cid : Z) (db : DB) (u : User) (c : Content) :
  get user_id (users db) uid = Some u ->
  get content_id (contents db) cid = Some c ->
  exists id db1 new_rows,
    Evaluator.start_evaluation now1 uid cid db = (db1, Returned (Some id)) /\
    Evaluator.start_evaluation now2 uid cid db1 = (db1, Returned (Some id)) /\
    evaluations db1 = (evaluations db ++ new_rows)%list /\
    (List.length new_rows <= 1)%nat /\
    Spec.pair_rows db1 uid cid = Nat.max 1 (Spec.pair_rows db uid cid) /\
    ((Spec.pair_rows db uid cid <= 1)%nat -> Spec.pair_rows db1 uid cid = 1%nat).
Proof.
  intros Hu Hc.
  destruct (find (Evaluator.same_pair uid cid) (evaluations db)) as [existing|] eqn:Hfind.
  - exists (evaluation_id existing), db, [].
    pose proof (find_some_filter _ _ _ Hfind) as Hrows.
    fold (Spec.pair_rows db uid cid) in Hrows.
    repeat split.
    + now apply (start_evaluation_existing now1 uid cid db u c).
    + now apply (start_evaluation_existing now2 uid cid db u c).
    + now rewrite app_nil_r.
    + simpl; lia.
    + lia.
    + lia.
  - set (row := mkEvaluation (next_id evaluation_id (evaluations db)) uid cid now1
                             None None None None None).
    set (db1 := set_evaluations db (evaluations db ++ [row])).
    assert (Hrows : Spec.pair_rows db uid cid = 0%nat).
    { unfold Spec.pair_rows. now rewrite (find_none_filter _ _ Hfind). }
    assert (Hrows1 : Spec.pair_rows db1 uid cid = 1%nat).
    { unfold Spec.pair_rows, db1. simpl. rewrite filter_app, length_app.
      rewrite (find_none_filter _ _ Hfind). simpl.
      unfold row. now rewrite same_pair_refl. }
    exists (next_id evaluation_id (evaluations db)), db1, [row].
    repeat split.
    + now apply (start_evaluation_new now1 uid cid db u c).
    + apply (start_evaluation_existing now2 uid cid db1 u c row); try assumption.
      unfold db1. simpl. rewrite (find_app_none _ _ _ Hfind). simpl.
      unfold row. now rewrite same_pair_refl.
    + simpl; lia.
    + rewrite Hrows1, Hrows. reflexivity.
    + intros _. exact Hrows1.
Qed.

(** Starting twice on the fresh store: one row for the pair. *)
Lemma start_twice_on_fresh_store :
  exists id db1 new_rows,
    Evaluator.start_evaluation 0 1 1 Scenarios.fresh_db = (db1, Returned (Some id)) /\
    Evaluator.start_evaluation 5 1 1 db1 = (db1, Returned (Some id)) /\
    evaluations db1 = (evaluations Scenarios.fresh_db ++ new_rows)%list /\
    (List.length new_rows <= 1)%nat /\
    Spec.pair_rows db1 1 1 = Nat.max 1 (Spec.pair_rows Scenarios.fresh_db 1 1) /\
    ((Spec.pair_rows Scenarios.fresh_db 1 1 <= 1)%nat -> Spec.pair_rows db1 1 1 = 1%nat).
Proof.
  apply (start_evaluation_twice 0 5 1 1 Scenarios.fresh_db
           Scenarios.evaluator_1 Scenarios.ai_article);
    reflexivity.
Defined.

(** C3, as the specification states it, fails on a store in which the pair
    already has two rows (the state two racing calls leave): both calls
    return id 1 and add nothing, and the pair keeps its two rows. *)
Lemma start_evaluation_keeps_duplicate_rows :
  get user_id (users Scenarios.duplicated_db) 1 = Some Scenarios.evaluator_1 /\
  get content_id (contents Scenarios.duplicated_db) 1 = Some Scenarios.ai_article /\
  ~ Spec.idempotent_start Scenarios.duplicated_db 0 5 1 1.
Proof.
  split; [reflexivity|]. split; [reflexivity|].
  intros (id & db1 & H1 & _ & Hone).
  assert (Hrun : Evaluator.start_evaluation 0 1 1 Scenarios.duplicated_db =
                 (Scenarios.duplicated_db, Returned (Some 1))) by reflexivity.
  rewrite Hrun in H1. injection H1 as <- _.
  discriminate Hone.
Qed.

(** ** utils.py: generate_password *)

Section Shuffle.

Local Open Scope nat_scope.

Lemma set_nth_length (x : list ascii) (i : nat) (v : ascii) :
  List.length (Utils.set_nth x i v) = List.length x.
Proof.
  revert i. induction x as [|a x IH]; intros [|i]; simpl; auto.
Qed.

Lemma nth_set_nth_same (x : list ascii) (i : nat) (v d : ascii) :
  i < List.length x -> nth i (Utils.set_nth x i v) d = v.
Proof.
  revert i. induction x as [|a x IH]; intros [|i] Hi; simpl in *; try lia; auto.
  apply IH. lia.
Qed.

Lemma nth_set_nth_other (x : list ascii) (i j : nat) (v d : ascii) :
  i <> j -> nth j (Utils.set_nth x i v) d = nth j x d.
Proof.
  revert i j. induction x as [|a x IH]; intros [|i] [|j] Hij; simpl; try congruence; auto.
Qed.

(** Overwriting position [i] removes one occurrence of the old character
    and adds one of the new. *)
Lemma count_set_nth (x : list ascii) (i : nat) (v c d : ascii) :
  i < List.length x ->
  count_occ ascii_dec (Utils.set_nth x i v) c + Invariants.hit (nth i x d) c =
  count_occ ascii_dec x c + Invariants.hit v c.
Proof.
  unfold Invariants.hit.
  revert i. induction x as [|a x IH]; intros [|i] Hi; simpl in *; try lia.
  - destruct (ascii_dec v c), (ascii_dec a c); lia.
  - specialize (IH i ltac:(lia)). destruct (ascii_dec a c); lia.
Qed.

Lemma swap_permutation (x : list ascii) (i j : nat) :
  i < List.length x -> j < List.length x -> Permutation (Utils.swap x i j) x.
Proof.
  intros Hi Hj. apply (Permutation_count_occ ascii_dec). intro c.
  unfold Utils.swap.
  set (xi := nth i x "000"%char). set (xj := nth j x "000"%char).
  pose proof (count_set_nth x i xj c "000"%char Hi) as H1. fold xi in H1.
  assert (Hj' : j < List.length (Utils.set_nth x i xj)) by now rewrite set_nth_length.
  pose proof (count_set_nth (Utils.set_nth x i xj) j xi c "000"%char Hj') as H2.
  assert (Hnth : nth j (Utils.set_nth x i xj) "000"%char = xj).
  { destruct (Nat.eq_dec i j) as [->|Hne].
    - now apply nth_set_nth_same.
    - now rewrite nth_set_nth_other. }
  rewrite Hnth in H2. lia.
Qed.

Lemma randbelow_lt (n : nat) (g : Utils.rng) :
  0 < n -> fst (Utils.randbelow n g) < n.
Proof. intro Hn. unfold Utils.randbelow. simpl. apply Nat.mod_upper_bound. lia. Qed.

Lemma shuffle_from_permutation (n : nat) :
  forall (x : list ascii) (g : Utils.rng),
    n <= List.length x -> Permutation (fst (Utils.shuffle_from n x g)) x.
Proof.
  induction n as [|i IH]; intros x g Hn; simpl.
  - apply Permutation_refl.
  - destruct i as [|i']; [apply Permutation_refl|].
    unfold Utils.bind.
    destruct (Utils.randbelow (S (S i')) g) as [j g'] eqn:Hr.
    assert (Hj : j < S (S i')).
    { replace j with (fst (Utils.randbelow (S (S i')) g)) by now rewrite Hr.
      apply randbelow_lt. lia. }
    assert (Hperm : Permutation (Utils.swap x (S i') j) x)
      by (apply swap_permutation; lia).
    eapply Permutation_trans; [|exact Hperm].
    apply IH. rewrite (Permutation_length Hperm). lia.
Qed.

Lemma shuffle_permutation (x : list ascii) (g : Utils.rng) :
  Permutation (fst (Utils.shuffle x g)) x.
Proof. apply shuffle_from_permutation. unfold Utils.shuffle. lia. Qed.

Lemma choice_in (seq : list ascii) (g : Utils.rng) :
  seq <> [] -> In (fst (Utils.choice seq g)) seq.
Proof.
  intro Hne. unfold Utils.choice, Utils.bind, Utils.ret. 
  destruct (Utils.randbelow (List.length seq) g) as [i g'] eqn:Hr. simpl.
  apply nth_In.
  replace i with (fst (Utils.randbelow (List.length seq) g)) by now rewrite Hr.
  apply randbelow_lt. destruct seq; [congruence | simpl; lia].
Qed.

Lemma choices_length (seq : list ascii) (n : nat) :
  forall g, List.length (fst (Utils.choices seq n g)) = n.
Proof.
  induction n as [|n IH]; intro g; simpl; [reflexivity|].
  unfold Utils.bind, Utils.ret.
  destruct (Utils.choice seq g) as [c g1].
  specialize (IH g1). destruct (Utils.choices seq n g1) as [cs g2].
  simpl in *. now rewrite IH.
Qed.

(** The characters of a generated password are a rearrangement of four
    characters drawn from the four classes followed by
    [max(0, length - 4)] more. *)
Lemma generate_password_shape (length : Z) (g : Utils.rng) :
  exists c1 c2 c3 c4 more,
    In c1 (list_ascii_of_string Utils.ascii_lowercase) /\
    In c2 (list_ascii_of_string Utils.ascii_uppercase) /\
    In c3 (list_ascii_of_string Utils.digits) /\
    In c4 (list_ascii_of_string Utils.special) /\
    List.length more = Z.to_nat (length - 4) /\
    Permutation
      (list_ascii_of_string (fst (Utils.generate_password length g)))
      ([c1; c2; c3; c4] ++ more).
Proof.
  unfold Utils.generate_password, Utils.bind, Utils.ret.
  destruct (Utils.choice (list_ascii_of_string Utils.ascii_lowercase) g)
    as [c1 g1] eqn:H1.
  destruct (Utils.choice (list_ascii_of_string Utils.ascii_uppercase) g1)
    as [c2 g2] eqn:H2.
  destruct (Utils.choice (list_ascii_of_string Utils.digits) g2) as [c3 g3] eqn:H3.
  destruct (Utils.choice (list_ascii_of_string Utils.special) g3) as [c4 g4] eqn:H4.
  destruct (Utils.choices _ (Z.to_nat (length - 4)) g4) as [more g5] eqn:H5.
  destruct (Utils.shuffle ([c1; c2; c3; c4] ++ more) g5) as [password g6] eqn:H6.
  exists c1, c2, c3, c4, more.
  repeat split.
  - replace c1 with (fst (Utils.choice (list_ascii_of_string Utils.ascii_lowercase) g))
      by now rewrite H1.
    apply choice_in. discriminate.
  - replace c2 with (fst (Utils.choice (list_ascii_of_string Utils.ascii_uppercase) g1))
      by now rewrite H2.
    apply choice_in. discriminate.
  - replace c3 with (fst (Utils.choice (list_ascii_of_string Utils.digits) g2))
      by now rewrite H3.
    apply choice_in. discriminate.
  - replace c4 with (fst (Utils.choice (list_ascii_of_string Utils.special) g3))
      by now rewrite H4.
    apply choice_in. discriminate.
  - replace more with (fst (Utils.choices
        (list_ascii_of_string
           (Utils.ascii_lowercase ++ Utils.ascii_uppercase ++ Utils.digits ++ Utils.special))
        (Z.to_nat (length - 4)) g4)) by now rewrite H5.
    apply choices_length.
  - simpl fst. rewrite list_ascii_of_string_of_list_ascii.
    replace password with (fst (Utils.shuffle ([c1; c2; c3; c4] ++ more) g5))
      by now rewrite H6.
    apply shuffle_permutation.
Qed.

End Shuffle.

Lemma string_length_as_list (s : string) :
  String.length s = List.length (list_ascii_of_string s).
Proof. induction s; simpl; auto. Qed.

Lemma contains_by_permutation (set pw : string) (c : ascii) (l : list ascii) :
  Permutation (list_ascii_of_string pw) l ->
  In c l -> In c (list_ascii_of_string set) ->
  Utils.contains_one_of set pw.
Proof.
  intros Hperm Hin Hset. exists c. split; [|exact Hset].
  apply (Permutation_in c (Permutation_sym Hperm) Hin).
Qed.

(** C9, as the code has it. A generated password holds at least one
    lowercase letter, one uppercase letter, one digit and one symbol of the
    punctuation set, and its length is [max(4, length)]: the requested
    length when that is at least 4, and 4 for any smaller request. *)
Theorem generate_password_classes (length : Z) (g : Utils.rng) :
  let pw := fst (Utils.generate_password length g) in
  String.length pw = Z.to_nat (Z.max 4 length) /\
  (4 <= length -> Z.of_nat (String.length pw) = length) /\
  (length < 4 -> String.length pw = 4%nat) /\
  Utils.contains_one_of Utils.ascii_lowercase pw /\
  Utils.contains_one_of Utils.ascii_uppercase pw /\
  Utils.contains_one_of Utils.digits pw /\
  Utils.contains_one_of Utils.special pw.
Proof.
  intro pw. subst pw.
  destruct (generate_password_shape length g)
    as (c1 & c2 & c3 & c4 & more & H1 & H2 & H3 & H4 & Hmore & Hperm).
  assert (Hlen : String.length (fst (Utils.generate_password length g)) =
                 Z.to_nat (Z.max 4 length)).
  { rewrite string_length_as_list, (Permutation_length Hperm), length_app, Hmore.
    simpl List.length. lia. }
  split; [exact Hlen|].
  split; [intro; rewrite Hlen; lia|].
  split; [intro; rewrite Hlen; lia|].
  repeat split.
  - apply (contains_by_permutation _ _ c1 _ Hperm); [simpl; auto | exact H1].
  - apply (contains_by_permutation _ _ c2 _ Hperm); [simpl; auto | exact H2].
  - apply (contains_by_permutation _ _ c3 _ Hperm); [simpl; auto | exact H3].
  - apply (contains_by_permutation _ _ c4 _ Hperm); [simpl; auto | exact H4].
Qed.

(** A request for twelve characters is met exactly. *)
Lemma twelve_character_password :
  Z.of_nat (String.length (fst (Utils.generate_password 12 Scenarios.some_rng))) = 12.
Proof.
  apply (proj1 (proj2 (generate_password_classes 12 Scenarios.some_rng))). lia.
Defined.

(** C9, as the specification states it, fails for a requested length of 3:
    the four guaranteed characters make a password of length 4. *)
Lemma password_of_length_three_has_four_characters :
  fst (Utils.generate_password 3 Scenarios.some_rng) = "dK7>"%string /\
  ~ Spec.password_as_requested 3 Scenarios.some_rng.
Proof.
  split; [reflexivity|].
  intros [Hlen _]. vm_compute in Hlen. discriminate Hlen.
Qed.

(** ** Further properties of the code *)

Lemma forallb_on_map {A B : Type} (f : A -> B) (p : B -> bool) (l : list A) :
  forallb p (map f l) = forallb (fun x => p (f x)) l.
Proof. induction l as [|x l IH]; simpl; [reflexivity | now rewrite IH]. Qed.

Lemma straight_line_is_spec (db : DB) (e : Evaluation) :
  QualityController.straight_line (QualityController.scores_of db (evaluation_id e)) =
  Spec.straight_line_scoring db e.
Proof.
  unfold Spec.straight_line_scoring, QualityController.straight_line.
  destruct (QualityController.scores_of db (evaluation_id e)) as [|first [|second rest]];
    try reflexivity.
  change (score first :: score second :: map score rest)
    with (map score (first :: second :: rest)).
  rewrite forallb_on_map. reflexivity.
Qed.

Lemma flags_of_nonempty (db : DB) (e : Evaluation) (t : Z) :
  completion_time e = Some t ->
  (match QualityController.flags_of db e with [] => false | _ :: _ => true end) =
  Spec.low_quality db e.
Proof.
  intro Ht. unfold Spec.low_quality, QualityController.flags_of. rewrite Ht.
  rewrite straight_line_is_spec.
  unfold Spec.fast_completion, Spec.failed_quality_checks, truthy_int.
  destruct (duration_seconds e) as [d|];
    [destruct (negb (d =? 0) && (d <? Config.MIN_EVALUATION_TIME_SECONDS))|];
    destruct (passed_quality_checks e) as [[|]|];
    destruct (Spec.straight_line_scoring db e); reflexivity.
Qed.

Lemma flag_loop_ids (db : DB) (evals : list Evaluation) :
  forall acc,
    map QualityController.flagged_evaluation_id
        (fold_left (QualityController.flag_step db) evals acc) =
    (map QualityController.flagged_evaluation_id acc ++
     map evaluation_id (filter (Spec.low_quality db) evals))%list.
Proof.
  induction evals as [|e rest IH]; intro acc; simpl fold_left.
  - simpl. now rewrite app_nil_r.
  - rewrite IH. simpl filter. unfold QualityController.flag_step.
    destruct (completion_time e) as [t|] eqn:Ht.
    + rewrite <- (flags_of_nonempty db e t Ht).
      destruct (QualityController.flags_of db e); [reflexivity|].
      rewrite map_app. simpl. now rewrite <- app_assoc.
    + unfold Spec.low_quality. now rewrite Ht.
Qed.

(** What [flag_low_quality_evaluations] does return: one record, in table
    order, for every completed evaluation that has a stored non-zero duration
    under 60 seconds, or failed its quality checks, or gave at least two
    scores that are all equal; and no other record. *)
Theorem flag_low_quality_evaluations_records (db : DB) :
  map QualityController.flagged_evaluation_id
      (QualityController.flag_low_quality_evaluations db) =
  map evaluation_id (filter (Spec.low_quality db) (evaluations db)).
Proof.
  unfold QualityController.flag_low_quality_evaluations.
  now rewrite flag_loop_ids.
Qed.

(** *** Dicts kept in insertion order *)

Section DictFacts.

Context {K V : Type} (eqb : K -> K -> bool).
Hypothesis eqb_spec : forall a b, eqb a b = true <-> a = b.

Lemma dict_get_set_same (d : list (K * V)) (k : K) (v : V) :
  dict_get eqb (dict_set eqb d k v) k = Some v.
Proof.
  induction d as [|[k' v'] d IH]; simpl.
  - now rewrite (proj2 (eqb_spec k k) eq_refl).
  - destruct (eqb k' k) eqn:E; simpl; rewrite E; [reflexivity | exact IH].
Qed.

Lemma dict_get_set_other (d : list (K * V)) (k k' : K) (v : V) :
  k <> k' -> dict_get eqb (dict_set eqb d k v) k' = dict_get eqb d k'.
Proof.
  intro Hne. induction d as [|[k0 v0] d IH]; simpl.
  - destruct (eqb k k') eqn:E; [|reflexivity]. apply eqb_spec in E. contradiction.
  - destruct (eqb k0 k) eqn:E; simpl.
    + apply eqb_spec in E. subst k0.
      destruct (eqb k k') eqn:E'; [|reflexivity]. apply eqb_spec in E'. contradiction.
    + now rewrite IH.
Qed.

Lemma dict_get_in (d : list (K * V)) (k : K) (v : V) :
  dict_get eqb d k = Some v -> In (k, v) d.
Proof.
  induction d as [|[k' v'] d IH]; simpl; [discriminate|].
  destruct (eqb k' k) eqn:E.
  - intro H. injection H as ->. apply eqb_spec in E. subst. now left.
  - intro H. right. now apply IH.
Qed.

Lemma dict_set_keys (d : list (K * V)) (k : K) (v : V) :
  map fst (dict_set eqb d k v) =
  match dict_get eqb d k with
  | Some _ => map fst d
  | None => (map fst d ++ [k])%list
  end.
Proof.
  induction d as [|[k' v'] d IH]; simpl; [reflexivity|].
  destruct (eqb k' k) eqn:E; simpl; [reflexivity|].
  rewrite IH. now destruct (dict_get eqb d k).
Qed.

Lemma dict_get_none_keys (d : list (K * V)) (k : K) :
  dict_get eqb d k = None -> ~ In k (map fst d).
Proof.
  induction d as [|[k' v'] d IH]; simpl; [tauto|].
  destruct (eqb k' k) eqn:E; [discriminate|].
  intros H [Hk|Hk].
  - subst. rewrite (proj2 (eqb_spec k k) eq_refl) in E. discriminate.
  - now apply IH.
Qed.

Lemma dict_set_nodup (d : list (K * V)) (k : K) (v : V) :
  NoDup (map fst d) -> NoDup (map fst (dict_set eqb d k v)).
Proof.
  intro Hnd. rewrite dict_set_keys.
  destruct (dict_get eqb d k) eqn:E; [exact Hnd|].
  apply NoDup_app; [exact Hnd | constructor; [simpl; tauto | constructor] |].
  intros x Hx [<-|[]]. now apply (dict_get_none_keys d k).
Qed.

Lemma dict_in_get (d : list (K * V)) (k : K) (v : V) :
  NoDup (map fst d) -> In (k, v) d -> dict_get eqb d k = Some v.
Proof.
  induction d as [|[k' v'] d IH]; simpl; [tauto|].
  intros Hnd [H|H].
  - injection H as -> ->. now rewrite (proj2 (eqb_spec k k) eq_refl).
  - inversion Hnd as [|? ? Hnotin Hnd']; subst.
    destruct (eqb k' k) eqn:E.
    + apply eqb_spec in E. subst. exfalso. apply Hnotin.
      apply in_map_iff. now exists (k, v).
    + now apply IH.
Qed.

Lemma dict_set_not_nil (d : list (K * V)) (k : K) (v : V) :
  dict_set eqb d k v <> [].
Proof. destruct d as [|[k' v'] d]; simpl; [|destruct (eqb k' k)]; discriminate. Qed.

End DictFacts.

Section DictAppend.

Context {K V : Type} (eqb : K -> K -> bool).

Lemma dict_set_all_nonempty (d : list (K * list V)) (k : K) (l : list V) :
  l <> [] -> Invariants.all_nonempty d -> Invariants.all_nonempty (dict_set eqb d k l).
Proof.
  intros Hl. induction d as [|[k' l'] d IH]; simpl; intro Hd.
  - constructor; [exact Hl | constructor].
  - inversion Hd as [|? ? Hhead Htail]; subst.
    destruct (eqb k' k); constructor; simpl in *; auto.
    now apply IH.
Qed.

Lemma dict_append_all_nonempty (d : list (K * list V)) (k : K) (v : V) :
  Invariants.all_nonempty d -> Invariants.all_nonempty (dict_append eqb d k v).
Proof.
  intro Hd. unfold dict_append.
  destruct (dict_get eqb d k); apply dict_set_all_nonempty; auto; try discriminate.
  destruct l; discriminate.
Qed.

Lemma dict_append_not_nil (d : list (K * list V)) (k : K) (v : V) :
  dict_append eqb d k v <> [].
Proof. unfold dict_append. destruct (dict_get eqb d k); apply dict_set_not_nil. Qed.

End DictAppend.

(** A fold whose steps keep a property and one of whose steps establishes a
    stronger one. *)
Lemma fold_establishes {A B : Type} (weak strong : A -> Prop) (g : A -> B -> A)
    (x : B) (l : list B) :
  (forall a y, weak a -> weak (g a y)) ->
  (forall a y, strong a -> strong (g a y)) ->
  (forall a, weak a -> strong (g a x)) ->
  In x l ->
  forall a, weak a -> strong (fold_left g l a).
Proof.
  intros Hweak Hstrong Hx.
  assert (Hkeep : forall l a, strong a -> strong (fold_left g l a)).
  { induction l0 as [|y l0 IH]; intros a Ha; simpl; auto. }
  induction l as [|y l IH]; intros Hin a Ha; simpl; [contradiction|].
  destruct Hin as [->|Hin].
  - apply Hkeep. now apply Hx.
  - apply IH; auto.
Qed.

Lemma fold_keeps {A B : Type} (P : A -> Prop) (g : A -> B -> A) (l : list B) :
  (forall a y, P a -> P (g a y)) -> forall a, P a -> P (fold_left g l a).
Proof. intro H. induction l as [|y l IH]; intros a Ha; simpl; auto. Qed.


(** *** analytics.py: every gap that reaches the threshold raises *)

Section ImprovementAreas.

Import AnalyticsEngine.

Lemma string_eqb_spec (a b : string) : String.eqb a b = true <-> a = b.
Proof. apply String.eqb_eq. Qed.

Lemma averages_in {K : Type} (d : list (K * list Q)) (k : K) (v : Q) :
  In (k, v) (averages d) -> exists l, In (k, l) d /\ l <> [].
Proof.
  unfold averages. rewrite in_flat_map. intros ([k' l] & Hin & Hkv). simpl in Hkv.
  destruct l as [|x l]; [contradiction|].
  destruct Hkv as [H|[]]. injection H as -> _.
  exists (x :: l). split; [exact Hin | discriminate].
Qed.

Lemma averages_not_nil {K : Type} (d : list (K * list Q)) :
  d <> [] -> Forall (fun kv => snd kv <> []) d -> averages d <> [].
Proof.
  destruct d as [|[k l] d]; [congruence|]. intros _ Hall.
  inversion Hall as [|? ? Hl _]; subst. simpl in Hl.
  unfold averages. simpl. destruct l; [congruence | discriminate].
Qed.

Lemma dict_set_in {K V : Type} (eqb : K -> K -> bool)
    (eqb_spec : forall a b, eqb a b = true <-> a = b)
    (d : list (K * V)) (k : K) (v : V) (k0 : K) (v0 : V) :
  In (k0, v0) (dict_set eqb d k v) -> In (k0, v0) d \/ (k0 = k /\ v0 = v).
Proof.
  induction d as [|[k' v'] d IH]; simpl.
  - intros [H|[]]. injection H as <- <-. now right.
  - destruct (eqb k' k) eqn:E; simpl.
    + apply eqb_spec in E. subst k'.
      intros [H|H]; [injection H as <- <-; now right | left; now right].
    + intros [H|H]; [left; now left|].
      destruct (IH H) as [H'|H']; [left; now right | now right].
Qed.

Lemma dict_append_in {K V : Type} (eqb : K -> K -> bool)
    (eqb_spec : forall a b, eqb a b = true <-> a = b)
    (d : list (K * list V)) (k : K) (v : V) (k0 : K) (l0 : list V) :
  In (k0, l0) (dict_append eqb d k v) -> In (k0, l0) d \/ k0 = k.
Proof.
  unfold dict_append. intro H.
  destruct (dict_get eqb d k);
    destruct (dict_set_in eqb eqb_spec _ _ _ _ _ H) as [H'|[H' _]]; auto.
Qed.

(** Where a non-empty list of domain scores comes from. *)
Section DomainScores.

Variables (dcs : list (string * list Z)) (ces : list (Z * list Z))
          (scores : list (EvaluationScore * string)).

Lemma add_domain_score_sourced (sn : EvaluationScore * string) :
  In sn scores ->
  forall part ds, incl part dcs -> (Invariants.sourced dcs ces scores) ds ->
    (Invariants.sourced dcs ces scores) (fold_left
               (fun ds (dc : string * list Z) =>
                  if domain_holds ces (score_evaluation_id (fst sn)) (snd dc)
                  then dict_append String.eqb ds (fst dc) (score (fst sn))
                  else ds) part ds).
Proof.
  intro Hsn. induction part as [|[k cids] part IH]; intros ds Hincl Hds; simpl.
  - exact Hds.
  - apply IH; [intros x Hx; apply Hincl; now right|].
    destruct (domain_holds ces (score_evaluation_id (fst sn)) cids) eqn:Hholds;
      [|exact Hds].
    intros k0 l0 Hin Hne.
    destruct (dict_append_in String.eqb string_eqb_spec _ _ _ _ _ Hin) as [Hold| ->].
    + now apply (Hds k0 l0).
    + exists sn, cids. repeat split; auto. apply Hincl. now left.
Qed.

Lemma domain_scores_sourced : (Invariants.sourced dcs ces scores) (domain_scores_of dcs ces scores).
Proof.
  unfold domain_scores_of.
  assert (Hgen : forall part ds, incl part scores -> (Invariants.sourced dcs ces scores) ds ->
            (Invariants.sourced dcs ces scores) (fold_left
                       (fun d (sn : EvaluationScore * string) =>
                          add_domain_score dcs ces (score_evaluation_id (fst sn))
                                           (score (fst sn)) d) part ds)).
  { induction part as [|sn part IH]; intros ds Hincl Hds; simpl; [exact Hds|].
    apply IH; [intros x Hx; apply Hincl; now right|].
    unfold add_domain_score.
    apply add_domain_score_sourced; [apply Hincl; now left | apply incl_refl | exact Hds]. }
  apply Hgen; [apply incl_refl|].
  intros k l Hin Hne. apply in_map_iff in Hin.
  destruct Hin as (dc & Heq & _). injection Heq as _ <-. congruence.
Qed.

End DomainScores.

Lemma Z_eqb_spec (a b : Z) : Z.eqb a b = true <-> a = b.
Proof. apply Z.eqb_eq. Qed.

(** Every joined score leaves a non-empty entry for its evaluation. *)
Lemma eval_scores_step_keeps (d : list (Z * list (string * Q)))
    (sn : EvaluationScore * string) (eid : Z) :
  Invariants.recorded d eid -> Invariants.recorded (eval_scores_step d sn) eid.
Proof.
  intros (inner & Hget & Hne). unfold eval_scores_step. destruct sn as [s cname].
  destruct (Z.eq_dec (score_evaluation_id s) eid) as [->|Hother].
  - eexists. split; [apply (dict_get_set_same Z.eqb Z_eqb_spec)|].
    apply (dict_set_not_nil String.eqb).
  - exists inner. split; [|exact Hne].
    now rewrite (dict_get_set_other Z.eqb Z_eqb_spec).
Qed.

Lemma eval_scores_step_records (d : list (Z * list (string * Q)))
    (sn : EvaluationScore * string) :
  Invariants.recorded (eval_scores_step d sn) (score_evaluation_id (fst sn)).
Proof.
  unfold eval_scores_step. destruct sn as [s cname]. simpl.
  eexists. split; [apply (dict_get_set_same Z.eqb Z_eqb_spec)|].
  apply (dict_set_not_nil String.eqb).
Qed.

Lemma eval_scores_recorded (scores : list (EvaluationScore * string))
    (sn : EvaluationScore * string) :
  In sn scores ->
  Invariants.recorded (fold_left eval_scores_step scores []) (score_evaluation_id (fst sn)).
Proof.
  intro Hin.
  apply (fold_establishes (fun _ => True)
           (fun d => Invariants.recorded d (score_evaluation_id (fst sn)))
           eval_scores_step sn scores); auto.
  - intros a y. apply eval_scores_step_keeps.
  - intros a _. apply eval_scores_step_records.
Qed.

(** The keys of [group_by_domain] are distinct. *)
Lemma dict_append_nodup {V : Type} (d : list (string * list V)) (k : string) (v : V) :
  NoDup (map fst d) -> NoDup (map fst (dict_append String.eqb d k v)).
Proof.
  intro H. unfold dict_append.
  destruct (dict_get String.eqb d k); now apply (dict_set_nodup String.eqb string_eqb_spec).
Qed.

Lemma group_by_domain_nodup (cs : list Content) : NoDup (map fst (group_by_domain cs)).
Proof.
  unfold group_by_domain.
  apply (fold_keeps (fun d => NoDup (map fst d))).
  - intros a y. apply dict_append_nodup.
  - constructor.
Qed.

(** The collecting loops: once a score has been Invariants.collected the result is a
    non-empty dict of non-empty lists. *)
Lemma collect_score_collected (d : list (string * list Q)) (cs : string * Q) :
  Invariants.all_nonempty d -> Invariants.collected (collect_score d cs).
Proof.
  intro H. split; [apply dict_append_not_nil | now apply dict_append_all_nonempty].
Qed.

Lemma collect_evaluation_keeps (ms : score_data) (d : list (string * list Q)) (eid : Z) :
  (Invariants.all_nonempty d -> Invariants.all_nonempty (collect_evaluation ms d eid)) /\
  (Invariants.collected d -> Invariants.collected (collect_evaluation ms d eid)).
Proof.
  unfold collect_evaluation. split; intro H.
  - apply (fold_keeps (@Invariants.all_nonempty string Q)); [|exact H].
    intros a y Ha. now apply collect_score_collected.
  - apply (fold_keeps Invariants.collected); [|exact H].
    intros a y [_ Ha]. now apply collect_score_collected.
Qed.

Lemma collect_evaluation_collects (ms : score_data) (d : list (string * list Q)) (eid : Z) :
  Invariants.recorded (eval_scores ms) eid -> Invariants.all_nonempty d ->
  Invariants.collected (collect_evaluation ms d eid).
Proof.
  intros (inner & Hget & Hne) Hd. unfold collect_evaluation, get_list. rewrite Hget.
  destruct inner as [|cs inner]; [congruence|]. simpl.
  apply (fold_keeps Invariants.collected).
  - intros a y [_ Ha]. now apply collect_score_collected.
  - now apply collect_score_collected.
Qed.

Lemma collect_content_keeps (ms : score_data) (d : list (string * list Q)) (cid : Z) :
  (Invariants.all_nonempty d -> Invariants.all_nonempty (collect_content ms d cid)) /\
  (Invariants.collected d -> Invariants.collected (collect_content ms d cid)).
Proof.
  unfold collect_content. split; intro H.
  - apply (fold_keeps (@Invariants.all_nonempty string Q)); [|exact H].
    intros a y. apply collect_evaluation_keeps.
  - apply (fold_keeps Invariants.collected); [|exact H].
    intros a y. apply collect_evaluation_keeps.
Qed.

Lemma collect_content_collects (ms : score_data) (d : list (string * list Q))
    (cid eid : Z) (evals : list Z) :
  dict_get Z.eqb (content_evals ms) cid = Some evals ->
  In eid evals ->
  Invariants.recorded (eval_scores ms) eid ->
  Invariants.all_nonempty d ->
  Invariants.collected (collect_content ms d cid).
Proof.
  intros Hget Hin Hrec Hd. unfold collect_content, get_list. rewrite Hget.
  apply (fold_establishes (@Invariants.all_nonempty string Q) Invariants.collected
           (collect_evaluation ms) eid evals); auto.
  - intros a y. apply collect_evaluation_keeps.
  - intros a y. apply collect_evaluation_keeps.
  - intros a. now apply collect_evaluation_collects.
Qed.

Lemma domain_criteria_collected (ms : score_data) (domain : string)
    (cids : list Z) (cid eid : Z) (evals : list Z) :
  dict_get String.eqb (domain_contents ms) domain = Some cids ->
  In cid cids ->
  dict_get Z.eqb (content_evals ms) cid = Some evals ->
  In eid evals ->
  Invariants.recorded (eval_scores ms) eid ->
  Invariants.collected (domain_criteria ms domain).
Proof.
  intros Hdom Hcid Hget Hin Hrec. unfold domain_criteria, get_list. rewrite Hdom.
  apply (fold_establishes (@Invariants.all_nonempty string Q) Invariants.collected
           (collect_content ms) cid cids); auto.
  - intros a y. apply collect_content_keeps.
  - intros a y. apply collect_content_keeps.
  - intros a. now apply (collect_content_collects ms a cid eid evals).
  - constructor.
Qed.

Lemma domain_holds_witness (ces : list (Z * list Z)) (eid : Z) (cids : list Z) :
  domain_holds ces eid cids = true ->
  exists cid evals, In cid cids /\ dict_get Z.eqb ces cid = Some evals /\ In eid evals.
Proof.
  unfold domain_holds. rewrite existsb_exists. intros (cid & Hcid & Hmem).
  destruct (dict_get Z.eqb ces cid) as [evals|] eqn:Hget; [|discriminate].
  exists cid, evals. repeat split; auto.
  unfold mem in Hmem. apply existsb_exists in Hmem.
  destruct Hmem as (x & Hx & Heq). apply Z.eqb_eq in Heq. now subst.
Qed.

(** A domain that has an average has a worst criterion. *)
Lemma scored_domain_has_criteria (db : DB) (name domain : string) (v : Q) :
  In (domain, v) (sd_domains (_get_model_scores db name)) ->
  averages (domain_criteria (_get_model_scores db name) domain) <> [].
Proof.
  unfold _get_model_scores.
  destruct (filter _ (contents db)) as [|c cs] eqn:Hcs; [intros []|].
  destruct (filter _ (evaluations db)) as [|e es] eqn:Hes; [intros []|].
  set (dcs := group_by_domain (c :: cs)).
  set (ces := group_by_content (e :: es)).
  set (scores := named_scores db (map evaluation_id (e :: es))).
  set (ms := mkScoreData _ _ dcs ces _).
  cbn [sd_domains]. intro Hin.
  destruct (averages_in _ _ _ Hin) as (l & Hl & Hne).
  destruct (domain_scores_sourced dcs ces scores domain l Hl Hne)
    as (sn & cids & Hsn & Hcids & Hholds).
  destruct (domain_holds_witness _ _ _ Hholds) as (cid & evals & Hcid & Hget & Heid).
  assert (Hcollected : Invariants.collected (domain_criteria ms domain)).
  { apply (domain_criteria_collected ms domain cids cid
             (score_evaluation_id (fst sn)) evals); auto.
    - apply (dict_in_get String.eqb string_eqb_spec); [apply group_by_domain_nodup | exact Hcids].
    - now apply eval_scores_recorded. }
  destruct Hcollected as [Hnil Hall]. now apply averages_not_nil.
Qed.

Lemma gaps_of_in (threshold : Q) (model comparison : list (string * Q)) (g : gap_entry) :
  In g (gaps_of threshold model comparison) ->
  In (gap_key g, gap_model_score g) model.
Proof.
  unfold gaps_of. rewrite in_flat_map. intros ([k v] & Hin & Hg). simpl in Hg.
  destruct (dict_get String.eqb comparison k) as [c|]; [|contradiction].
  destruct (Qle_bool threshold (c - v)); [|contradiction].
  destruct Hg as [<-|[]]. exact Hin.
Qed.

Lemma insert_sorted_not_nil (x : string * Q) (l : list (string * Q)) :
  insert_sorted x l <> [].
Proof. destruct l as [|y l]; simpl; [|destruct (Qlt_bool _ _)]; discriminate. Qed.

Lemma sorted_by_value_not_nil (l : list (string * Q)) :
  l <> [] -> sorted_by_value l <> [].
Proof.
  destruct l as [|x l]; [congruence|]. intros _. unfold sorted_by_value. simpl.
  apply (fold_keeps (fun acc => acc <> [])).
  - intros a y _. apply insert_sorted_not_nil.
  - discriminate.
Qed.

Lemma domain_suggestion_raises (db : DB) (name : string) (v : Q)
    (suggestions : list suggestion_dict) (g : gap_entry) :
  In (gap_key g, v) (sd_domains (_get_model_scores db name)) ->
  domain_suggestion name (_get_model_scores db name) suggestions g =
  Raised (UnboundLocalError "target_formatted").
Proof.
  intro Hin. unfold domain_suggestion.
  pose proof (sorted_by_value_not_nil _ (scored_domain_has_criteria db name _ v Hin)) as Hne.
  destruct (sorted_by_value _) as [|[worst_criterion worst_score] rest]; [congruence|].
  reflexivity.
Qed.

Lemma criteria_scores_collected (scores : list (EvaluationScore * string)) :
  scores <> [] -> Invariants.collected (criteria_scores_of scores).
Proof.
  destruct scores as [|sn scores]; [congruence|]. intros _.
  unfold criteria_scores_of. simpl.
  apply (fold_keeps Invariants.collected).
  - intros a y [_ Ha]. split; [apply dict_append_not_nil | now apply dict_append_all_nonempty].
  - split; [apply dict_append_not_nil | apply dict_append_all_nonempty; constructor].
Qed.

(** A model with a domain average has criterion averages. *)
Lemma scored_domain_has_scored_criteria (db : DB) (name domain : string) (v : Q) :
  In (domain, v) (sd_domains (_get_model_scores db name)) ->
  sd_criteria (_get_model_scores db name) <> [].
Proof.
  unfold _get_model_scores.
  destruct (filter _ (contents db)) as [|c cs] eqn:Hcs; [intros []|].
  destruct (filter _ (evaluations db)) as [|e es] eqn:Hes; [intros []|].
  cbn [sd_domains sd_criteria]. intro Hin.
  destruct (averages_in _ _ _ Hin) as (l & Hl & Hne).
  destruct (domain_scores_sourced _ _ _ domain l Hl Hne) as (sn & _ & Hsn & _).
  destruct (criteria_scores_collected
              (named_scores db (map evaluation_id (e :: es)))) as [Hnil Hall].
  { intro Hempty. rewrite Hempty in Hsn. contradiction. }
  now apply averages_not_nil.
Qed.

Lemma domain_loop_raises (db : DB) (name : string) (threshold : Q)
    (comparison : list (string * Q)) :
  gaps_of threshold (sd_domains (_get_model_scores db name)) comparison <> [] ->
  foldO (domain_suggestion name (_get_model_scores db name))
        (gaps_of threshold (sd_domains (_get_model_scores db name)) comparison) [] =
  Raised (UnboundLocalError "target_formatted").
Proof.
  intro Hne.
  destruct (gaps_of threshold _ comparison) as [|g rest] eqn:Hgaps; [congruence|].
  simpl. rewrite (domain_suggestion_raises db name (gap_model_score g)); [reflexivity|].
  apply (gaps_of_in threshold _ comparison). rewrite Hgaps. now left.
Qed.

Lemma criterion_loop_outcome (name : string) (gaps : list gap_entry) :
  foldO (criterion_suggestion name) gaps [] =
  match gaps with
  | [] => Returned []
  | _ :: _ => Raised (UnboundLocalError "target_formatted")
  end.
Proof. destruct gaps; reflexivity. Qed.

End ImprovementAreas.

(** What [identify_improvement_areas] does with suggestions: it never
    returns one and never stores one.  Whenever a criterion gap or a domain
    gap reaches the threshold the call raises and the store is rolled back;
    a result is returned only when no gap reaches the threshold, and then
    the list of suggestions is empty. *)
Theorem identify_improvement_areas_never_suggests
    (now : Z) (name : string) (threshold : Q) (comparison_model : option string)
    (db : DB) :
  let result :=
    AnalyticsEngine.identify_improvement_areas now name threshold comparison_model db in
  let model_scores := AnalyticsEngine._get_model_scores db name in
  let baseline := fst (AnalyticsEngine.comparison_of db comparison_model) in
  improvements (fst result) = improvements db /\
  (forall cs ds suggestions,
     snd result = Returned (AnalyticsEngine.Improvement_areas cs ds suggestions) ->
     cs = [] /\ ds = [] /\ suggestions = []) /\
  (AnalyticsEngine.gaps_of threshold
     (AnalyticsEngine.sd_criteria model_scores)
     (AnalyticsEngine.sd_criteria baseline) <> [] \/
   AnalyticsEngine.gaps_of threshold
     (AnalyticsEngine.sd_domains model_scores)
     (AnalyticsEngine.sd_domains baseline) <> [] ->
   result = (db, Raised (UnboundLocalError "target_formatted"))).
Proof.
  intros result model_scores baseline. subst result.
  unfold AnalyticsEngine.identify_improvement_areas, get_db_session.
  fold model_scores.
  destruct (AnalyticsEngine.sd_criteria model_scores) as [|c0 crest] eqn:Hcriteria.
  { cbn [fst snd]. split; [reflexivity|]. split; [discriminate|].
    intros [Hc|Hd]; [now elim Hc|]. exfalso.
    destruct (AnalyticsEngine.gaps_of threshold _ _) as [|g rest] eqn:Hgaps;
      [now elim Hd|].
    assert (Hin : In g (AnalyticsEngine.gaps_of threshold
                          (AnalyticsEngine.sd_domains model_scores)
                          (AnalyticsEngine.sd_domains baseline)))
      by (rewrite Hgaps; now left).
    apply gaps_of_in in Hin.
    apply (scored_domain_has_scored_criteria db name _ _ Hin). exact Hcriteria. }
  subst baseline.
  destruct (AnalyticsEngine.comparison_of db comparison_model)
    as [comparison_scores comparison_name].
  cbn [fst].
  destruct (AnalyticsEngine.gaps_of threshold (AnalyticsEngine.sd_domains model_scores)
              (AnalyticsEngine.sd_domains comparison_scores)) as [|dg drest] eqn:Hdgaps.
  - cbn [foldO bindO]. rewrite criterion_loop_outcome.
    destruct (AnalyticsEngine.gaps_of threshold (c0 :: crest)
                (AnalyticsEngine.sd_criteria comparison_scores)) as [|cg crest'].
    + cbn [bindO fst snd]. split; [reflexivity|]. split.
      * intros cs ds suggestions H. injection H as <- <- <-. now repeat split.
      * intros [H|H]; now elim H.
    + cbn [bindO fst snd]. split; [reflexivity|]. split; [discriminate|]. reflexivity.
  - rewrite <- Hdgaps. unfold model_scores.
    rewrite domain_loop_raises by (fold model_scores; rewrite Hdgaps; discriminate).
    cbn [bindO fst snd]. split; [reflexivity|]. split; [discriminate|]. reflexivity.
Qed.

(** * Further properties of the code *)

(** ** utils.py: truncate_text and get_domain_label *)

Section TextHelpers.

Import TextUtils.

Lemma substring_prefix_length (n : nat) (s : string) :
  (n <= String.length s)%nat -> String.length (substring 0 n s) = n.
Proof.
  revert s. induction n as [|n IH]; intros s Hn.
  - now destruct s.
  - destruct s as [|c s]; simpl in *; [lia|]. rewrite IH; lia.
Qed.

Lemma substring_prefix_split (n : nat) (s : string) :
  exists rest, s = (substring 0 n s ++ rest)%string.
Proof.
  revert s. induction n as [|n IH]; intro s.
  - exists s. now destruct s.
  - destruct s as [|c s]; simpl; [now exists EmptyString|].
    destruct (IH s) as [rest Hrest]. exists rest. now rewrite <- Hrest.
Qed.

Lemma append_length (a b : string) :
  String.length (a ++ b) = (String.length a + String.length b)%nat.
Proof. induction a; simpl; auto. Qed.

Lemma slice_to_length (text : string) (k : Z) :
  len_str (slice_to text k) =
  if k <? 0 then Z.max 0 (len_str text + k) else Z.min k (len_str text).
Proof.
  unfold slice_to, len_str.
  rewrite substring_prefix_length; destruct (k <? 0) eqn:Hk; lia.
Qed.

Lemma truncate_text_short (text : string) (max_length : Z) (ellipsis : string) :
  len_str text <= max_length -> truncate_text text max_length ellipsis = text.
Proof.
  intro Hlen. unfold truncate_text. destruct text as [|c text]; [reflexivity|].
  now rewrite (proj2 (Z.leb_le _ _) Hlen).
Qed.

Lemma truncate_text_long (text : string) (max_length : Z) (ellipsis : string) :
  max_length < len_str text -> text <> EmptyString ->
  truncate_text text max_length ellipsis =
  (slice_to text (max_length - len_str ellipsis) ++ ellipsis)%string.
Proof.
  intros Hlen Hne. unfold truncate_text. destruct text as [|c text]; [congruence|].
  now rewrite (proj2 (Z.leb_gt _ _) Hlen).
Qed.

Lemma split_not_nil (sep : ascii) (s : string) : split sep s <> [].
Proof.
  induction s as [|c s IH]; simpl; [discriminate|].
  destruct (Ascii.eqb c sep); [discriminate|].
  destruct (split sep s); discriminate.
Qed.

Lemma join_cons_char (sep : string) (c : ascii) (word : string) (rest : list string) :
  join sep (String c word :: rest) = String c (join sep (word :: rest)).
Proof. destruct rest; reflexivity. Qed.

Lemma label_of_words (word_start : bool) (code : string) :
  match split "_" code with
  | word :: words =>
    join " " ((if word_start then capitalize word else lower word)
              :: map capitalize words)
  | [] => EmptyString
  end = label_from word_start code.
Proof.
  revert word_start. induction code as [|c rest IH]; intro word_start.
  - now destruct word_start.
  - simpl split. simpl label_from. destruct (Ascii.eqb c "_") eqn:Hc.
    + rewrite <- (IH true).
      destruct (split "_" rest) as [|word words] eqn:Hsplit;
        [now apply split_not_nil in Hsplit|].
      now destruct word_start.
    + rewrite <- (IH false).
      destruct (split "_" rest) as [|word words] eqn:Hsplit;
        [now apply split_not_nil in Hsplit|].
      destruct word_start; simpl capitalize; simpl lower;
        now rewrite join_cons_char.
Qed.

Lemma label_from_length (word_start : bool) (code : string) :
  String.length (label_from word_start code) = String.length code.
Proof.
  revert word_start. induction code as [|c rest IH]; intro word_start; simpl;
    [reflexivity|].
  destruct (Ascii.eqb c "_"); simpl; now rewrite IH.
Qed.

Lemma upper_ascii_not_underscore (c : ascii) :
  Ascii.eqb c "_" = false -> Ascii.eqb (upper_ascii c) "_" = false.
Proof.
  intro Hc. unfold upper_ascii.
  destruct ((97 <=? nat_of_ascii c)%nat && (nat_of_ascii c <=? 122)%nat) eqn:Hrange;
    [|exact Hc].
  apply andb_true_iff in Hrange. destruct Hrange as [Hlo Hhi].
  apply Nat.leb_le in Hlo, Hhi. apply Ascii.eqb_neq. intro Heq.
  apply (f_equal nat_of_ascii) in Heq.
  rewrite nat_ascii_embedding in Heq by lia.
  change (nat_of_ascii "_") with 95%nat in Heq. lia.
Qed.

Lemma lower_ascii_not_underscore (c : ascii) :
  Ascii.eqb c "_" = false -> Ascii.eqb (lower_ascii c) "_" = false.
Proof.
  intro Hc. unfold lower_ascii.
  destruct ((65 <=? nat_of_ascii c)%nat && (nat_of_ascii c <=? 90)%nat) eqn:Hrange;
    [|exact Hc].
  apply andb_true_iff in Hrange. destruct Hrange as [Hlo Hhi].
  apply Nat.leb_le in Hlo, Hhi. apply Ascii.eqb_neq. intro Heq.
  apply (f_equal nat_of_ascii) in Heq.
  rewrite nat_ascii_embedding in Heq by lia.
  change (nat_of_ascii "_") with 95%nat in Heq. lia.
Qed.

Lemma label_from_no_underscore (word_start : bool) (code : string) :
  ~ In "_"%char (list_ascii_of_string (label_from word_start code)).
Proof.
  revert word_start. induction code as [|c rest IH]; intro word_start; simpl;
    [tauto|].
  destruct (Ascii.eqb c "_") eqn:Hc; simpl.
  - intros [H|H]; [discriminate | now apply (IH true)].
  - intros [H|H]; [|now apply (IH false)].
    destruct word_start.
    + apply upper_ascii_not_underscore in Hc. apply Ascii.eqb_neq in Hc. congruence.
    + apply lower_ascii_not_underscore in Hc. apply Ascii.eqb_neq in Hc. congruence.
Qed.

End TextHelpers.

(** When the ellipsis fits in the limit, [truncate_text] never returns more
    than [max_length] characters: a text within the limit comes back
    unchanged, a longer text is cut to a prefix followed by the ellipsis,
    exactly [max_length] characters in all, and truncating the result again
    changes nothing. *)
Theorem truncate_text_within_limit (text : string) (max_length : Z) (ellipsis : string) :
  len_str ellipsis <= max_length ->
  len_str (TextUtils.truncate_text text max_length ellipsis) <= max_length /\
  (len_str text <= max_length ->
   TextUtils.truncate_text text max_length ellipsis = text) /\
  (max_length < len_str text ->
   len_str (TextUtils.truncate_text text max_length ellipsis) = max_length /\
   exists kept dropped,
     text = (kept ++ dropped)%string /\
     TextUtils.truncate_text text max_length ellipsis = (kept ++ ellipsis)%string) /\
  TextUtils.truncate_text (TextUtils.truncate_text text max_length ellipsis)
                          max_length ellipsis =
  TextUtils.truncate_text text max_length ellipsis.
Proof.
  intro Hfit.
  assert (Hnonneg : 0 <= len_str ellipsis) by (unfold len_str; lia).
  assert (Hlong : max_length < len_str text ->
                  len_str (TextUtils.truncate_text text max_length ellipsis) = max_length).
  { intro Hlen. rewrite truncate_text_long; [|exact Hlen|].
    - unfold len_str at 1. rewrite append_length, Nat2Z.inj_add.
      fold (len_str (TextUtils.slice_to text (max_length - len_str ellipsis))).
      fold (len_str ellipsis). rewrite slice_to_length.
      destruct (max_length - len_str ellipsis <? 0) eqn:Hk; lia.
    - intros ->. unfold len_str in Hlen. simpl in Hlen. lia. }
  assert (Hbound : len_str (TextUtils.truncate_text text max_length ellipsis)
                   <= max_length).
  { destruct (Z_le_gt_dec (len_str text) max_length) as [Hle|Hgt].
    - now rewrite truncate_text_short.
    - rewrite Hlong; lia. }
  split; [exact Hbound|].
  split; [apply truncate_text_short|].
  split.
  - intro Hlen. split; [now apply Hlong|].
    rewrite truncate_text_long; [|exact Hlen|].
    + unfold TextUtils.slice_to.
      destruct (substring_prefix_split
                  (Z.to_nat (if max_length - len_str ellipsis <? 0
                             then Z.max 0 (len_str text + (max_length - len_str ellipsis))
                             else Z.min (max_length - len_str ellipsis) (len_str text)))
                  text) as [dropped Hdropped].
      eexists _, dropped. split; [exact Hdropped | reflexivity].
    + intros ->. unfold len_str in Hlen. simpl in Hlen. lia.
  - now apply truncate_text_short.
Qed.

(** A hundred-character limit with the default ellipsis. *)
Lemma truncate_thousand_chars :
  len_str (TextUtils.truncate_text Scenarios.thousand_chars 100 "...") <= 100.
Proof.
  apply (proj1 (truncate_text_within_limit Scenarios.thousand_chars 100 "..."
                  ltac:(vm_compute; discriminate))).
Defined.

(** When the limit is shorter than the ellipsis, a non-empty text longer than
    the limit comes back longer than the limit: the slice stop
    [max_length - len(ellipsis)] is negative and counts from the end of the
    text, so only [len(ellipsis) - max_length] characters are dropped before
    the whole ellipsis is appended. *)
Theorem truncate_text_short_limit (text : string) (max_length : Z) (ellipsis : string) :
  text <> EmptyString ->
  max_length < len_str ellipsis ->
  max_length < len_str text ->
  len_str (TextUtils.truncate_text text max_length ellipsis) =
    Z.max 0 (len_str text - (len_str ellipsis - max_length)) + len_str ellipsis /\
  max_length < len_str (TextUtils.truncate_text text max_length ellipsis).
Proof.
  intros Hne Hshort Hlen.
  assert (Hnonneg : 0 <= len_str text) by (unfold len_str; lia).
  assert (Hexact : len_str (TextUtils.truncate_text text max_length ellipsis) =
                   Z.max 0 (len_str text - (len_str ellipsis - max_length))
                   + len_str ellipsis).
  { rewrite truncate_text_long by assumption.
    unfold len_str at 1. rewrite append_length, Nat2Z.inj_add.
    fold (len_str (TextUtils.slice_to text (max_length - len_str ellipsis))).
    fold (len_str ellipsis). rewrite slice_to_length.
    replace (max_length - len_str ellipsis <? 0) with true
      by (symmetry; apply Z.ltb_lt; lia).
    lia. }
  split; [exact Hexact | rewrite Hexact; lia].
Qed.

(** A limit of two characters with the default ellipsis makes the text
    longer. *)
Lemma truncate_to_two_characters :
  len_str (TextUtils.truncate_text "abcdef" 2 "...") =
    Z.max 0 (len_str "abcdef" - (len_str "..." - 2)) + len_str "..." /\
  2 < len_str (TextUtils.truncate_text "abcdef" 2 "...").
Proof.
  apply (truncate_text_short_limit "abcdef" 2 "...");
    [discriminate | vm_compute; reflexivity | vm_compute; reflexivity].
Defined.

(** On ASCII text, [get_domain_label] rewrites the code character by
    character: every underscore becomes a space, the first character of
    every word is put in upper case and every other character in lower case.
    The label has the length of the code and holds no underscore. *)
Theorem get_domain_label_by_character (domain_code : string) :
  TextUtils.is_ascii domain_code = true ->
  TextUtils.get_domain_label domain_code = TextUtils.label_from true domain_code /\
  String.length (TextUtils.get_domain_label domain_code) = String.length domain_code /\
  ~ In "_"%char (list_ascii_of_string (TextUtils.get_domain_label domain_code)).
Proof.
  intros _.
  assert (Hlabel : TextUtils.get_domain_label domain_code =
                   TextUtils.label_from true domain_code).
  { unfold TextUtils.get_domain_label. destruct domain_code as [|c rest]; [reflexivity|].
    rewrite <- (label_of_words true).
    destruct (TextUtils.split "_" (String c rest)) as [|word words] eqn:Hsplit;
      [now apply split_not_nil in Hsplit | reflexivity]. }
  rewrite Hlabel. split; [reflexivity|].
  split; [apply label_from_length | apply label_from_no_underscore].
Qed.

(** A domain code of the configuration. *)
Lemma social_media_posts_label :
  TextUtils.get_domain_label "social_media_posts" = "Social Media Posts"%string.
Proof.
  rewrite (proj1 (get_domain_label_by_character "social_media_posts" eq_refl)).
  reflexivity.
Defined.

(** ** utils.py: the alphabet of generate_password *)

Lemma choices_in (seq : list ascii) (n : nat) :
  seq <> [] -> forall g c, In c (fst (Utils.choices seq n g)) -> In c seq.
Proof.
  intro Hne. induction n as [|n IH]; intros g c; simpl; [tauto|].
  unfold Utils.bind, Utils.ret.
  pose proof (choice_in seq g Hne) as Hfirst.
  destruct (Utils.choice seq g) as [c0 g1]. specialize (IH g1 c).
  destruct (Utils.choices seq n g1) as [cs g2]. simpl in *.
  intros [<-|Hin]; auto.
Qed.

Lemma list_ascii_of_string_app (a b : string) :
  list_ascii_of_string (a ++ b) =
  (list_ascii_of_string a ++ list_ascii_of_string b)%list.
Proof. induction a; simpl; congruence. Qed.

(** Every character of a generated password is a lowercase letter, an
    uppercase letter, a digit or one of the listed symbols, whatever the
    requested length and the random source. *)
Theorem generate_password_alphabet (length : Z) (g : Utils.rng) :
  Forall (fun c => In c (list_ascii_of_string
                           (Utils.ascii_lowercase ++ Utils.ascii_uppercase
                            ++ Utils.digits ++ Utils.special)))
         (list_ascii_of_string (fst (Utils.generate_password length g))).
Proof.
  apply Forall_forall. intro c.
  unfold Utils.generate_password, Utils.bind, Utils.ret.
  pose proof (choice_in (list_ascii_of_string Utils.ascii_lowercase) g) as H1.
  destruct (Utils.choice (list_ascii_of_string Utils.ascii_lowercase) g) as [c1 g1].
  pose proof (choice_in (list_ascii_of_string Utils.ascii_uppercase) g1) as H2.
  destruct (Utils.choice (list_ascii_of_string Utils.ascii_uppercase) g1) as [c2 g2].
  pose proof (choice_in (list_ascii_of_string Utils.digits) g2) as H3.
  destruct (Utils.choice (list_ascii_of_string Utils.digits) g2) as [c3 g3].
  pose proof (choice_in (list_ascii_of_string Utils.special) g3) as H4.
  destruct (Utils.choice (list_ascii_of_string Utils.special) g3) as [c4 g4].
  match goal with
  | |- context [Utils.choices ?seq ?n g4] =>
    pose proof (choices_in seq n ltac:(discriminate) g4) as H5;
    destruct (Utils.choices seq n g4) as [more g5]
  end.
  pose proof (shuffle_permutation ([c1; c2; c3; c4] ++ more) g5) as Hperm.
  destruct (Utils.shuffle ([c1; c2; c3; c4] ++ more) g5) as [password g6].
  cbn [fst] in *. rewrite list_ascii_of_string_of_list_ascii.
  intro Hin. apply (Permutation_in _ Hperm) in Hin.
  rewrite !list_ascii_of_string_app.
  specialize (H1 ltac:(discriminate)). specialize (H2 ltac:(discriminate)).
  specialize (H3 ltac:(discriminate)). specialize (H4 ltac:(discriminate)).
  rewrite <- !list_ascii_of_string_app.
  rewrite !list_ascii_of_string_app.
  rewrite !in_app_iff.
  destruct Hin as [<-|[<-|[<-|[<-|Hin]]]]; auto.
  apply H5 in Hin. rewrite !list_ascii_of_string_app, !in_app_iff in Hin. exact Hin.
Qed.

(** ** quality_control.py: validate_quality_checks, order and letter case *)

Lemma lower_ascii_idempotent (c : ascii) : lower_ascii (lower_ascii c) = lower_ascii c.
Proof.
  destruct ((65 <=? nat_of_ascii c)%nat && (nat_of_ascii c <=? 90)%nat) eqn:Hrange.
  - assert (Hc : lower_ascii c = ascii_of_nat (nat_of_ascii c + 32))
      by (unfold lower_ascii; now rewrite Hrange).
    apply andb_true_iff in Hrange. destruct Hrange as [Hlo Hhi].
    apply Nat.leb_le in Hlo, Hhi. rewrite Hc. unfold lower_ascii.
    rewrite nat_ascii_embedding by lia.
    replace ((65 <=? nat_of_ascii c + 32)%nat && (nat_of_ascii c + 32 <=? 90)%nat)
      with false; [reflexivity|].
    symmetry. apply andb_false_iff. right. apply Nat.leb_gt. lia.
  - assert (Hc : lower_ascii c = c) by (unfold lower_ascii; now rewrite Hrange).
    rewrite Hc. exact Hc.
Qed.

Lemma lower_idempotent (s : string) : lower (lower s) = lower s.
Proof.
  induction s as [|c s IH]; simpl; [reflexivity|].
  now rewrite lower_ascii_idempotent, IH.
Qed.

Lemma filter_length_permutation {A : Type} (p : A -> bool) (l l' : list A) :
  Permutation l l' -> List.length (filter p l) = List.length (filter p l').
Proof.
  induction 1 as [|x l l' _ IH|x y l|l l' l'' _ IH1 _ IH2]; simpl.
  - reflexivity.
  - destruct (p x); simpl; now rewrite IH.
  - destruct (p x), (p y); reflexivity.
  - now rewrite IH1.
Qed.

Lemma validate_by_counts (db : DB) (answers answers' : list (Z * string)) :
  List.length answers = List.length answers' ->
  Spec.correct_answers db answers = Spec.correct_answers db answers' ->
  QualityController.validate_quality_checks db answers =
  QualityController.validate_quality_checks db answers'.
Proof.
  intros Hlen Hcount. unfold QualityController.validate_quality_checks.
  rewrite !count_loop, Hcount, Hlen.
  destruct answers as [|a rest], answers' as [|a' rest']; simpl in Hlen;
    try discriminate; reflexivity.
Qed.

(** The verdict of [validate_quality_checks] does not depend on the order
    in which the answers are listed, nor on the letter case in which they are
    written. *)
Theorem validate_quality_checks_order_and_case
    (db : DB) (answers answers' : list (Z * string)) :
  Permutation answers answers' ->
  QualityController.validate_quality_checks db answers' =
    QualityController.validate_quality_checks db answers /\
  QualityController.validate_quality_checks db
    (map (fun item => (fst item, lower (snd item))) answers) =
    QualityController.validate_quality_checks db answers.
Proof.
  intro Hperm. split.
  - apply validate_by_counts.
    + symmetry. now apply Permutation_length.
    + unfold Spec.correct_answers. symmetry. now apply filter_length_permutation.
  - apply validate_by_counts; [apply length_map|].
    unfold Spec.correct_answers. clear Hperm answers'.
    induction answers as [|[qid answer] rest IH]; [reflexivity|].
    cbn [map filter fst snd].
    replace (Spec.answer_is_correct db (qid, lower answer))
      with (Spec.answer_is_correct db (qid, answer)).
    + destruct (Spec.answer_is_correct db (qid, answer)); cbn [List.length];
        now rewrite IH.
    + unfold Spec.answer_is_correct. cbn [fst snd].
      now rewrite lower_idempotent.
Qed.

(** The seven right answers of ten, listed backwards. *)
Lemma seven_right_backwards :
  QualityController.validate_quality_checks Scenarios.fresh_db
    (rev Scenarios.seven_right) =
  QualityController.validate_quality_checks Scenarios.fresh_db Scenarios.seven_right.
Proof.
  apply (proj1 (validate_quality_checks_order_and_case Scenarios.fresh_db
                  Scenarios.seven_right (rev Scenarios.seven_right)
                  (Permutation_rev _))).
Defined.

(** ** quality_control.py: check_evaluation_time in whole numbers *)

(** For a completed evaluation with a stored duration [d] and existing
    content, [check_evaluation_time] accepts exactly when [d] is at least 60
    seconds and the text has at most [20 * d] characters: the 60-second floor
    inside the expected time never decides, because a duration that passed
    the first test already exceeds half of it. *)
Theorem check_evaluation_time_in_whole_numbers
    (db : DB) (eid d t : Z) (e : Evaluation) (c : Content) :
  get evaluation_id (evaluations db) eid = Some e ->
  completion_time e = Some t ->
  duration_seconds e = Some d ->
  get content_id (contents db) (evaluation_content_id e) = Some c ->
  QualityController.check_evaluation_time db eid =
  Returned ((60 <=? d) && (len_str (text c) <=? 20 * d)).
Proof.
  intros He Ht Hd Hc.
  rewrite (check_evaluation_time_unfold db eid d t e c He Ht Hd Hc).
  f_equal. destruct (60 <=? d) eqn:Hd60; [|reflexivity]. cbn [andb].
  apply Z.leb_le in Hd60.
  unfold Spec.expected_time, Config.MIN_EVALUATION_TIME_SECONDS.
  set (n := len_str (text c)).
  assert (Hdiv : (inject_Z n / inject_Z 10 == n # 10)%Q).
  { unfold Qdiv, Qmult, Qinv, inject_Z, Qeq. cbn. lia. }
  destruct (n <=? 20 * d) eqn:Hn.
  - apply Z.leb_le in Hn. apply Qle_bool_iff.
    apply Qle_trans with (Qmax (inject_Z 60) (n # 10) * (1 # 2))%Q.
    + rewrite Hdiv. apply Qle_refl.
    + apply Q.max_case_strong.
      * intros x y Hxy H. now rewrite <- Hxy.
      * intros _. unfold Qle, Qmult, inject_Z. cbn. lia.
      * intros _. unfold Qle, Qmult, inject_Z. cbn. lia.
  - apply Z.leb_gt in Hn.
    destruct (Qle_bool _ _) eqn:Hle; [|reflexivity].
    apply Qle_bool_iff in Hle. exfalso.
    assert (Hge : ((n # 10) * (1 # 2) <= inject_Z d)%Q).
    { eapply Qle_trans; [|exact Hle]. apply Qmult_le_compat_r; [|discriminate].
      rewrite <- Hdiv. apply Q.le_max_r. }
    unfold Qle, Qmult, inject_Z in Hge. cbn in Hge. lia.
Qed.

(** The thousand-character text read in 50 seconds has few enough characters
    but is rejected for the 60-second minimum. *)
Lemma fifty_seconds_on_thousand_chars :
  QualityController.check_evaluation_time (Scenarios.timed_db 50) 1 = Returned false.
Proof.
  apply (check_evaluation_time_in_whole_numbers
           (Scenarios.timed_db 50) 1 50 50000000
           (mkEvaluation 1 1 3 0 (Some 50000000) (Some 50) (Some (3 # 1)%Q) None (Some true))
           Scenarios.long_article eq_refl eq_refl eq_refl eq_refl).
Defined.

(** ** evaluator.py: what submit_evaluation leaves in the store *)

Lemma get_update_first_other {T : Type} (key : T -> Z) (f : T -> T) (l : list T) (k k' : Z) :
  (forall row, key (f row) = key row) -> k' <> k ->
  get key (update_first (fun row => key row =? k) f l) k' = get key l k'.
Proof.
  intros Hkey Hne. unfold get. induction l as [|row l IH]; simpl; [reflexivity|].
  destruct (key row =? k) eqn:Hk; simpl.
  - rewrite Hkey. apply Z.eqb_eq in Hk. rewrite Hk.
    now replace (k =? k') with false by (symmetry; apply Z.eqb_neq; congruence).
  - destruct (key row =? k'); [reflexivity | exact IH].
Qed.

Lemma update_first_rows {T : Type} (p : T -> bool) (f : T -> T) (l : list T) (y : T) :
  In y (update_first p f l) -> In y l \/ exists x, In x l /\ y = f x.
Proof.
  induction l as [|row l IH]; simpl; [tauto|].
  destruct (p row); simpl.
  - intros [<-|Hin]; [right; exists row; auto | left; now right].
  - intros [<-|Hin]; [left; now left|].
    destruct (IH Hin) as [H|(x & Hx & ->)]; [left; now right|].
    right. exists x. auto.
Qed.

(** A pending evaluation is accepted whatever the submission carries. *)
Lemma submit_pending_succeeds
    (now eid : Z) (scores : list (Z * Q)) (rating : Q) (comment : option string)
    (answers : option (list (Z * string))) (db : DB) (e : Evaluation) :
  get evaluation_id (evaluations db) eid = Some e ->
  completion_time e = None ->
  snd (Evaluator.submit_evaluation now eid scores rating comment answers db) =
  Returned (true, "Evaluation submitted successfully"%string).
Proof.
  intros Hget Hpending. destruct answers as [[|a rest]|].
  - destruct (submit_without_answers_store now eid scores rating comment (Some []) db e
                Hget Hpending (or_intror eq_refl)) as (rows & Hstore & _).
    now rewrite Hstore.
  - destruct (submit_with_answers_store now eid scores rating comment (a :: rest) db e
                Hget Hpending ltac:(discriminate)) as (rows & Hstore & _).
    now rewrite Hstore.
  - destruct (submit_without_answers_store now eid scores rating comment None db e
                Hget Hpending (or_introl eq_refl)) as (rows & Hstore & _).
    now rewrite Hstore.
Qed.

(** What a submission on a pending evaluation writes.  In every case it
    returns success, appends one score row for each valid pair, in order,
    and leaves the users, contents, criteria, questions, reports and
    suggestions alone.  Without answers ([None] or an empty dict, which
    [validate_quality_checks] on its own would fail) the evaluation row is
    completed at [now] with the duration, rating and comments, and
    [passed_quality_checks = True]; it keeps its evaluator, content and
    start time, and every other evaluation is looked up as before.  With
    answers to check, no evaluation row changes: the verdict of
    [validate_quality_checks] is never stored. *)
Theorem submit_evaluation_writes
    (now eid : Z) (scores : list (Z * Q)) (rating : Q) (comment : option string)
    (answers : option (list (Z * string))) (db : DB) (e : Evaluation) :
  get evaluation_id (evaluations db) eid = Some e ->
  completion_time e = None ->
  let db' := fst (Evaluator.submit_evaluation now eid scores rating comment answers db) in
  snd (Evaluator.submit_evaluation now eid scores rating comment answers db) =
    Returned (true, "Evaluation submitted successfully"%string) /\
  (exists rows,
     evaluation_scores db' = (evaluation_scores db ++ rows)%list /\
     map Spec.score_row_pair rows = filter (Spec.score_is_valid db) scores /\
     Forall (fun r => score_evaluation_id r = eid) rows) /\
  (answers = None \/ answers = Some [] ->
   (exists e',
      get evaluation_id (evaluations db') eid = Some e' /\
      completion_time e' = Some now /\
      duration_seconds e' = Some (Evaluator.whole_seconds now (start_time e)) /\
      overall_rating e' = Some rating /\
      comments e' = comment /\
      passed_quality_checks e' = Some true /\
      evaluator_id e' = evaluator_id e /\
      evaluation_content_id e' = evaluation_content_id e /\
      start_time e' = start_time e) /\
   (forall other, other <> eid ->
      get evaluation_id (evaluations db') other =
      get evaluation_id (evaluations db) other)) /\
  (forall given, answers = Some given -> given <> [] ->
     evaluations db' = evaluations db) /\
  users db' = users db /\ contents db' = contents db /\ criteria db' = criteria db /\
  questions db' = questions db /\ reports db' = reports db /\
  improvements db' = improvements db.
Proof.
  intros Hget Hpending db'.
  split; [now apply (submit_pending_succeeds now eid scores rating comment answers db e)|].
  assert (Hcases : answers = None \/ answers = Some [] \/
                   exists given, answers = Some given /\ given <> []).
  { destruct answers as [[|a rest]|]; auto.
    right. right. exists (a :: rest). split; [reflexivity | discriminate]. }
  destruct Hcases as [Hnone|[Hnone|(given & -> & Hgiven)]].
  1, 2:
    assert (Hno : answers = None \/ answers = Some []) by auto;
    destruct (submit_without_answers_store now eid scores rating comment answers db e
                Hget Hpending Hno) as (rows & Hstore & Hmap & Hall);
    subst db'; rewrite Hstore;
    cbn [fst evaluations evaluation_scores users contents criteria questions reports
         improvements];
    (split; [exists rows; auto|]);
    (split;
     [intros _; split;
      [eexists; split;
       [unfold get; apply find_some_first; [exact Hget|];
        apply Z.eqb_eq; cbn; now apply (get_evaluation_id (evaluations db))
       | cbn; repeat split]
      | intros other Hne; now apply get_update_first_other]
     |]);
    (split; [intros given Hsome Hne; destruct Hno as [Hn|Hn]; rewrite Hn in Hsome;
             [discriminate | injection Hsome as <-; congruence]|]);
    repeat split.
  destruct (submit_with_answers_store now eid scores rating comment given db e
              Hget Hpending Hgiven) as (rows & Hstore & Hmap & Hall).
  subst db'. rewrite Hstore.
  cbn [fst evaluations evaluation_scores users contents criteria questions reports
       improvements set_evaluation_scores].
  split; [exists rows; auto|].
  split; [intros [Hn|Hn]; [discriminate | injection Hn as ->; congruence]|].
  repeat split.
Qed.

(** An empty dict of answers on the pending evaluation: the row is completed
    and marked as passed. *)
Lemma submit_with_empty_answers :
  exists e',
    get evaluation_id
        (evaluations (fst (Evaluator.submit_evaluation 90000000 1 [] (3 # 1)%Q None
                             (Some []) Scenarios.pending_db))) 1 = Some e' /\
    completion_time e' = Some 90000000 /\
    passed_quality_checks e' = Some true.
Proof.
  destruct (submit_evaluation_writes 90000000 1 [] (3 # 1)%Q None (Some [])
              Scenarios.pending_db
              (mkEvaluation 1 1 1 0 None None None None None) eq_refl eq_refl)
    as (_ & _ & Hrow & _).
  destruct (Hrow (or_intror eq_refl))
    as [(e' & Hget & Hdone & _ & _ & _ & Hpassed & _) _].
  exists e'. split; [exact Hget|]. split; [exact Hdone | exact Hpassed].
Defined.

(** Completion is final only for a submission without answers.  Once
    [submit_evaluation] has succeeded without answers, every later submission
    for the same id, whatever it carries, is refused as already completed and
    leaves the store as the first submission left it.  After a submission
    with answers to check the evaluation is still pending, and every later
    submission for the same id succeeds again. *)
Theorem resubmission_after_success
    (now eid : Z) (scores : list (Z * Q)) (rating : Q) (comment : option string)
    (answers : option (list (Z * string))) (db : DB) (e : Evaluation) :
  get evaluation_id (evaluations db) eid = Some e ->
  completion_time e = None ->
  let db' := fst (Evaluator.submit_evaluation now eid scores rating comment answers db) in
  (answers = None \/ answers = Some [] ->
   forall now' scores' rating' comment' answers',
     Evaluator.submit_evaluation now' eid scores' rating' comment' answers' db' =
     (db', Returned (false,
             ("Evaluation ID " ++ str_of_int eid ++ " already completed")%string))) /\
  (forall given, answers = Some given -> given <> [] ->
   forall now' scores' rating' comment' answers',
     snd (Evaluator.submit_evaluation now' eid scores' rating' comment' answers' db') =
     Returned (true, "Evaluation submitted successfully"%string)).
Proof.
  intros Hget Hpending db'. split.
  - intros Hno now' scores' rating' comment' answers'.
    destruct (submit_without_answers_store now eid scores rating comment answers db e
                Hget Hpending Hno) as (rows & Hstore & _).
    subst db'. rewrite Hstore. cbn [fst].
    unfold Evaluator.submit_evaluation at 1, get_db_session. cbn [evaluations].
    unfold get.
    rewrite (find_some_first _ _ _ e Hget); [reflexivity|].
    apply Z.eqb_eq. cbn. now apply (get_evaluation_id (evaluations db)).
  - intros given -> Hgiven now' scores' rating' comment' answers'.
    destruct (submit_with_answers_store now eid scores rating comment given db e
                Hget Hpending Hgiven) as (rows & Hstore & _).
    subst db'. rewrite Hstore. cbn [fst].
    now apply (submit_pending_succeeds now' eid scores' rating' comment' answers' _ e).
Qed.

(** The pending evaluation submitted twice without answers: the second
    submission is refused. *)
Lemma second_submission_of_pending :
  let db' := fst (Evaluator.submit_evaluation 90000000 1 [(1, (4 # 1)%Q)] (4 # 1)%Q
                    None None Scenarios.pending_db) in
  Evaluator.submit_evaluation 95000000 1 [(1, (5 # 1)%Q)] (5 # 1)%Q None None db' =
  (db', Returned (false, "Evaluation ID 1 already completed"%string)).
Proof.
  apply (proj1 (resubmission_after_success 90000000 1 [(1, (4 # 1)%Q)] (4 # 1)%Q None
                  None Scenarios.pending_db
                  (mkEvaluation 1 1 1 0 None None None None None) eq_refl eq_refl)
               (or_introl eq_refl) 95000000 [(1, (5 # 1)%Q)] (5 # 1)%Q None None).
Defined.

(** ** evaluator.py and quality_control.py: a failed check is never recorded *)

Lemma flag_loop_records (db : DB) (evals : list Evaluation) :
  forall acc record,
    In record (fold_left (QualityController.flag_step db) evals acc) ->
    In record acc \/
    exists e, In e evals /\
              QualityController.flags record = QualityController.flags_of db e.
Proof.
  induction evals as [|e rest IH]; intros acc record Hin; cbn [fold_left] in Hin;
    [now left|].
  destruct (IH _ _ Hin) as [Hacc|(e' & He' & Hflags)].
  - unfold QualityController.flag_step in Hacc.
    destruct (completion_time e) as [t|]; [|now left].
    destruct (QualityController.flags_of db e) as [|f fs] eqn:Hfl; [now left|].
    apply in_app_or in Hacc. destruct Hacc as [Hacc|[<-|[]]]; [now left|].
    right. exists e. split; [now left|]. cbn. now rewrite Hfl.
  - right. exists e'. split; [now right | exact Hflags].
Qed.

Lemma failed_flag (db : DB) (e : Evaluation) :
  In "Failed quality checks"%string (QualityController.flags_of db e) ->
  passed_quality_checks e = Some false.
Proof.
  unfold QualityController.flags_of. intro Hin.
  apply in_app_or in Hin. destruct Hin as [Hfast|Hin].
  - destruct (duration_seconds e) as [d|]; [|contradiction].
    destruct (truthy_int (Some d) && (d <? Config.MIN_EVALUATION_TIME_SECONDS));
      [|contradiction].
    destruct Hfast as [Heq|[]]. cbn in Heq. discriminate.
  - apply in_app_or in Hin. destruct Hin as [Hfailed|Hstraight].
    + now destruct (passed_quality_checks e) as [[|]|].
    + destruct (QualityController.straight_line _); [|contradiction].
      destruct Hstraight as [Heq|[]]. discriminate.
Qed.

(** [submit_evaluation] never records a failed quality check: whatever it
    is given, an evaluation row with [passed_quality_checks = False] after
    the call was in the store before it.  So on a store without such rows,
    a submission whose answers fail [validate_quality_checks] leaves
    [flag_low_quality_evaluations] without any "Failed quality checks"
    flag. *)
Theorem failed_quality_checks_are_never_recorded
    (now eid : Z) (scores : list (Z * Q)) (rating : Q) (comment : option string)
    (answers : option (list (Z * string))) (db : DB) :
  let db' := fst (Evaluator.submit_evaluation now eid scores rating comment answers db) in
  Forall (fun e' => passed_quality_checks e' = Some false -> In e' (evaluations db))
         (evaluations db') /\
  (Forall (fun e => passed_quality_checks e <> Some false) (evaluations db) ->
   Forall (fun record =>
             ~ In "Failed quality checks"%string (QualityController.flags record))
          (QualityController.flag_low_quality_evaluations db')).
Proof.
  intro db'.
  assert (Hrows : Forall (fun e' => passed_quality_checks e' = Some false ->
                                    In e' (evaluations db)) (evaluations db')).
  { apply Forall_forall. intros e' Hin Hfalse. subst db'.
    destruct (get evaluation_id (evaluations db) eid) as [e|] eqn:Hget.
    - destruct (completion_time e) as [t|] eqn:Hdone.
      + unfold Evaluator.submit_evaluation, get_db_session in Hin.
        rewrite Hget, Hdone in Hin. exact Hin.
      + destruct answers as [[|a rest]|].
        2:{ destruct (submit_with_answers_store now eid scores rating comment (a :: rest)
                        db e Hget Hdone ltac:(discriminate)) as (rows & Hstore & _).
            rewrite Hstore in Hin. exact Hin. }
        all: match goal with
             | Hin : In _ (evaluations (fst (Evaluator.submit_evaluation _ _ _ _ _ ?ans _)))
               |- _ =>
               assert (Hno : ans = None \/ ans = Some []) by auto;
               destruct (submit_without_answers_store now eid scores rating comment ans
                           db e Hget Hdone Hno) as (rows & Hstore & _)
             end;
          rewrite Hstore in Hin; cbn [fst evaluations] in Hin;
          apply update_first_rows in Hin;
          destruct Hin as [Hin|(x & _ & ->)]; [exact Hin | discriminate].
    - unfold Evaluator.submit_evaluation, get_db_session in Hin.
      rewrite Hget in Hin. exact Hin. }
  split; [exact Hrows|].
  intro Hclean. apply Forall_forall. intros record Hrecord Hflag.
  unfold QualityController.flag_low_quality_evaluations in Hrecord.
  apply flag_loop_records in Hrecord. destruct Hrecord as [[]|(e' & He' & Hflags)].
  rewrite Hflags in Hflag. apply failed_flag in Hflag.
  pose proof (proj1 (Forall_forall _ _) Hrows e' He' Hflag) as Hold.
  exact (proj1 (Forall_forall _ _) Hclean e' Hold Hflag).
Qed.

(** The pending evaluation submitted with six right answers of ten, which
    fail the check: nothing is flagged as failed. *)
Lemma six_right_is_not_flagged :
  Forall (fun record =>
            ~ In "Failed quality checks"%string (QualityController.flags record))
         (QualityController.flag_low_quality_evaluations
            (fst (Evaluator.submit_evaluation 90000000 1 [(1, (4 # 1)%Q)] (4 # 1)%Q None
                    (Some Scenarios.six_right) Scenarios.pending_db))).
Proof.
  apply (proj2 (failed_quality_checks_are_never_recorded 90000000 1 [(1, (4 # 1)%Q)]
                  (4 # 1)%Q None (Some Scenarios.six_right) Scenarios.pending_db)).
  repeat constructor; discriminate.
Defined.

(** ** evaluator.py: get_pending_evaluations *)

Lemma next_id_above {T : Type} (key : T -> Z) (table : list T) (row : T) :
  In row table -> key row < next_id key table.
Proof.
  unfold next_id.
  assert (Hfold : forall l a, a <= fold_left Z.max l a /\
                              forall k, In k l -> k <= fold_left Z.max l a).
  { induction l as [|x l IH]; intro a; simpl.
    - split; [lia | tauto].
    - destruct (IH (Z.max a x)) as [Ha Hl]. split; [lia|].
      intros k [<-|Hk]; [lia | now apply Hl]. }
  intro Hin. destruct (Hfold (map key table) 0) as [_ Hall].
  specialize (Hall (key row) (in_map key _ _ Hin)). lia.
Qed.

Lemma find_none_all {T : Type} (p : T -> bool) (l : list T) :
  (forall x, In x l -> p x = false) -> find p l = None.
Proof.
  induction l as [|x l IH]; intro Hall; simpl; [reflexivity|].
  rewrite (Hall x (or_introl eq_refl)). apply IH. intros y Hy. apply Hall. now right.
Qed.

Lemma find_app_some {T : Type} (p : T -> bool) (l1 l2 : list T) (x : T) :
  find p l1 = Some x -> find p (l1 ++ l2) = Some x.
Proof.
  induction l1 as [|y l1 IH]; simpl; [discriminate|].
  destruct (p y); [tauto | exact IH].
Qed.

Lemma get_app_fresh {T : Type} (key : T -> Z) (table : list T) (row : T) :
  key row = next_id key table ->
  get key (table ++ [row]) (key row) = Some row /\
  forall k, k <> key row -> get key (table ++ [row]) k = get key table k.
Proof.
  intro Hkey. unfold get. split.
  - rewrite find_app_none.
    + simpl. now rewrite Z.eqb_refl.
    + apply find_none_all. intros x Hx.
      apply Z.eqb_neq. pose proof (next_id_above key table x Hx). lia.
  - intros k Hk. destruct (find (fun r => key r =? k) table) as [x|] eqn:Hfind.
    + now apply find_app_some.
    + rewrite find_app_none by exact Hfind. simpl.
      now replace (key row =? k) with false by (symmetry; apply Z.eqb_neq; congruence).
Qed.

Lemma pending_loop_done (db : DB) (clock : nat -> Z) (evals : list Evaluation) :
  Forall (fun e => get content_id (contents db) (evaluation_content_id e) <> None) evals ->
  forall i result,
  exists entries,
    Queries.pending_loop db clock i evals result = Queries.Done (result ++ entries) /\
    map Queries.pending_evaluation_id entries = map evaluation_id evals /\
    map Queries.pending_start_time entries = map start_time evals.
Proof.
  induction 1 as [|e rest He _ IH]; intros i result.
  - exists []. simpl. now rewrite app_nil_r.
  - simpl. destruct (get content_id (contents db) (evaluation_content_id e))
      as [content|]; [|congruence].
    destruct (IH (S i) (result ++ [Queries.mkPending (evaluation_id e)
                 (content_id content) (title content) (content_domain content)
                 (start_time e) (Queries.total_seconds (clock i) (start_time e))])%list)
      as (entries & Hloop & Hids & Hstarts).
    eexists (_ :: entries). rewrite Hloop, <- app_assoc. simpl.
    split; [reflexivity|]. now rewrite Hids, Hstarts.
Qed.

Lemma pending_loop_raises (db : DB) (clock : nat -> Z) (evals : list Evaluation) :
  Exists (fun e => get content_id (contents db) (evaluation_content_id e) = None) evals ->
  forall i result,
    Queries.pending_loop db clock i evals result =
    Queries.AttributeError "'NoneType' object has no attribute 'id'".
Proof.
  induction 1 as [e rest He|e rest _ IH]; intros i result; simpl.
  - now rewrite He.
  - destruct (get content_id (contents db) (evaluation_content_id e)); [apply IH|].
    reflexivity.
Qed.

(** [get_pending_evaluations] returns one entry, in table order, for every
    evaluation of the user that is not completed, provided the content of
    each of them is stored; a single pending evaluation whose content is
    missing makes the whole call raise [AttributeError]. *)
Theorem get_pending_evaluations_needs_content (clock : nat -> Z) (uid : Z) (db : DB) :
  let mine := filter (Queries.pending_of uid) (evaluations db) in
  (Forall (fun e => get content_id (contents db) (evaluation_content_id e) <> None) mine ->
   exists entries,
     Queries.get_pending_evaluations clock uid db = Queries.Done entries /\
     map Queries.pending_evaluation_id entries = map evaluation_id mine /\
     map Queries.pending_start_time entries = map start_time mine) /\
  (Exists (fun e => get content_id (contents db) (evaluation_content_id e) = None) mine ->
   Queries.get_pending_evaluations clock uid db =
   Queries.AttributeError "'NoneType' object has no attribute 'id'").
Proof.
  intro mine. split.
  - intro Hall. unfold Queries.get_pending_evaluations. fold mine.
    destruct (pending_loop_done db clock mine Hall 0 []) as (entries & Hloop & Hids).
    exists entries. now rewrite Hloop.
  - intro Hex. unfold Queries.get_pending_evaluations. fold mine.
    now apply pending_loop_raises.
Qed.

Lemma update_first_app_fresh {T : Type} (key : T -> Z) (f : T -> T) (table : list T)
    (row : T) :
  key row = next_id key table ->
  update_first (fun r => key r =? key row) f (table ++ [row]) = (table ++ [f row])%list.
Proof.
  intro Hkey.
  assert (Hall : forall x, In x table -> (key x =? key row) = false).
  { intros x Hx. apply Z.eqb_neq. pose proof (next_id_above key table x Hx). lia. }
  clear Hkey. induction table as [|y table IH]; simpl.
  - now rewrite Z.eqb_refl.
  - rewrite (Hall y (or_introl eq_refl)). f_equal. apply IH.
    intros x Hx. apply Hall. now right.
Qed.

(** The life of an evaluation in the pending list.  On a store whose
    evaluations all refer to stored content, a newly started evaluation
    appears at the end of the evaluator's pending list.  A submission
    without answers takes it off the list, which is back to what it was
    before the evaluation was started; after a submission with answers to
    check the evaluation is still on the list. *)
Theorem pending_list_follows_the_evaluation
    (now uid cid : Z) (db : DB) (u : User) (c : Content) :
  Store.content_stored db ->
  get user_id (users db) uid = Some u ->
  get content_id (contents db) cid = Some c ->
  find (Evaluator.same_pair uid cid) (evaluations db) = None ->
  let before := map evaluation_id (filter (Queries.pending_of uid) (evaluations db)) in
  let db1 := fst (Evaluator.start_evaluation now uid cid db) in
  exists eid,
    snd (Evaluator.start_evaluation now uid cid db) = Returned (Some eid) /\
    ~ In eid before /\
    (forall clock, exists entries,
       Queries.get_pending_evaluations clock uid db1 = Queries.Done entries /\
       map Queries.pending_evaluation_id entries = (before ++ [eid])%list) /\
    (forall now' scores rating comment answers clock,
       answers = None \/ answers = Some [] ->
       let db2 := fst (Evaluator.submit_evaluation now' eid scores rating comment
                         answers db1) in
       exists entries,
         Queries.get_pending_evaluations clock uid db2 = Queries.Done entries /\
         map Queries.pending_evaluation_id entries = before) /\
    (forall now' scores rating comment given clock,
       given <> [] ->
       let db2 := fst (Evaluator.submit_evaluation now' eid scores rating comment
                         (Some given) db1) in
       exists entries,
         Queries.get_pending_evaluations clock uid db2 = Queries.Done entries /\
         map Queries.pending_evaluation_id entries = (before ++ [eid])%list).
Proof.
  intros Hstored Hu Hc Hfind before db1.
  subst db1. rewrite (start_evaluation_new now uid cid db u c Hu Hc Hfind).
  cbn [fst snd].
  set (eid := next_id evaluation_id (evaluations db)).
  set (new := mkEvaluation eid uid cid now None None None None None).
  exists eid. split; [reflexivity|].
  assert (Hfresh : ~ In eid before).
  { subst before. intro Hin. apply in_map_iff in Hin. destruct Hin as (e & He & Hin).
    apply filter_In in Hin. destruct Hin as [Hin _].
    pose proof (next_id_above evaluation_id (evaluations db) e Hin). subst eid. lia. }
  split; [exact Hfresh|].
  assert (Hnew_pending : Queries.pending_of uid new = true).
  { unfold Queries.pending_of. cbn. now rewrite Z.eqb_refl. }
  assert (Hget : get evaluation_id
                     (evaluations (set_evaluations db (evaluations db ++ [new]))) eid
                 = Some new).
  { cbn [evaluations set_evaluations].
    exact (proj1 (get_app_fresh evaluation_id (evaluations db) new eq_refl)). }
  assert (Hlisted : forall (s : DB) (clock : nat -> Z),
            contents s = contents db ->
            evaluations s = (evaluations db ++ [new])%list ->
            exists entries,
              Queries.get_pending_evaluations clock uid s = Queries.Done entries /\
              map Queries.pending_evaluation_id entries = (before ++ [eid])%list).
  { intros s clock Hcontents Hevals. unfold Queries.get_pending_evaluations.
    rewrite Hevals, filter_app. cbn [filter]. rewrite Hnew_pending.
    destruct (pending_loop_done s clock
                (filter (Queries.pending_of uid) (evaluations db) ++ [new]))
      with (i := 0%nat) (result := @nil Queries.pending)
      as (entries & Hloop & Hids & _).
    - rewrite Hcontents. apply Forall_app. split.
      + apply Forall_forall. intros e He. apply filter_In in He.
        exact (proj1 (Forall_forall _ _) Hstored e (proj1 He)).
      + constructor; [|constructor]. cbn. rewrite Hc. discriminate.
    - exists entries. split; [exact Hloop|].
      rewrite Hids, map_app. reflexivity. }
  split; [intro clock; now apply Hlisted|].
  split.
  - intros now' scores rating comment answers clock Hno.
    destruct (submit_without_answers_store now' eid scores rating comment answers _ new
                Hget eq_refl Hno) as (rows & Hstore & _).
    rewrite Hstore. cbn [fst].
    unfold Queries.get_pending_evaluations. cbn [evaluations set_evaluations].
    rewrite (update_first_app_fresh evaluation_id _ (evaluations db) new eq_refl).
    rewrite filter_app. cbn [filter].
    replace (Queries.pending_of uid _) with false
      by (unfold Queries.pending_of; cbn; now rewrite andb_false_r).
    rewrite app_nil_r.
    match goal with
    | |- context [Queries.pending_loop ?s clock 0 ?l []] =>
      destruct (pending_loop_done s clock l) with (i := 0%nat) (result := @nil Queries.pending)
        as (entries & Hloop & Hids & _)
    end.
    + cbn [contents set_evaluations]. apply Forall_forall. intros e He.
      apply filter_In in He.
      exact (proj1 (Forall_forall _ _) Hstored e (proj1 He)).
    + exists entries. split; [exact Hloop | exact Hids].
  - intros now' scores rating comment given clock Hgiven.
    destruct (submit_with_answers_store now' eid scores rating comment given _ new
                Hget eq_refl Hgiven) as (rows & Hstore & _).
    rewrite Hstore. cbn [fst]. now apply Hlisted.
Qed.

(** The evaluator of the fresh store starts on the AI text. *)
Lemma pending_list_on_fresh_store :
  exists eid,
    snd (Evaluator.start_evaluation 0 1 1 Scenarios.fresh_db) = Returned (Some eid) /\
    forall clock, exists entries,
      Queries.get_pending_evaluations clock 1
        (fst (Evaluator.start_evaluation 0 1 1 Scenarios.fresh_db)) = Queries.Done entries /\
      map Queries.pending_evaluation_id entries = [eid].
Proof.
  destruct (pending_list_follows_the_evaluation 0 1 1 Scenarios.fresh_db
              Scenarios.evaluator_1 Scenarios.ai_article
              ltac:(constructor) eq_refl eq_refl eq_refl)
    as (eid & Hret & _ & Hlisted & _).
  exists eid. split; [exact Hret | exact Hlisted].
Defined.

(** ** evaluator.py: get_content_for_evaluation *)

Lemma with_keys_shape (db : DB) (contents : list Content) :
  forall g,
    map fst (fst (Queries.with_keys db contents g)) = contents /\
    Forall (fun ck => fst (snd ck) = Queries.eval_count db (fst ck))
           (fst (Queries.with_keys db contents g)).
Proof.
  induction contents as [|c rest IH]; intro g; simpl.
  - split; [reflexivity | constructor].
  - unfold Utils.bind, Utils.ret.
    destruct (Queries.random_float g) as [r g1].
    specialize (IH g1). destruct (Queries.with_keys db rest g1) as [keyed g2].
    cbn [fst snd map] in *. destruct IH as [Hmap Hall].
    split; [now rewrite Hmap | now constructor].
Qed.

Lemma insert_by_key_in {A : Type} (x y : A * (Z * Q)) (sorted : list (A * (Z * Q))) :
  In y (Queries.insert_by_key x sorted) <-> y = x \/ In y sorted.
Proof.
  induction sorted as [|z rest IH]; simpl.
  - intuition congruence.
  - destruct (Queries.key_lt (snd z) (snd x)); simpl; [rewrite IH|]; intuition congruence.
Qed.

Lemma sort_by_key_in {A : Type} (y : A * (Z * Q)) (l : list (A * (Z * Q))) :
  In y (Queries.sort_by_key l) <-> In y l.
Proof.
  induction l as [|x l IH]; simpl; [tauto|].
  rewrite insert_by_key_in, IH. intuition congruence.
Qed.

Lemma key_lt_count (a b : Z * Q) : Queries.key_lt a b = true -> fst a <= fst b.
Proof.
  unfold Queries.key_lt. intro H. apply orb_true_iff in H. destruct H as [H|H].
  - apply Z.ltb_lt in H. lia.
  - apply andb_true_iff in H. destruct H as [H _]. apply Z.eqb_eq in H. lia.
Qed.

Lemma key_not_lt_count (a b : Z * Q) : Queries.key_lt a b = false -> fst b <= fst a.
Proof.
  unfold Queries.key_lt. intro H. apply orb_false_iff in H. destruct H as [H _].
  apply Z.ltb_ge in H. exact H.
Qed.

Lemma sort_by_key_head {A : Type} (l : list (A * (Z * Q))) :
  match Queries.sort_by_key l with
  | [] => l = []
  | first :: _ => forall y, In y l -> fst (snd first) <= fst (snd y)
  end.
Proof.
  induction l as [|x l IH]; [reflexivity|].
  cbn [Queries.sort_by_key fold_right]. fold (Queries.sort_by_key l).
  destruct (Queries.sort_by_key l) as [|z rest] eqn:Hsorted.
  - subst l. simpl. intros y [<-|[]]. lia.
  - simpl. destruct (Queries.key_lt (snd z) (snd x)) eqn:Hlt.
    + apply key_lt_count in Hlt. intros y [<-|Hy]; [exact Hlt | now apply IH].
    + apply key_not_lt_count in Hlt. intros y [<-|Hy]; [lia|].
      specialize (IH y Hy). lia.
Qed.

(** [get_content_for_evaluation] returns [None] exactly when no stored
    content passes the filters.  Otherwise it returns a stored content that
    passes them and has the fewest evaluation rows among the contents that
    pass, whatever the random source. *)
Theorem get_content_for_evaluation_least_evaluated
    (domain source_type model_name : option string) (exclude_ids : option (list Z))
    (db : DB) (g : Utils.rng) :
  let passes := Queries.content_matches domain source_type model_name exclude_ids in
  let chosen := fst (Queries.get_content_for_evaluation domain source_type model_name
                       exclude_ids db g) in
  (chosen = None <-> filter passes (contents db) = []) /\
  (forall c, chosen = Some c ->
     In c (contents db) /\ passes c = true /\
     forall other, In other (contents db) -> passes other = true ->
       Queries.eval_count db c <= Queries.eval_count db other).
Proof.
  intros passes chosen. subst chosen.
  unfold Queries.get_content_for_evaluation. fold passes.
  destruct (filter passes (contents db)) as [|m matching] eqn:Hfilter.
  { cbn. split; [tauto | discriminate]. }
  unfold Utils.bind, Utils.ret.
  destruct (with_keys_shape db (m :: matching) g) as [Hmap Hkeys].
  destruct (Queries.with_keys db (m :: matching) g) as [keyed g1].
  cbn [fst] in *.
  pose proof (sort_by_key_head keyed) as Hhead.
  destruct (Queries.sort_by_key keyed) as [|first rest] eqn:Hsorted.
  { subst keyed. discriminate. }
  split; [split; discriminate|].
  intros c Hc. injection Hc as <-.
  assert (Hfirst : In first keyed).
  { apply sort_by_key_in. rewrite Hsorted. now left. }
  assert (Hin : In (fst first) (filter passes (contents db))).
  { rewrite Hfilter, <- Hmap. now apply in_map. }
  apply filter_In in Hin. destruct Hin as [Hstored Hpasses].
  split; [exact Hstored|]. split; [exact Hpasses|].
  intros other Hother Hother_passes.
  assert (Hother_in : In other (map fst keyed)).
  { rewrite Hmap, <- Hfilter. apply filter_In. now split. }
  apply in_map_iff in Hother_in. destruct Hother_in as (ck & <- & Hck).
  rewrite <- (proj1 (Forall_forall _ _) Hkeys first Hfirst).
  rewrite <- (proj1 (Forall_forall _ _) Hkeys ck Hck).
  now apply Hhead.
Qed.

(** ** evaluator.py: assign_content_to_experts *)

Section Assignment.

Variable json_loads : string -> option (list string).
Variable cid : Z.

Lemma qualified_experts_reads_users (profiles : list Experts.ExpertProfile)
    (domain : string) (db db' : DB) :
  users db' = users db ->
  Experts.qualified_experts json_loads profiles domain db' =
  Experts.qualified_experts json_loads profiles domain db.
Proof.
  intro Husers. unfold Experts.qualified_experts.
  generalize (@nil Z). induction (filter Experts.verified profiles) as [|p rest IH];
    intro acc; simpl; [reflexivity|].
  unfold Experts.qualify at 1 3, Experts.active_user. rewrite Husers.
  destruct (Experts.decoded json_loads (Experts.profile_domains p)); [|reflexivity].
  destruct (Experts.has_domain domain l); simpl; [|apply IH].
  destruct (find _ (users db)); simpl; apply IH.
Qed.

Lemma assign_existing (clock : nat -> Z) (s : DB) (ids : list Z) (x : Z)
    (existing : Evaluation) :
  find (Evaluator.same_pair x cid) (evaluations s) = Some existing ->
  Experts.assign cid clock (s, ids) x = (s, (ids ++ [evaluation_id existing])%list).
Proof. intro Hfind. unfold Experts.assign. now rewrite Hfind. Qed.

Lemma assign_new (clock : nat -> Z) (s : DB) (ids : list Z) (x : Z) :
  find (Evaluator.same_pair x cid) (evaluations s) = None ->
  Experts.assign cid clock (s, ids) x =
  (set_evaluations s
     (evaluations s ++
      [mkEvaluation (next_id evaluation_id (evaluations s)) x cid
                    (clock (List.length ids)) None None None None None]),
   (ids ++ [next_id evaluation_id (evaluations s)])%list).
Proof. intro Hfind. unfold Experts.assign. now rewrite Hfind. Qed.

(** What the second loop leaves: rows are only appended, and every expert
    ends with a first row for the content, whose id is the one returned. *)
Lemma assign_fold (clock : nat -> Z) (experts : list Z) :
  forall (s : DB) (ids : list Z),
  exists added rows,
    fold_left (Experts.assign cid clock) experts (s, ids) =
      (set_evaluations s (evaluations s ++ added), (ids ++ map evaluation_id rows)%list) /\
    Forall2 (fun x row =>
               find (Evaluator.same_pair x cid) (evaluations s ++ added) = Some row)
            experts rows.
Proof.
  induction experts as [|x rest IH]; intros s ids.
  - exists [], []. simpl. rewrite !app_nil_r. split; [|constructor]. now destruct s.
  - cbn [fold_left].
    destruct (find (Evaluator.same_pair x cid) (evaluations s)) as [existing|] eqn:Hfind.
    + rewrite (assign_existing clock s ids x existing Hfind).
      destruct (IH s (ids ++ [evaluation_id existing])%list) as (added & rows & Hfold & Hall).
      exists added, (existing :: rows). rewrite Hfold, <- app_assoc. split; [reflexivity|].
      constructor; [now apply find_app_some | exact Hall].
    + rewrite (assign_new clock s ids x Hfind).
      set (new := mkEvaluation (next_id evaluation_id (evaluations s)) x cid
                    (clock (List.length ids)) None None None None None).
      change (next_id evaluation_id (evaluations s)) with (evaluation_id new).
      destruct (IH (set_evaluations s (evaluations s ++ [new]))
                   (ids ++ [evaluation_id new])%list) as (added & rows & Hfold & Hall).
      exists (new :: added), (new :: rows). rewrite Hfold. cbn [evaluations set_evaluations] in *.
      rewrite <- !app_assoc in *. cbn [app] in *. split; [now destruct s|].
      constructor; [|exact Hall].
      rewrite find_app_none by exact Hfind. simpl.
      unfold new at 1. now rewrite same_pair_refl.
Qed.

Lemma assign_fold_existing (clock : nat -> Z) (s : DB) (experts : list Z)
    (rows : list Evaluation) :
  Forall2 (fun x row => find (Evaluator.same_pair x cid) (evaluations s) = Some row)
          experts rows ->
  forall ids,
    fold_left (Experts.assign cid clock) experts (s, ids) =
    (s, (ids ++ map evaluation_id rows)%list).
Proof.
  induction 1 as [|x row experts rows Hx _ IH]; intro ids; cbn [fold_left map].
  - now rewrite app_nil_r.
  - rewrite (assign_existing clock s ids x row Hx), IH, <- app_assoc. reflexivity.
Qed.

End Assignment.

(** Assigning a content twice changes nothing the second time: when
    [assign_content_to_experts] has returned, the same call on the store it
    left returns the same evaluation ids and leaves that store as it is. *)
Theorem assign_content_to_experts_twice
    (json_loads : string -> option (list string)) (profiles : list Experts.ExpertProfile)
    (clock clock' : nat -> Z) (cid : Z) (domain : string) (db db' : DB) (ids : list Z) :
  Experts.assign_content_to_experts json_loads profiles clock cid domain db =
    (db', Returned ids) ->
  Experts.assign_content_to_experts json_loads profiles clock' cid domain db' =
    (db', Returned ids).
Proof.
  unfold Experts.assign_content_to_experts, get_db_session.
  destruct (Experts.qualified_experts json_loads profiles domain db)
    as [experts|err] eqn:Hexperts; cbn [bindO]; [|discriminate].
  destruct (assign_fold cid clock experts db []) as (added & rows & Hfold & Hall).
  rewrite Hfold. intro Hfirst. injection Hfirst as <- <-.
  rewrite (qualified_experts_reads_users json_loads profiles domain db) by reflexivity.
  rewrite Hexperts. cbn [bindO].
  now rewrite (assign_fold_existing cid clock'
                 (set_evaluations db (evaluations db ++ added)) experts rows Hall).
Qed.

(** The AI text assigned to the news expert, twice. *)
Lemma assign_news_twice :
  Experts.assign_content_to_experts Examples.no_json [Examples.news_expert]
    Examples.noon 1 "news_articles"
    (fst (Experts.assign_content_to_experts Examples.no_json [Examples.news_expert]
            Examples.noon 1 "news_articles" Scenarios.fresh_db)) =
  (fst (Experts.assign_content_to_experts Examples.no_json [Examples.news_expert]
          Examples.noon 1 "news_articles" Scenarios.fresh_db),
   Returned [1]).
Proof.
  apply (assign_content_to_experts_twice Examples.no_json [Examples.news_expert]
           Examples.noon Examples.noon 1 "news_articles" Scenarios.fresh_db).
  reflexivity.
Defined.

(** ** evaluator.py: one row for each (evaluator, content) pair *)

Lemma same_pair_eq (u c : Z) (e : Evaluation) :
  Evaluator.same_pair u c e = true <-> evaluator_id e = u /\ evaluation_content_id e = c.
Proof.
  unfold Evaluator.same_pair. rewrite andb_true_iff, !Z.eqb_eq. tauto.
Qed.

Lemma pairs_unique_append (evals : list Evaluation) (new : Evaluation) :
  Store.pairs_unique evals ->
  find (Evaluator.same_pair (evaluator_id new) (evaluation_content_id new)) evals = None ->
  Store.pairs_unique (evals ++ [new]).
Proof.
  intros Hunique Hfind u c. rewrite filter_app, length_app. cbn [filter].
  destruct (Evaluator.same_pair u c new) eqn:Hnew.
  - apply same_pair_eq in Hnew. destruct Hnew as [<- <-].
    now rewrite (find_none_filter _ _ Hfind).
  - specialize (Hunique u c). cbn [List.length]. lia.
Qed.

Lemma filter_update_first_length {T : Type} (p q : T -> bool) (f : T -> T) (l : list T) :
  (forall x, p (f x) = p x) ->
  List.length (filter p (update_first q f l)) = List.length (filter p l).
Proof.
  intro Hp. induction l as [|x l IH]; simpl; [reflexivity|].
  destruct (q x); simpl.
  - rewrite Hp. now destruct (p x).
  - destruct (p x); simpl; now rewrite IH.
Qed.

Lemma assign_fold_unique (cid : Z) (clock : nat -> Z) (experts : list Z) :
  forall (s : DB) (ids : list Z),
    Store.pairs_unique (evaluations s) ->
    Store.pairs_unique
      (evaluations (fst (fold_left (Experts.assign cid clock) experts (s, ids)))).
Proof.
  induction experts as [|x rest IH]; intros s ids Hunique; cbn [fold_left];
    [exact Hunique|].
  destruct (find (Evaluator.same_pair x cid) (evaluations s)) as [existing|] eqn:Hfind.
  - rewrite (assign_existing cid clock s ids x existing Hfind). now apply IH.
  - rewrite (assign_new cid clock s ids x Hfind). apply IH.
    cbn [evaluations set_evaluations]. now apply pairs_unique_append.
Qed.

(** A store in which no (evaluator, content) pair has two evaluation rows
    stays so under [start_evaluation], [submit_evaluation] and
    [assign_content_to_experts], whatever their arguments and outcome. *)
Theorem evaluation_pairs_stay_unique (db : DB) :
  Store.pairs_unique (evaluations db) ->
  (forall now uid cid,
     Store.pairs_unique (evaluations (fst (Evaluator.start_evaluation now uid cid db)))) /\
  (forall now eid scores rating comment answers,
     Store.pairs_unique
       (evaluations (fst (Evaluator.submit_evaluation now eid scores rating comment
                            answers db)))) /\
  (forall json_loads profiles clock cid domain,
     Store.pairs_unique
       (evaluations (fst (Experts.assign_content_to_experts json_loads profiles clock
                            cid domain db)))).
Proof.
  intro Hunique. split; [|split].
  - intros now uid cid. unfold Evaluator.start_evaluation, get_db_session.
    destruct (get user_id (users db) uid); [|exact Hunique].
    destruct (get content_id (contents db) cid); [|exact Hunique].
    destruct (find (Evaluator.same_pair uid cid) (evaluations db)) eqn:Hfind;
      [exact Hunique|].
    cbn [fst evaluations set_evaluations]. now apply pairs_unique_append.
  - intros now eid scores rating comment answers.
    destruct (get evaluation_id (evaluations db) eid) as [e|] eqn:Hget.
    + destruct (completion_time e) as [t|] eqn:Hdone.
      * unfold Evaluator.submit_evaluation, get_db_session. rewrite Hget, Hdone.
        exact Hunique.
      * destruct answers as [[|a rest]|].
        2:{ destruct (submit_with_answers_store now eid scores rating comment (a :: rest)
                        db e Hget Hdone ltac:(discriminate)) as (rows & Hstore & _).
            rewrite Hstore. exact Hunique. }
        -- destruct (submit_without_answers_store now eid scores rating comment (Some [])
                       db e Hget Hdone (or_intror eq_refl)) as (rows & Hstore & _).
           rewrite Hstore. cbn [fst evaluations]. intros u c.
           rewrite filter_update_first_length; [apply Hunique | reflexivity].
        -- destruct (submit_without_answers_store now eid scores rating comment None
                       db e Hget Hdone (or_introl eq_refl)) as (rows & Hstore & _).
           rewrite Hstore. cbn [fst evaluations]. intros u c.
           rewrite filter_update_first_length; [apply Hunique | reflexivity].
    + unfold Evaluator.submit_evaluation, get_db_session. rewrite Hget. exact Hunique.
  - intros json_loads profiles clock cid domain.
    unfold Experts.assign_content_to_experts, get_db_session.
    destruct (Experts.qualified_experts json_loads profiles domain db) as [experts|err];
      cbn [bindO]; [|exact Hunique].
    pose proof (assign_fold_unique cid clock experts db [] Hunique) as Hfold.
    destruct (fold_left (Experts.assign cid clock) experts (db, [])) as [s ids].
    exact Hfold.
Qed.

(** The evaluator of the store with one pending evaluation starts on the
    human text. *)
Lemma pending_store_pairs_stay_unique :
  Store.pairs_unique
    (evaluations (fst (Evaluator.start_evaluation 100000000 1 2 Scenarios.pending_db))).
Proof.
  apply (proj1 (evaluation_pairs_stay_unique Scenarios.pending_db
                  ltac:(intros u c; cbn; destruct (Evaluator.same_pair u c _);
                        cbn; lia))).
Defined.

(** ** evaluator.py: assignment and qualification *)

Lemma active_user_id (db : DB) (uid : Z) (u : User) :
  Experts.active_user db uid = Some u -> user_id u = uid /\ In u (users db).
Proof.
  unfold Experts.active_user. intro H. apply find_some in H. destruct H as [Hin H].
  apply andb_true_iff in H. destruct H as [H _]. apply Z.eqb_eq in H. now split.
Qed.

Lemma nodup_key_injective {T : Type} (key : T -> Z) (l : list T) (a b : T) :
  NoDup (map key l) -> In a l -> In b l -> key a = key b -> a = b.
Proof.
  induction l as [|x l IH]; simpl; [tauto|].
  intros Hnodup Ha Hb Hkey. inversion Hnodup as [|k ks Hnotin Hrest]; subst.
  destruct Ha as [->|Ha], Hb as [->|Hb].
  - reflexivity.
  - exfalso. apply Hnotin. rewrite Hkey. now apply in_map.
  - exfalso. apply Hnotin. rewrite <- Hkey. now apply in_map.
  - now apply IH.
Qed.

Section Qualification.

Variable json_loads : string -> option (list string).
Variable db : DB.
Variable domain : string.

Lemma qualify_sound (l : list Experts.ExpertProfile) :
  forall acc experts,
    foldO (Experts.qualify json_loads db domain) l acc = Returned experts ->
    forall x, In x experts ->
      In x acc \/
      exists p ds,
        In p l /\ Experts.profile_user_id p = x /\
        Experts.decoded json_loads (Experts.profile_domains p) = Some ds /\
        Experts.has_domain domain ds = true /\
        exists u, Experts.active_user db x = Some u.
Proof.
  induction l as [|p rest IH]; intros acc experts; simpl.
  - intro H. injection H as <-. auto.
  - unfold Experts.qualify at 1.
    destruct (Experts.decoded json_loads (Experts.profile_domains p)) as [ds|] eqn:Hds;
      [|discriminate].
    destruct (Experts.has_domain domain ds) eqn:Hhas.
    + destruct (Experts.active_user db (Experts.profile_user_id p)) as [u|] eqn:Hu;
        cbn [bindO]; intros Hfold x Hx.
      * destruct (IH _ _ Hfold x Hx) as [Hacc|(p' & ds' & Hin & Hrest)].
        -- apply in_app_or in Hacc. destruct Hacc as [Hacc|[<-|[]]]; [now left|].
           right. exists p, ds. destruct (active_user_id _ _ _ Hu) as [Hid _].
           split; [now left|]. split; [now rewrite Hid|]. split; [exact Hds|].
           split; [exact Hhas|]. exists u. now rewrite Hid.
        -- right. exists p', ds'. split; [now right | exact Hrest].
      * destruct (IH _ _ Hfold x Hx) as [Hacc|(p' & ds' & Hin & Hrest)]; [now left|].
        right. exists p', ds'. split; [now right | exact Hrest].
    + cbn [bindO]. intros Hfold x Hx.
      destruct (IH _ _ Hfold x Hx) as [Hacc|(p' & ds' & Hin & Hrest)]; [now left|].
      right. exists p', ds'. split; [now right | exact Hrest].
Qed.

Lemma qualify_null (l : list Experts.ExpertProfile) :
  Exists (fun p => Experts.profile_domains p = Experts.DomainsNull) l ->
  forall acc,
    foldO (Experts.qualify json_loads db domain) l acc =
    Raised (TypeError "argument of type 'NoneType' is not iterable").
Proof.
  induction 1 as [p rest Hp|p rest _ IH]; intro acc; simpl.
  - unfold Experts.qualify. now rewrite Hp.
  - unfold Experts.qualify at 1.
    destruct (Experts.decoded json_loads (Experts.profile_domains p)); [|reflexivity].
    destruct (Experts.has_domain domain l); cbn [bindO]; [|apply IH].
    destruct (Experts.active_user db (Experts.profile_user_id p)); cbn [bindO]; apply IH.
Qed.

End Qualification.

(** When every user has at most one expert profile,
    [assign_content_to_experts] only assigns to qualified experts: each id
    it returns is the id of a stored evaluation row of the content whose
    evaluator passes [get_expert_qualification] for the domain. *)
Theorem assigned_experts_are_qualified
    (json_loads : string -> option (list string)) (profiles : list Experts.ExpertProfile)
    (clock : nat -> Z) (cid : Z) (domain : string) (db db' : DB) (ids : list Z) :
  NoDup (map Experts.profile_user_id profiles) ->
  Experts.assign_content_to_experts json_loads profiles clock cid domain db =
    (db', Returned ids) ->
  Forall (fun id =>
            exists row,
              In row (evaluations db') /\ evaluation_id row = id /\
              evaluation_content_id row = cid /\
              Experts.get_expert_qualification json_loads profiles (evaluator_id row)
                domain db' = true)
         ids.
Proof.
  intros Hnodup. unfold Experts.assign_content_to_experts, get_db_session.
  destruct (Experts.qualified_experts json_loads profiles domain db)
    as [experts|err] eqn:Hexperts; cbn [bindO]; [|discriminate].
  destruct (assign_fold cid clock experts db []) as (added & rows & Hfold & Hall).
  rewrite Hfold. intro Hcall. injection Hcall as <- <-.
  cbn [app evaluations set_evaluations].
  apply Forall_forall. intros id Hid. apply in_map_iff in Hid.
  destruct Hid as (row & <- & Hrow).
  assert (Hexpert : exists x, In x experts /\
            find (Evaluator.same_pair x cid) (evaluations db ++ added) = Some row).
  { clear Hfold Hexperts. induction Hall as [|x r experts rows Hx _ IH];
      [contradiction|].
    destruct Hrow as [->|Hrow].
    - exists x. split; [now left | exact Hx].
    - destruct (IH Hrow) as (x' & Hin & Hx'). exists x'. split; [now right | exact Hx']. }
  destruct Hexpert as (x & Hx & Hfind).
  apply find_some in Hfind. destruct Hfind as [Hin Hpair].
  apply same_pair_eq in Hpair. destruct Hpair as [Hevaluator Hcontent].
  exists row. split; [exact Hin|]. split; [reflexivity|]. split; [exact Hcontent|].
  rewrite Hevaluator.
  destruct (qualify_sound json_loads db domain _ _ _ Hexperts x Hx)
    as [[]|(p & ds & Hp & Hpid & Hds & Hhas & u & Hu)].
  apply filter_In in Hp. destruct Hp as [Hp Hverified].
  unfold Experts.get_expert_qualification.
  replace (Experts.active_user (set_evaluations db (evaluations db ++ added)) x)
    with (Experts.active_user db x) by reflexivity.
  rewrite Hu. destruct (String.eqb (role u) "admin"); [reflexivity|].
  destruct (find (fun p0 => (Experts.profile_user_id p0 =? x) && Experts.verified p0)
                 profiles) as [p'|] eqn:Hfirst.
  - apply find_some in Hfirst. destruct Hfirst as [Hp' Hcond].
    apply andb_true_iff in Hcond. destruct Hcond as [Hid' _]. apply Z.eqb_eq in Hid'.
    assert (p' = p) as ->.
    { apply (nodup_key_injective Experts.profile_user_id profiles); try assumption.
      congruence. }
    rewrite Hds. destruct ds as [|d ds]; [discriminate | exact Hhas].
  - pose proof (find_none _ _ Hfirst p Hp) as Hno. cbn beta in Hno.
    rewrite Hverified, Hpid, Z.eqb_refl in Hno. discriminate.
Qed.

(** The AI text assigned to the news expert. *)
Lemma news_expert_is_qualified :
  Forall (fun id =>
            exists row,
              In row (evaluations
                        (fst (Experts.assign_content_to_experts Examples.no_json
                                [Examples.news_expert] Examples.noon 1 "news_articles"
                                Scenarios.fresh_db))) /\
              evaluation_id row = id /\ evaluation_content_id row = 1 /\
              Experts.get_expert_qualification Examples.no_json [Examples.news_expert]
                (evaluator_id row) "news_articles"
                (fst (Experts.assign_content_to_experts Examples.no_json
                        [Examples.news_expert] Examples.noon 1 "news_articles"
                        Scenarios.fresh_db)) = true)
         [1].
Proof.
  apply (assigned_experts_are_qualified Examples.no_json [Examples.news_expert]
           Examples.noon 1 "news_articles" Scenarios.fresh_db).
  - repeat constructor. simpl. tauto.
  - reflexivity.
Defined.

(** A verified profile whose [domains] column is NULL stops every
    assignment: [assign_content_to_experts] raises [TypeError] for every
    content and domain and leaves the store untouched, although
    [get_expert_qualification] quietly answers false for such a profile. *)
Theorem null_domains_stop_assignment
    (json_loads : string -> option (list string)) (profiles : list Experts.ExpertProfile)
    (p : Experts.ExpertProfile) (clock : nat -> Z) (cid : Z) (domain : string) (db : DB) :
  In p profiles -> Experts.verified p = true ->
  Experts.profile_domains p = Experts.DomainsNull ->
  Experts.assign_content_to_experts json_loads profiles clock cid domain db =
    (db, Raised (TypeError "argument of type 'NoneType' is not iterable")) /\
  (forall u,
     Experts.active_user db (Experts.profile_user_id p) = Some u ->
     role u <> "admin"%string ->
     find (fun q => (Experts.profile_user_id q =? Experts.profile_user_id p)
                    && Experts.verified q) profiles = Some p ->
     Experts.get_expert_qualification json_loads profiles (Experts.profile_user_id p)
       domain db = false).
Proof.
  intros Hin Hverified Hnull. split.
  - unfold Experts.assign_content_to_experts, get_db_session, Experts.qualified_experts.
    rewrite qualify_null; [reflexivity|].
    apply Exists_exists. exists p. split; [|exact Hnull].
    apply filter_In. now split.
  - intros u Hu Hrole Hfirst. unfold Experts.get_expert_qualification.
    rewrite Hu. apply String.eqb_neq in Hrole. rewrite Hrole, Hfirst, Hnull.
    reflexivity.
Qed.

(** A second profile, without domains. *)
Lemma blank_expert_stops_assignment :
  Experts.assign_content_to_experts Examples.no_json
    [Examples.news_expert; Examples.blank_expert] Examples.noon 1 "news_articles"
    Scenarios.fresh_db =
  (Scenarios.fresh_db, Raised (TypeError "argument of type 'NoneType' is not iterable")).
Proof.
  apply (null_domains_stop_assignment Examples.no_json
           [Examples.news_expert; Examples.blank_expert] Examples.blank_expert
           Examples.noon 1 "news_articles" Scenarios.fresh_db).
  - right. now left.
  - reflexivity.
  - reflexivity.
Defined.

(** ** utils.py: create_expert_profile *)

Lemma find_update_first_refined {T : Type} (p q : T -> bool) (f : T -> T) (l : list T)
    (x : T) :
  (forall y, p y = true -> q y = true) ->
  find q l = Some x -> p (f x) = true ->
  find p (update_first q f l) = Some (f x).
Proof.
  intros Himp. induction l as [|y l IH]; simpl; [discriminate|].
  destruct (q y) eqn:Hq; intros Hfind Hpf.
  - injection Hfind as ->. simpl. now rewrite Hpf.
  - simpl. destruct (p y) eqn:Hp; [|now apply IH].
    apply Himp in Hp. congruence.
Qed.

Lemma map_update_first_key {T : Type} (key : T -> Z) (q : T -> bool) (f : T -> T)
    (l : list T) :
  (forall x, key (f x) = key x) -> map key (update_first q f l) = map key l.
Proof.
  intro Hkey. induction l as [|x l IH]; simpl; [reflexivity|].
  destruct (q x); simpl; [now rewrite Hkey | now rewrite IH].
Qed.

(** A verified profile created or updated by [create_expert_profile] for an
    active user who is not an admin qualifies that user for exactly the
    domains given: the call returns a profile id, and afterwards
    [get_expert_qualification] answers true for a domain if and only if the
    domain is in the list. *)
Theorem create_expert_profile_qualifies
    (json_loads : string -> option (list string)) (uid : Z) (domains : list string)
    (years : Z) (quals about : option string) (db : DB)
    (profiles : list Experts.ExpertProfile) (u : User) :
  forallb (fun d => Experts.has_domain d Settings.CONTENT_DOMAINS) domains = true ->
  Experts.active_user db uid = Some u ->
  role u <> "admin"%string ->
  let created := Experts.create_expert_profile uid domains years quals about true db
                   profiles in
  snd created <> None /\
  forall domain,
    Experts.get_expert_qualification json_loads (fst created) uid domain db =
    Experts.has_domain domain domains.
Proof.
  intros Hvalid Hu Hrole created. subst created.
  unfold Experts.create_expert_profile. rewrite Hvalid. cbn [negb].
  destruct (active_user_id db uid u Hu) as [Hid Hin].
  destruct (get user_id (users db) uid) as [u0|] eqn:Hget.
  2:{ exfalso. unfold get in Hget. pose proof (find_none _ _ Hget u Hin) as Hno.
      cbn beta in Hno. rewrite Hid, Z.eqb_refl in Hno. discriminate. }
  assert (Hqualified :
            forall table row,
              find (fun p => (Experts.profile_user_id p =? uid) && Experts.verified p)
                   table = Some row ->
              Experts.profile_domains row = Experts.DomainsList domains ->
              forall domain,
                Experts.get_expert_qualification json_loads table uid domain db =
                Experts.has_domain domain domains).
  { intros table row Hrow Hdomains domain. unfold Experts.get_expert_qualification.
    rewrite Hu. apply String.eqb_neq in Hrole. rewrite Hrole, Hrow, Hdomains.
    cbn [Experts.decoded]. now destruct domains. }
  destruct (find (fun p => Experts.profile_user_id p =? uid) profiles)
    as [profile|] eqn:Hprofile; cbn [fst snd].
  - split; [discriminate|].
    apply (Hqualified _ (Experts.update_profile domains years quals about true profile));
      [|reflexivity].
    apply find_update_first_refined.
    + intros y Hy. now apply andb_true_iff in Hy.
    + exact Hprofile.
    + cbn. apply find_some in Hprofile. now rewrite (proj2 Hprofile).
  - split; [discriminate|].
    apply (Hqualified _ (Experts.mkProfile (next_id Experts.profile_id profiles) uid
                           (Experts.DomainsList domains) years quals about true));
      [|reflexivity].
    rewrite find_app_none.
    + cbn. now rewrite Z.eqb_refl.
    + apply find_none_all. intros y Hy.
      pose proof (find_none _ _ Hprofile y Hy) as Hno. cbn beta in Hno. now rewrite Hno.
Qed.

(** The evaluator of the fresh store becomes a verified expert in two
    domains, news articles among them. *)
Lemma evaluator_becomes_expert :
  Experts.get_expert_qualification Examples.no_json
    (fst (Experts.create_expert_profile 1 ["news_articles"; "marketing_copy"]%string 3
            None None true Scenarios.fresh_db []))
    1 "news_articles" Scenarios.fresh_db =
  Experts.has_domain "news_articles" ["news_articles"; "marketing_copy"]%string.
Proof.
  apply (proj2 (create_expert_profile_qualifies Examples.no_json 1
                  ["news_articles"; "marketing_copy"]%string 3 None None
                  Scenarios.fresh_db [] Scenarios.evaluator_1 eq_refl eq_refl
                  ltac:(discriminate)) "news_articles"%string).
Defined.

(** [create_expert_profile] keeps one profile for each user: when no two
    profiles share a user, none do after the call, whether it creates a
    profile, updates one or refuses; and a refusal (a domain that is not a
    content domain, or an unknown user) leaves the table as it was. *)
Theorem create_expert_profile_keeps_one_profile
    (uid : Z) (domains : list string) (years : Z) (quals about : option string)
    (is_verified : bool) (db : DB) (profiles : list Experts.ExpertProfile) :
  NoDup (map Experts.profile_user_id profiles) ->
  let created := Experts.create_expert_profile uid domains years quals about is_verified
                   db profiles in
  NoDup (map Experts.profile_user_id (fst created)) /\
  (snd created = None -> fst created = profiles).
Proof.
  intros Hnodup created. subst created. unfold Experts.create_expert_profile.
  destruct (negb (forallb _ domains)); [now split|].
  destruct (get user_id (users db) uid); [|now split].
  destruct (find (fun p => Experts.profile_user_id p =? uid) profiles)
    as [profile|] eqn:Hprofile; cbn [fst snd].
  - split; [|discriminate]. rewrite map_update_first_key; [exact Hnodup | reflexivity].
  - split; [|discriminate]. rewrite map_app. cbn [map Experts.profile_user_id].
    apply NoDup_app; [exact Hnodup | repeat constructor; simpl; tauto |].
    intros k Hk [<-|[]]. apply in_map_iff in Hk. destruct Hk as (y & Hkey & Hy).
    pose proof (find_none _ _ Hprofile y Hy) as Hno. cbn beta in Hno.
    rewrite Hkey, Z.eqb_refl in Hno. discriminate.
Qed.

(** An unknown domain in the list. *)
Lemma unknown_domain_is_refused :
  fst (Experts.create_expert_profile 1 ["news_articles"; "poetry"]%string 3 None None true
         Scenarios.fresh_db [Examples.news_expert]) = [Examples.news_expert].
Proof.
  apply (proj2 (create_expert_profile_keeps_one_profile 1
                  ["news_articles"; "poetry"]%string 3 None None true Scenarios.fresh_db
                  [Examples.news_expert] ltac:(repeat constructor; simpl; tauto))).
  reflexivity.
Defined.

(** ** database.py: init_db *)

Lemma add_default_criteria_users (db : DB) :
  users (Setup._add_default_criteria db) = users db.
Proof. reflexivity. Qed.

Lemma add_default_criteria_length (db : DB) :
  List.length (criteria (Setup._add_default_criteria db)) =
  (List.length (criteria db) + 6)%nat.
Proof.
  unfold Setup._add_default_criteria, Setup.default_criteria, Setup.add_criterion.
  cbn [fold_left Setup.set_criteria criteria]. rewrite !length_app. cbn [List.length]. lia.
Qed.

Lemma existsb_eqb_in (x : string) (l : list string) :
  existsb (String.eqb x) l = true <-> In x l.
Proof.
  rewrite existsb_exists. split.
  - intros (y & Hy & Heq). apply String.eqb_eq in Heq. now subst.
  - intro Hin. exists x. split; [exact Hin | apply String.eqb_refl].
Qed.

Section InitDb.

Variable emails : list string.
Variable db : DB.

Lemma with_criteria_users :
  users (if (List.length (criteria db) =? 0)%nat
         then Setup._add_default_criteria db else db) = users db.
Proof. now destruct (List.length (criteria db) =? 0)%nat. Qed.

Lemma with_criteria_filled :
  (List.length (criteria (if (List.length (criteria db) =? 0)%nat
                          then Setup._add_default_criteria db else db)) =? 0)%nat = false.
Proof.
  destruct (List.length (criteria db) =? 0)%nat eqn:Hempty; [|exact Hempty].
  apply Nat.eqb_neq. rewrite add_default_criteria_length. lia.
Qed.

(** The three ways [init_db] ends. *)
Lemma init_db_cases :
  Setup.init_db emails db =
  if (List.length (filter (fun u => String.eqb (username u) "admin") (users db))
      =? 0)%nat
  then if existsb (String.eqb Setup.admin_email) emails
       then ((db, emails), false)
       else ((Setup._create_admin_user
                (if (List.length (criteria db) =? 0)%nat
                 then Setup._add_default_criteria db else db),
              (emails ++ [Setup.admin_email])%list), true)
  else ((if (List.length (criteria db) =? 0)%nat
         then Setup._add_default_criteria db else db, emails), true).
Proof. unfold Setup.init_db. now rewrite with_criteria_users. Qed.

Lemma init_db_again_with_admin (addresses : list string) (s : DB) :
  (List.length (criteria s) =? 0)%nat = false ->
  (List.length (filter (fun u => String.eqb (username u) "admin") (users s)) =? 0)%nat
    = false ->
  Setup.init_db addresses s = ((s, addresses), true).
Proof.
  intros Hcriteria Hadmin. unfold Setup.init_db. rewrite Hcriteria, Hadmin. reflexivity.
Qed.

End InitDb.

(** Calling [init_db] again changes nothing: on the store and the e-mail
    addresses the first call left, the second call returns what the first
    returned and leaves them as they are.  [init_db] returns [False] exactly
    when no user is called admin and the admin's e-mail address is taken, and
    then nothing is written, not even the default criteria.  Criteria that
    exist are kept (the defaults are added only to an empty table), the
    users are left alone when one of them is called admin, and the other
    tables are never touched. *)
Theorem init_db_twice (emails : list string) (db : DB) :
  let r := Setup.init_db emails db in
  let db' := fst (fst r) in
  let emails' := snd (fst r) in
  Setup.init_db emails' db' = r /\
  (snd r = false <->
   filter (fun u => String.eqb (username u) "admin") (users db) = [] /\
   In Setup.admin_email emails) /\
  (snd r = false -> db' = db /\ emails' = emails) /\
  (criteria db <> [] -> criteria db' = criteria db) /\
  (forall u, In u (users db) -> username u = "admin"%string ->
     users db' = users db /\ emails' = emails /\ snd r = true) /\
  contents db' = contents db /\ evaluations db' = evaluations db /\
  evaluation_scores db' = evaluation_scores db /\ questions db' = questions db.
Proof.
  intros r db' emails'. subst db' emails' r. rewrite (init_db_cases emails db).
  set (s1 := if (List.length (criteria db) =? 0)%nat
             then Setup._add_default_criteria db else db).
  assert (Husers : users s1 = users db) by apply with_criteria_users.
  assert (Hfilled : (List.length (criteria s1) =? 0)%nat = false)
    by apply with_criteria_filled.
  assert (Hkept : criteria db <> [] -> criteria s1 = criteria db).
  { intro Hne. subst s1. destruct (criteria db) eqn:Hc; [congruence|].
    cbn [List.length Nat.eqb]. exact Hc. }
  assert (Hothers : contents s1 = contents db /\ evaluations s1 = evaluations db /\
                    evaluation_scores s1 = evaluation_scores db /\
                    questions s1 = questions db).
  { subst s1. destruct (List.length (criteria db) =? 0)%nat; repeat split. }
  destruct (List.length (filter (fun u => String.eqb (username u) "admin") (users db))
            =? 0)%nat eqn:Hnone.
  - assert (Hnil : filter (fun u => String.eqb (username u) "admin") (users db) = []).
    { apply Nat.eqb_eq in Hnone. now destruct (filter _ (users db)). }
    destruct (existsb (String.eqb Setup.admin_email) emails) eqn:Htaken.
    + cbn [fst snd]. split.
      { rewrite (init_db_cases emails db). fold s1. now rewrite Hnone, Htaken. }
      split; [split; [intros _; split; [exact Hnil | now apply existsb_eqb_in] | auto]|].
      split; [auto|]. split; [auto|]. split; [|repeat split].
      intros u Hin Hname. exfalso.
      assert (Hu : In u (filter (fun u0 => String.eqb (username u0) "admin") (users db))).
      { apply filter_In. split; [exact Hin | now apply String.eqb_eq]. }
      now rewrite Hnil in Hu.
    + cbn [fst snd]. split.
      { apply init_db_again_with_admin; [exact Hfilled|].
        cbn [Setup._create_admin_user Setup.set_users users].
        rewrite filter_app, length_app. cbn. apply Nat.eqb_neq. lia. }
      split.
      { split; [discriminate|]. intros [_ Hin]. apply existsb_eqb_in in Hin. congruence. }
      split; [discriminate|]. split; [exact Hkept|]. split; [|exact Hothers].
      intros u Hin Hname. exfalso.
      assert (Hu : In u (filter (fun u0 => String.eqb (username u0) "admin") (users db))).
      { apply filter_In. split; [exact Hin | now apply String.eqb_eq]. }
      now rewrite Hnil in Hu.
  - cbn [fst snd]. split.
    { apply init_db_again_with_admin; [exact Hfilled | now rewrite Husers]. }
    split.
    { split; [discriminate|]. intros [Hnil _]. rewrite Hnil in Hnone. discriminate. }
    split; [discriminate|]. split; [exact Hkept|]. split; [|exact Hothers].
    intros u Hin Hname. auto.
Qed.

(** ** database.py and evaluator.py: the default criteria *)

(** On a store without criteria, a call of [init_db] that returns [True]
    leaves the six default criteria, each on the scale 1 to 5, and
    [get_evaluation_criteria] then returns all six of them for every domain,
    since none of them is tied to a domain.  A call that returns [False]
    leaves no criterion at all. *)
Theorem default_criteria_serve_every_domain
    (emails : list string) (db : DB) (domain : option string) :
  criteria db = [] ->
  let r := Setup.init_db emails db in
  (snd r = true ->
   Queries.get_evaluation_criteria domain (fst (fst r)) =
   [mkCriterion 1 "accuracy" 1 5 None; mkCriterion 2 "coherence" 1 5 None;
    mkCriterion 3 "relevance" 1 5 None; mkCriterion 4 "creativity" 1 5 None;
    mkCriterion 5 "completeness" 1 5 None; mkCriterion 6 "language_quality" 1 5 None]) /\
  (snd r = false -> Queries.get_evaluation_criteria domain (fst (fst r)) = []).
Proof.
  intros Hempty r. subst r. rewrite (init_db_cases emails db).
  rewrite Hempty. cbn [List.length Nat.eqb].
  assert (Hsix : forall s, criteria s = criteria (Setup._add_default_criteria db) ->
            Queries.get_evaluation_criteria domain s =
            [mkCriterion 1 "accuracy" 1 5 None; mkCriterion 2 "coherence" 1 5 None;
             mkCriterion 3 "relevance" 1 5 None; mkCriterion 4 "creativity" 1 5 None;
             mkCriterion 5 "completeness" 1 5 None;
             mkCriterion 6 "language_quality" 1 5 None]).
  { intros s Hs. unfold Queries.get_evaluation_criteria. rewrite Hs.
    unfold Setup._add_default_criteria, Setup.default_criteria, Setup.add_criterion.
    cbn [fold_left Setup.set_criteria criteria]. rewrite Hempty.
    destruct (AnalyticsEngine.truthy_str domain); reflexivity. }
  destruct (List.length (filter (fun u => String.eqb (username u) "admin") (users db))
            =? 0)%nat.
  - destruct (existsb (String.eqb Setup.admin_email) emails); cbn [fst snd].
    + split; [discriminate|]. intros _. unfold Queries.get_evaluation_criteria.
      rewrite Hempty. now destruct (AnalyticsEngine.truthy_str domain).
    + split; [|discriminate]. intros _. now apply Hsix.
  - cbn [fst snd]. split; [|discriminate]. intros _. now apply Hsix.
Qed.

(** The empty store, no e-mail address in use. *)
Lemma default_criteria_on_empty_store :
  Queries.get_evaluation_criteria (Some "news_articles"%string)
    (fst (fst (Setup.init_db [] (mkDB [] [] [] [] [] [] [] [])))) =
  [mkCriterion 1 "accuracy" 1 5 None; mkCriterion 2 "coherence" 1 5 None;
   mkCriterion 3 "relevance" 1 5 None; mkCriterion 4 "creativity" 1 5 None;
   mkCriterion 5 "completeness" 1 5 None; mkCriterion 6 "language_quality" 1 5 None].
Proof.
  apply (proj1 (default_criteria_serve_every_domain [] (mkDB [] [] [] [] [] [] [] [])
                  (Some "news_articles"%string) eq_refl) eq_refl).
Defined.

(** ** database.py and evaluator.py: the admin *)

(** When no user is called admin and the admin's e-mail address is free,
    [init_db] creates the admin, and that user passes
    [get_expert_qualification] for every domain without having an expert
    profile; [assign_content_to_experts], which goes by the profiles,
    assigns nothing when there is no profile.  When the address is taken,
    [init_db] returns [False] and the store is left without an admin, as it
    was. *)
Theorem init_db_admin_is_qualified (emails : list string) (db : DB) :
  filter (fun u => String.eqb (username u) "admin") (users db) = [] ->
  let r := Setup.init_db emails db in
  let db' := fst (fst r) in
  (~ In Setup.admin_email emails ->
   snd r = true /\
   In Setup.admin_email (snd (fst r)) /\
   exists admin,
     In admin (users db') /\ username admin = "admin"%string /\
     (forall json_loads profiles domain,
        Experts.get_expert_qualification json_loads profiles (user_id admin) domain db'
        = true) /\
     (forall json_loads clock cid domain,
        Experts.assign_content_to_experts json_loads [] clock cid domain db' =
        (db', Returned []))) /\
  (In Setup.admin_email emails -> r = ((db, emails), false)).
Proof.
  intros Hnone r db'. subst db' r. rewrite (init_db_cases emails db).
  rewrite Hnone. cbn [List.length Nat.eqb].
  set (s1 := if (List.length (criteria db) =? 0)%nat
             then Setup._add_default_criteria db else db).
  assert (Husers : users s1 = users db) by apply with_criteria_users.
  split.
  - intro Hfree.
    replace (existsb (String.eqb Setup.admin_email) emails) with false
      by (symmetry; destruct (existsb _ emails) eqn:E; [|reflexivity];
          apply existsb_eqb_in in E; contradiction).
    cbn [fst snd]. split; [reflexivity|].
    split; [apply in_or_app; right; now left|].
    set (admin := mkUser (next_id user_id (users s1)) "admin" "admin" true).
    exists admin. split; [|split; [reflexivity|split]].
    + cbn [Setup._create_admin_user Setup.set_users users]. apply in_or_app. right.
      now left.
    + intros json_loads profiles domain. unfold Experts.get_expert_qualification.
      replace (Experts.active_user (Setup._create_admin_user s1) (user_id admin))
        with (Some admin); [reflexivity|].
      symmetry. unfold Experts.active_user.
      cbn [Setup._create_admin_user Setup.set_users users].
      rewrite find_app_none.
      * cbn. now rewrite Z.eqb_refl.
      * apply find_none_all. intros x Hx. apply andb_false_iff. left.
        apply Z.eqb_neq. pose proof (next_id_above user_id (users s1) x Hx).
        cbn [admin user_id]. lia.
    + intros json_loads clock cid domain. reflexivity.
  - intro Htaken. apply existsb_eqb_in in Htaken. now rewrite Htaken.
Qed.

(** The empty store gets its admin. *)
Lemma admin_of_empty_store :
  snd (Setup.init_db [] (mkDB [] [] [] [] [] [] [] [])) = true /\
  exists admin,
    In admin (users (fst (fst (Setup.init_db [] (mkDB [] [] [] [] [] [] [] []))))) /\
    username admin = "admin"%string.
Proof.
  destruct (proj1 (init_db_admin_is_qualified [] (mkDB [] [] [] [] [] [] [] []) eq_refl)
              ltac:(cbn; tauto))
    as (Hret & _ & admin & Hin & Hname & _).
  split; [exact Hret|]. exists admin. now split.
Defined.

(** ** quality_control.py: create_quality_check_question *)

Lemma answer_is_correct_after_question (db : DB) (new : QualityCheckQuestion)
    (item : Z * string) :
  question_id new = next_id question_id (questions db) ->
  fst item <> question_id new ->
  Spec.answer_is_correct (Setup.set_questions db (questions db ++ [new])) item =
  Spec.answer_is_correct db item.
Proof.
  intros Hfresh Hother. unfold Spec.answer_is_correct.
  cbn [questions Setup.set_questions].
  now rewrite (proj2 (get_app_fresh question_id (questions db) new Hfresh) (fst item) Hother).
Qed.

Lemma validate_across_stores (db db' : DB) (answers : list (Z * string)) :
  Spec.correct_answers db' answers = Spec.correct_answers db answers ->
  QualityController.validate_quality_checks db' answers =
  QualityController.validate_quality_checks db answers.
Proof.
  intro Hcount. unfold QualityController.validate_quality_checks.
  now rewrite !count_loop, Hcount.
Qed.

(** A question created by [create_quality_check_question] is answered
    correctly by its own answer in any letter case: that single answer passes
    [validate_quality_checks] on the new store.  Answers that do not mention
    the new question are judged as before. *)
Theorem created_question_accepts_its_answer
    (text answer given : string) (domain : option string) (db : DB) :
  lower given = lower answer ->
  let created := Setup.create_quality_check_question text answer domain db in
  exists qid,
    snd created = Some qid /\
    QualityController.validate_quality_checks (fst created) [(qid, given)] = true /\
    forall answers,
      ~ In qid (map fst answers) ->
      QualityController.validate_quality_checks (fst created) answers =
      QualityController.validate_quality_checks db answers.
Proof.
  intros Hcase created. subst created. unfold Setup.create_quality_check_question.
  cbn [fst snd question_id].
  set (new := mkQuestion (next_id question_id (questions db)) text answer domain true).
  exists (question_id new). split; [reflexivity|]. split.
  - unfold QualityController.validate_quality_checks. cbn [fold_left List.length].
    unfold QualityController.count_step. cbn [questions Setup.set_questions].
    rewrite (proj1 (get_app_fresh question_id (questions db) new eq_refl)).
    cbn [correct_answer new]. rewrite Hcase, String.eqb_refl. reflexivity.
  - intros answers Hnotin. apply validate_across_stores.
    unfold Spec.correct_answers. f_equal.
    induction answers as [|item rest IH]; [reflexivity|].
    cbn [filter]. rewrite answer_is_correct_after_question; [|reflexivity|].
    + rewrite IH; [reflexivity|]. intro Hin. apply Hnotin. now right.
    + intro Heq. apply Hnotin. left. exact Heq.
Qed.

(** An eleventh question for the fresh store, answered in upper case. *)
Lemma eleventh_question_accepts_its_answer :
  exists qid,
    snd (Setup.create_quality_check_question "Is it a poem?" "no" None Scenarios.fresh_db)
      = Some qid /\
    QualityController.validate_quality_checks
      (fst (Setup.create_quality_check_question "Is it a poem?" "no" None
              Scenarios.fresh_db))
      [(qid, "NO"%string)] = true.
Proof.
  destruct (created_question_accepts_its_answer "Is it a poem?" "no" "NO" None
              Scenarios.fresh_db eq_refl) as (qid & Hid & Hvalid & _).
  exists qid. now split.
Defined.

(** ** quality_control.py: analyze_evaluator_patterns *)

Lemma filter_filter_implied {T : Type} (p q : T -> bool) (l : list T) :
  (forall x, p x = true -> q x = true) -> filter p (filter q l) = filter p l.
Proof.
  intro Himp. induction l as [|x l IH]; simpl; [reflexivity|].
  destruct (q x) eqn:Hq; simpl.
  - destruct (p x); now rewrite IH.
  - destruct (p x) eqn:Hp; [|exact IH]. apply Himp in Hp. congruence.
Qed.

Lemma mem_in (k : Z) (l : list Z) : AnalyticsEngine.mem k l = true <-> In k l.
Proof.
  unfold AnalyticsEngine.mem. rewrite existsb_exists. split.
  - intros (x & Hx & Heq). apply Z.eqb_eq in Heq. now subst.
  - intro Hin. exists k. split; [exact Hin | apply Z.eqb_refl].
Qed.

Lemma straight_flag (db : DB) (e : Evaluation) :
  existsb (String.eqb "Straight-line scoring") (QualityController.flags_of db e) =
  QualityController.straight_line (QualityController.scores_of db (evaluation_id e)).
Proof.
  unfold QualityController.flags_of. rewrite !existsb_app.
  assert (Hfast : existsb (String.eqb "Straight-line scoring")
                    match duration_seconds e with
                    | Some d =>
                      if truthy_int (Some d) && (d <? Config.MIN_EVALUATION_TIME_SECONDS)
                      then [("Fast completion: " ++ str_of_int d ++ " seconds")%string]
                      else []
                    | None => []
                    end = false).
  { destruct (duration_seconds e) as [d|]; [|reflexivity].
    destruct (truthy_int (Some d) && (d <? Config.MIN_EVALUATION_TIME_SECONDS));
      reflexivity. }
  rewrite Hfast.
  assert (Hfailed : existsb (String.eqb "Straight-line scoring")
                      match passed_quality_checks e with
                      | Some false => ["Failed quality checks"%string]
                      | _ => []
                      end = false).
  { destruct (passed_quality_checks e) as [[|]|]; reflexivity. }
  rewrite Hfailed. cbn [orb].
  destruct (QualityController.straight_line _); reflexivity.
Qed.

Lemma straight_line_loop (db : DB) (scores : list EvaluationScore) (evals : list Evaluation) :
  (forall e, In e evals ->
     filter (fun s => score_evaluation_id s =? evaluation_id e) scores =
     QualityController.scores_of db (evaluation_id e)) ->
  forall count,
    fold_left (Patterns.straight_line_step scores) (map evaluation_id evals) count =
    count + Z.of_nat (List.length
              (filter (fun e => existsb (String.eqb "Straight-line scoring")
                                        (QualityController.flags_of db e)) evals)).
Proof.
  induction evals as [|e rest IH]; intros Hscores count; cbn [map fold_left filter].
  - cbn. lia.
  - rewrite IH by (intros e' He'; apply Hscores; now right).
    unfold Patterns.straight_line_step. rewrite (Hscores e (or_introl eq_refl)).
    rewrite straight_flag.
    destruct (QualityController.straight_line _); cbn [List.length]; lia.
Qed.

(** The straight-line count of [analyze_evaluator_patterns] agrees with
    [flag_low_quality_evaluations]: it is the number of the user's completed
    evaluations that carry the flag "Straight-line scoring", and the total is
    the number of the user's completed evaluations. *)
Theorem straight_line_count_matches_flags (uid : Z) (db : DB) (a : Patterns.analysis) :
  Patterns.analyze_evaluator_patterns uid db = Patterns.Analysis_completed a ->
  let mine := filter (Patterns.completed_by uid) (evaluations db) in
  Patterns.total_evaluations a = Z.of_nat (List.length mine) /\
  Patterns.straight_line_evaluations a =
  Z.of_nat (List.length
              (filter (fun e => existsb (String.eqb "Straight-line scoring")
                                        (QualityController.flags_of db e)) mine)).
Proof.
  intros Hrun mine. unfold Patterns.analyze_evaluator_patterns in Hrun. fold mine in Hrun.
  destruct mine as [|e0 rest] eqn:Hmine; [discriminate|]. rewrite <- Hmine in *.
  destruct (filter _ (evaluation_scores db)) as [|s0 more] eqn:Hscores; [discriminate|].
  rewrite <- Hscores in Hrun. injection Hrun as <-.
  cbn [Patterns.total_evaluations Patterns.straight_line_evaluations].
  split; [reflexivity|].
  rewrite (straight_line_loop db); [lia|].
  intros e He. unfold QualityController.scores_of. apply filter_filter_implied.
  intros s Hs. apply Z.eqb_eq in Hs. apply mem_in. rewrite Hs. now apply in_map.
Qed.

(** The two completed evaluations of the rated store, one score each. *)
Lemma rated_store_patterns :
  exists a,
    Patterns.analyze_evaluator_patterns 1 Scenarios.rated_db =
      Patterns.Analysis_completed a /\
    Patterns.total_evaluations a = 2 /\
    Patterns.straight_line_evaluations a = 0.
Proof.
  eexists. split; [vm_compute; reflexivity|].
  exact (straight_line_count_matches_flags 1 Scenarios.rated_db _ eq_refl).
Defined.

Lemma scores_by_criterion_fold (scores : list EvaluationScore) (c : Z) :
  forall d,
    dict_get Z.eqb
      (fold_left (fun groups s =>
                    dict_append Z.eqb groups (score_criterion_id s) (score s))
                 scores d) c =
    match dict_get Z.eqb d c with
    | Some vs =>
      Some (vs ++ map score (filter (fun s => score_criterion_id s =? c) scores))%list
    | None =>
      match map score (filter (fun s => score_criterion_id s =? c) scores) with
      | [] => None
      | l => Some l
      end
    end.
Proof.
  induction scores as [|s rest IH]; intro d; cbn [fold_left filter map].
  - destruct (dict_get Z.eqb d c); [now rewrite app_nil_r | reflexivity].
  - rewrite IH. unfold dict_append.
    destruct (score_criterion_id s =? c) eqn:Hc.
    + apply Z.eqb_eq in Hc. subst c.
      destruct (dict_get Z.eqb d (score_criterion_id s)) as [vs|];
        rewrite (dict_get_set_same Z.eqb Z_eqb_spec); cbn [map app].
      * now rewrite <- app_assoc.
      * reflexivity.
    + apply Z.eqb_neq in Hc.
      destruct (dict_get Z.eqb d (score_criterion_id s)) as [vs|];
        now rewrite (dict_get_set_other Z.eqb Z_eqb_spec) by exact Hc.
Qed.

Lemma scores_by_criterion_nodup (scores : list EvaluationScore) :
  NoDup (map fst (QualityController.scores_by_criterion scores)).
Proof.
  unfold QualityController.scores_by_criterion.
  apply fold_keeps; [|constructor].
  intros d s Hd. unfold dict_append.
  destruct (dict_get Z.eqb d (score_criterion_id s));
    now apply (dict_set_nodup Z.eqb Z_eqb_spec).
Qed.

Lemma variance_fold_other (groups : list (Z * list Q)) (c : Z) :
  ~ In c (map fst groups) ->
  forall acc,
    dict_get Z.eqb (fold_left Patterns.variance_step groups acc) c = dict_get Z.eqb acc c.
Proof.
  induction groups as [|[k l] rest IH]; intros Hnotin acc; cbn [fold_left];
    [reflexivity|].
  rewrite IH by (intro H; apply Hnotin; now right).
  unfold Patterns.variance_step. destruct (List.length l <? 2)%nat; [reflexivity|].
  apply (dict_get_set_other Z.eqb Z_eqb_spec). intros ->. apply Hnotin. now left.
Qed.

Lemma variance_fold_get (groups : list (Z * list Q)) (c : Z) (l : list Q) :
  NoDup (map fst groups) -> In (c, l) groups -> (2 <= List.length l)%nat ->
  forall acc,
    dict_get Z.eqb (fold_left Patterns.variance_step groups acc) c =
    Some (Patterns.variance l).
Proof.
  induction groups as [|[k l0] rest IH]; intros Hnodup Hin Hlen acc; [contradiction|].
  cbn [map fst] in Hnodup. inversion Hnodup as [|? ? Hnotin Hrest]; subst.
  cbn [fold_left]. destruct Hin as [Heq|Hin].
  - injection Heq as -> ->. rewrite variance_fold_other by exact Hnotin.
    unfold Patterns.variance_step.
    replace (List.length l <? 2)%nat with false by (symmetry; apply Nat.ltb_ge; lia).
    apply (dict_get_set_same Z.eqb Z_eqb_spec).
  - now apply IH.
Qed.

Lemma sumQ_from (l : list Q) : forall a, (fold_left Qplus l a == a + sumQ l)%Q.
Proof.
  unfold sumQ. induction l as [|x l IH]; intro a; cbn [fold_left].
  - ring.
  - rewrite IH, (IH (0 + x)%Q). ring.
Qed.

Lemma sumQ_equal (l : list Q) (s : Q) :
  Forall (fun v => v == s)%Q l ->
  (sumQ l == inject_Z (Z.of_nat (List.length l)) * s)%Q.
Proof.
  induction 1 as [|x l Hx _ IH].
  - unfold sumQ. cbn. ring.
  - cbn beta in Hx. unfold sumQ. cbn [fold_left List.length].
    rewrite sumQ_from, IH, Hx. rewrite Nat2Z.inj_succ. unfold Z.succ. rewrite inject_Z_plus. ring.
Qed.

Lemma avgQ_equal (l : list Q) (s : Q) :
  l <> [] -> Forall (fun v => v == s)%Q l -> (avgQ l == s)%Q.
Proof.
  intros Hne Hall. unfold avgQ. rewrite (sumQ_equal l s Hall).
  field. intro Hzero.
  assert (Hpos : (0 < Z.of_nat (List.length l))%Z) by (destruct l; [congruence | cbn; lia]).
  unfold Qeq, inject_Z in Hzero. cbn in Hzero. lia.
Qed.

Lemma variance_of_equal (l : list Q) (s : Q) :
  l <> [] -> Forall (fun v => v == s)%Q l -> (Patterns.variance l == 0)%Q.
Proof.
  intros Hne Hall. unfold Patterns.variance.
  apply avgQ_equal; [destruct l; [congruence | discriminate]|].
  apply Forall_map. apply Forall_forall. intros v Hv.
  rewrite (avgQ_equal l s Hne Hall).
  pose proof (proj1 (Forall_forall _ _) Hall v Hv) as Hv'. cbn beta in Hv'.
  rewrite Hv'. ring.
Qed.

Lemma filter_mem_nil {T : Type} (key : T -> Z) (l : list T) :
  filter (fun r => AnalyticsEngine.mem (key r) []) l = [].
Proof. induction l as [|r rest IH]; [reflexivity | exact IH]. Qed.

(** An evaluator who gave one criterion the same score in all of their
    completed evaluations, at least twice, is reported as suspicious: the
    criterion is listed among the low-variance criteria, since its variance
    0 is under the threshold 0.2. *)
Theorem constant_criterion_is_suspicious (uid : Z) (db : DB) (c : Z) (s : Q) :
  let mine := map evaluation_id (filter (Patterns.completed_by uid) (evaluations db)) in
  let given :=
    map score
        (filter (fun r => score_criterion_id r =? c)
                (filter (fun r => AnalyticsEngine.mem (score_evaluation_id r) mine)
                        (evaluation_scores db))) in
  (2 <= List.length given)%nat ->
  Forall (fun v => v == s)%Q given ->
  exists a,
    Patterns.analyze_evaluator_patterns uid db = Patterns.Analysis_completed a /\
    In c (Patterns.low_variance_criteria a) /\
    Patterns.suspicious_patterns a = true.
Proof.
  intros mine given Hlen Hall. subst given mine.
  assert (Hmine : filter (Patterns.completed_by uid) (evaluations db) <> []).
  { intro Hnil. rewrite Hnil in Hlen. cbn [map] in Hlen.
    rewrite filter_mem_nil in Hlen. cbn in Hlen. lia. }
  unfold Patterns.analyze_evaluator_patterns.
  destruct (filter (Patterns.completed_by uid) (evaluations db)) as [|e0 rest];
    [congruence|].
  remember (filter (fun r => AnalyticsEngine.mem (score_evaluation_id r)
                                (map evaluation_id (e0 :: rest)))
                   (evaluation_scores db)) as scores eqn:Hscores.
  destruct scores as [|s0 more]; [cbn in Hlen; lia|].
  clear Hscores. set (scores := s0 :: more) in *.
  set (given := map score (filter (fun r => score_criterion_id r =? c) scores)) in *.
  eexists. split; [reflexivity|].
  cbn [Patterns.low_variance_criteria Patterns.suspicious_patterns].
  assert (Hlow : In c (map fst
                    (filter (fun cv => Qlt_bool (snd cv) Patterns.low_variance_threshold)
                            (fold_left Patterns.variance_step
                                       (QualityController.scores_by_criterion scores) [])))).
  { assert (Hgroup : dict_get Z.eqb (QualityController.scores_by_criterion scores) c =
                     Some given).
    { unfold QualityController.scores_by_criterion. rewrite scores_by_criterion_fold.
      cbn [dict_get]. fold given. destruct given; [cbn in Hlen; lia | reflexivity]. }
    apply (dict_get_in Z.eqb Z_eqb_spec) in Hgroup.
    pose proof (variance_fold_get _ c given (scores_by_criterion_nodup scores)
                  Hgroup Hlen []) as Hvar.
    apply (dict_get_in Z.eqb Z_eqb_spec) in Hvar.
    apply in_map_iff. exists (c, Patterns.variance given). split; [reflexivity|].
    apply filter_In. split; [exact Hvar|]. cbn [snd].
    apply Qlt_bool_iff. rewrite (variance_of_equal given s); [reflexivity | | exact Hall].
    destruct given; [cbn in Hlen; lia | discriminate]. }
  split; [exact Hlow|].
  apply orb_true_iff. left. apply Z.ltb_lt.
  destruct (map fst _) as [|x xs]; [contradiction | cbn; lia].
Qed.

(** Two careful ratings of 4 on accuracy are enough to be reported. *)
Lemma steady_evaluator_is_suspicious :
  exists a,
    Patterns.analyze_evaluator_patterns 1 Examples.steady_db =
      Patterns.Analysis_completed a /\
    In 1 (Patterns.low_variance_criteria a) /\
    Patterns.suspicious_patterns a = true.
Proof.
  apply (constant_criterion_is_suspicious 1 Examples.steady_db 1 (4 # 1)%Q).
  - vm_compute. constructor.
  - vm_compute. repeat constructor.
Defined.

(** ** analytics.py: analyze_human_ai_gap *)

Section BestModel.

Variable pick : AnalyticsEngine.score_data -> list (string * Q).
Variable key : string.

Lemma best_fold (models : list (string * AnalyticsEngine.score_data)) :
  forall init,
    let r := fold_left (GapAnalysis.best_step pick key) models init in
    (fst init <= fst r)%Q /\
    (forall model data score,
       In (model, data) models ->
       dict_get String.eqb (pick data) key = Some score -> (score <= fst r)%Q) /\
    (r = init \/
     exists model data,
       In (model, data) models /\ snd r = Some model /\
       dict_get String.eqb (pick data) key = Some (fst r) /\ (fst init < fst r)%Q).
Proof.
  induction models as [|[m d] rest IH]; intro init; cbn [fold_left].
  - cbv zeta. split; [apply Qle_refl|]. split; [intros ? ? ? []|now left].
  - specialize (IH (GapAnalysis.best_step pick key init (m, d))).
    cbv zeta in *. destruct IH as (Hge & Hmax & Hfrom).
    set (r := fold_left (GapAnalysis.best_step pick key) rest
                        (GapAnalysis.best_step pick key init (m, d))) in *.
    unfold GapAnalysis.best_step in Hge, Hfrom. cbn [fst snd] in Hge, Hfrom.
    destruct (dict_get String.eqb (pick d) key) as [s|] eqn:Hget.
    + destruct (Qlt_bool (fst init) s) eqn:Hlt.
      * apply Qlt_bool_iff in Hlt. cbn [fst snd] in *.
        split; [apply Qle_trans with s; [now apply Qlt_le_weak | exact Hge]|].
        split.
        -- intros model data score [Heq|Hin] Hscore.
           ++ injection Heq as <- <-. rewrite Hget in Hscore. injection Hscore as <-.
              exact Hge.
           ++ now apply (Hmax model data).
        -- right. destruct Hfrom as [Hsame|(model & data & Hin & Hsnd & Hscore & Hup)].
           ++ exists m, d. rewrite Hsame. cbn [fst snd].
              split; [now left|]. split; [reflexivity|]. split; [exact Hget | exact Hlt].
           ++ exists model, data. split; [now right|]. split; [exact Hsnd|].
              split; [exact Hscore|]. now apply Qlt_trans with s.
      * apply Qlt_bool_false_iff in Hlt.
        split; [exact Hge|]. split.
        -- intros model data score [Heq|Hin] Hscore.
           ++ injection Heq as <- <-. rewrite Hget in Hscore. injection Hscore as <-.
              now apply Qle_trans with (fst init).
           ++ now apply (Hmax model data).
        -- destruct Hfrom as [Hsame|(model & data & Hin & Hrest)]; [now left|].
           right. exists model, data. split; [now right | exact Hrest].
    + split; [exact Hge|]. split.
      * intros model data score [Heq|Hin] Hscore.
        -- injection Heq as <- <-. congruence.
        -- now apply (Hmax model data).
      * destruct Hfrom as [Hsame|(model & data & Hin & Hrest)]; [now left|].
        right. exists model, data. split; [now right | exact Hrest].
Qed.

End BestModel.

Lemma best_ai_in (pick : AnalyticsEngine.score_data -> list (string * Q))
    (models : list (string * AnalyticsEngine.score_data)) (keys : list string)
    (key : string) (score : Q) (model : string) :
  In (key, (score, model)) (GapAnalysis.best_ai pick models keys) ->
  fold_left (GapAnalysis.best_step pick key) models (0%Q, None) = (score, Some model).
Proof.
  unfold GapAnalysis.best_ai.
  apply (fold_keeps
           (fun best : list (string * (Q * string)) =>
              In (key, (score, model)) best ->
              fold_left (GapAnalysis.best_step pick key) models (0%Q, None) =
              (score, Some model))); [|intros []].
  intros best k Hbest.
  destruct (fold_left (GapAnalysis.best_step pick k) models (0%Q, None))
    as [best_score [best_model|]] eqn:Hfold; [|exact Hbest].
  destruct (AnalyticsEngine.truthy_str (Some best_model)); [|exact Hbest].
  intro Hin. apply (dict_set_in String.eqb string_eqb_spec) in Hin.
  destruct Hin as [Hin|[-> Heq]]; [now apply Hbest|].
  injection Heq as -> ->. exact Hfold.
Qed.

Lemma gaps_in (human : list (string * Q)) (best : list (string * (Q * string)))
    (key : string) (g : GapAnalysis.gap_data) :
  In (key, g) (GapAnalysis.gaps human best) ->
  In (key, GapAnalysis.human_score g) human /\
  GapAnalysis.gap_value g = (GapAnalysis.human_score g - GapAnalysis.ai_score g)%Q /\
  In (key, (GapAnalysis.ai_score g, GapAnalysis.best_model g)) best.
Proof.
  unfold GapAnalysis.gaps.
  assert (Hgen : forall items acc,
             (forall x, In x items -> In x human) ->
             (In (key, g) acc ->
              In (key, GapAnalysis.human_score g) human /\
              GapAnalysis.gap_value g =
                (GapAnalysis.human_score g - GapAnalysis.ai_score g)%Q /\
              In (key, (GapAnalysis.ai_score g, GapAnalysis.best_model g)) best) ->
             In (key, g)
                (fold_left
                   (fun gaps_so_far (item : string * Q) =>
                      match dict_get String.eqb best (fst item) with
                      | Some (score, model) =>
                        dict_set String.eqb gaps_so_far (fst item)
                          (GapAnalysis.mkGapData (snd item) score (snd item - score) model)
                      | None => gaps_so_far
                      end) items acc) ->
             In (key, GapAnalysis.human_score g) human /\
             GapAnalysis.gap_value g =
               (GapAnalysis.human_score g - GapAnalysis.ai_score g)%Q /\
             In (key, (GapAnalysis.ai_score g, GapAnalysis.best_model g)) best).
  { induction items as [|[k h] rest IH]; intros acc Hsub Hacc; cbn [fold_left];
      [exact Hacc|].
    apply IH; [intros x Hx; apply Hsub; now right|].
    cbn [fst snd].
    destruct (dict_get String.eqb best k) as [[score model]|] eqn:Hbest; [|exact Hacc].
    intro Hin. apply (dict_set_in String.eqb string_eqb_spec) in Hin.
    destruct Hin as [Hin|[-> ->]]; [now apply Hacc|]. cbn.
    split; [apply Hsub; now left|]. split; [reflexivity|].
    now apply (dict_get_in String.eqb string_eqb_spec). }
  apply Hgen; [auto | intros []].
Qed.

Lemma gaps_lead (pick : AnalyticsEngine.score_data -> list (string * Q))
    (human : AnalyticsEngine.score_data)
    (models : list (string * AnalyticsEngine.score_data)) (keys : list string) :
  Forall (GapAnalysis.leads pick human models)
         (GapAnalysis.gaps (pick human) (GapAnalysis.best_ai pick models keys)).
Proof.
  apply Forall_forall. intros [key g] Hin.
  apply gaps_in in Hin. destruct Hin as (Hhuman & Hgap & Hbest).
  apply best_ai_in in Hbest.
  destruct (best_fold pick key models (0%Q, None)) as (Hge & Hmax & Hfrom).
  cbv zeta in *. rewrite Hbest in *. cbn [fst snd] in *.
  unfold GapAnalysis.leads. split; [exact Hhuman|]. split; [exact Hgap|].
  destruct Hfrom as [Hsame|(model & data & Hin & Hmodel & Hscore & Hpos)];
    [discriminate|].
  injection Hmodel as <-.
  split; [exact Hpos|]. split; [now exists data | exact Hmax].
Qed.

(** In the analysis of [analyze_human_ai_gap], every criterion and every
    domain reported carries the human benchmark score, a positive AI score
    that is the score of the named best model and that no AI model exceeds,
    and their difference as the gap.  The call adds exactly one report to the
    store; the two error results add none. *)
Theorem gap_analysis_names_the_best_model
    (now saved_at : Z) (domains : option (list string)) (db : DB) :
  let human := AnalyticsEngine._get_human_benchmark_scores db in
  let models := GapAnalysis.all_model_scores db in
  match GapAnalysis.analyze_human_ai_gap now saved_at domains db with
  | (db', GapAnalysis.Gap_analysis _ criteria_gaps domain_gaps _) =>
    Forall (GapAnalysis.leads AnalyticsEngine.sd_criteria human models) criteria_gaps /\
    Forall (GapAnalysis.leads AnalyticsEngine.sd_domains human models) domain_gaps /\
    exists report,
      reports db' = (reports db ++ [report])%list /\
      report_type report = "human_ai_gap"%string
  | (db', _) => db' = db
  end.
Proof.
  intros human models. unfold GapAnalysis.analyze_human_ai_gap. fold human.
  destruct (AnalyticsEngine.sd_criteria human) as [|c0 cs] eqn:Hcriteria; [reflexivity|].
  rewrite <- Hcriteria.
  destruct (GapAnalysis.ai_models db) as [|m0 ms] eqn:Hmodels; [reflexivity|].
  fold models.
  split; [apply gaps_lead|]. split; [apply gaps_lead|].
  eexists. split; reflexivity.
Qed.

(** ** utils.py: import_content_from_json *)

Lemma has_domain_in (domain : string) (domains : list string) :
  Experts.has_domain domain domains = true <-> In domain domains.
Proof.
  unfold Experts.has_domain. rewrite existsb_exists. split.
  - intros (x & Hx & Heq). apply String.eqb_eq in Heq. now subst.
  - intro Hin. exists domain. split; [exact Hin | apply String.eqb_refl].
Qed.

Lemma import_item_cases (s : DB) (n : Z) (it : Importer.item) :
  Importer.import_item (s, n) it = (s, n) \/
  exists row,
    Importer.import_item (s, n) it =
      (Importer.set_contents s (contents s ++ [row]), n + 1) /\
    In (content_domain row) Settings.CONTENT_DOMAINS /\
    (source_type row = "ai"%string \/ source_type row = "human"%string) /\
    dict_get String.eqb it "title"%string = Some (title row) /\
    dict_get String.eqb it "text"%string = Some (text row).
Proof.
  unfold Importer.import_item.
  destruct (negb (forallb (GapAnalysis.has_key it) Importer.required_fields));
    [now left|].
  destruct (dict_get String.eqb it "domain"%string) as [domain|]; [|now left].
  destruct (dict_get String.eqb it "source_type"%string) as [kind|]; [|now left].
  destruct (dict_get String.eqb it "title"%string) as [ttl|]; [|now left].
  destruct (dict_get String.eqb it "text"%string) as [txt|]; [|now left].
  destruct (Experts.has_domain domain Settings.CONTENT_DOMAINS) eqn:Hdomain;
    [|now left].
  destruct (Experts.has_domain kind ["ai"; "human"]%string) eqn:Hkind; [|now left].
  right. eexists. split; [reflexivity|]. cbn [content_domain source_type title text].
  split; [now apply has_domain_in|]. split; [|split; reflexivity].
  apply has_domain_in in Hkind. destruct Hkind as [<-|[<-|[]]]; auto.
Qed.

Lemma import_fold (items : list Importer.item) :
  forall (s : DB) (n : Z),
  exists rows,
    fold_left Importer.import_item items (s, n) =
      (Importer.set_contents s (contents s ++ rows), n + Z.of_nat (List.length rows)) /\
    (List.length rows <= List.length items)%nat /\
    Forall (fun row =>
              In (content_domain row) Settings.CONTENT_DOMAINS /\
              (source_type row = "ai"%string \/ source_type row = "human"%string))
           rows.
Proof.
  induction items as [|it rest IH]; intros s n; cbn [fold_left].
  - exists []. rewrite app_nil_r. cbn. split; [|split; [lia | constructor]].
    rewrite Z.add_0_r. now destruct s.
  - destruct (import_item_cases s n it) as [Hskip|(row & Hadd & Hdomain & Hkind & _)].
    + rewrite Hskip. destruct (IH s n) as (rows & Hfold & Hlen & Hall).
      exists rows. split; [exact Hfold|]. split; [cbn; lia | exact Hall].
    + rewrite Hadd.
      destruct (IH (Importer.set_contents s (contents s ++ [row])) (n + 1))
        as (rows & Hfold & Hlen & Hall).
      exists (row :: rows). rewrite Hfold. cbn [contents Importer.set_contents].
      rewrite <- app_assoc. cbn [app List.length]. split; [|split].
      * apply f_equal2; [reflexivity | lia].
      * lia.
      * constructor; [now split | exact Hall].
Qed.

(** [import_content_from_json] reports the number of rows it added and the
    number of items in the file: the rows are appended to the contents, none
    of the stored contents is changed, at most one row is added for each
    item, and every added row has one of the configured domains and the
    source type ai or human.  No other table changes. *)
Theorem import_content_from_json_counts (items : list Importer.item) (db : DB) :
  let result := Importer.import_content_from_json (Some items) db in
  let imported := fst (snd result) in
  let total := snd (snd result) in
  total = Z.of_nat (List.length items) /\
  0 <= imported <= total /\
  (exists rows,
     contents (fst result) = (contents db ++ rows)%list /\
     imported = Z.of_nat (List.length rows) /\
     Forall (fun row =>
               In (content_domain row) Settings.CONTENT_DOMAINS /\
               (source_type row = "ai"%string \/ source_type row = "human"%string))
            rows) /\
  users (fst result) = users db /\ criteria (fst result) = criteria db /\
  evaluations (fst result) = evaluations db /\
  evaluation_scores (fst result) = evaluation_scores db /\
  questions (fst result) = questions db.
Proof.
  intros result imported total. subst result imported total.
  unfold Importer.import_content_from_json.
  destruct (import_fold items db 0) as (rows & Hfold & Hlen & Hall).
  rewrite Hfold. cbn [fst snd contents Importer.set_contents users criteria evaluations
                      evaluation_scores questions].
  split; [reflexivity|]. split; [lia|]. split; [|repeat split].
  exists rows. split; [reflexivity|]. split; [lia | exact Hall].
Qed.

(** ** evaluator.py: get_evaluation_statistics *)

Lemma filter_disjoint_length {A : Type} (p q : A -> bool) (l : list A) :
  (forall x, p x = true -> q x = false) ->
  (List.length (filter p l) + List.length (filter q l) <= List.length l)%nat.
Proof.
  intro Hdisjoint. induction l as [|x l IH]; simpl; [lia|].
  destruct (p x) eqn:Hp.
  - rewrite (Hdisjoint x Hp). simpl. lia.
  - destruct (q x); simpl; lia.
Qed.

Lemma filter_cover_length {A : Type} (p q : A -> bool) (l : list A) :
  (forall x, p x = true -> q x = false) ->
  (forall x, In x l -> p x = true \/ q x = true) ->
  (List.length (filter p l) + List.length (filter q l) = List.length l)%nat.
Proof.
  intros Hdisjoint Hcover. induction l as [|x l IH]; simpl; [lia|].
  assert (IH' := IH (fun y Hy => Hcover y (or_intror Hy))).
  destruct (p x) eqn:Hp.
  - rewrite (Hdisjoint x Hp). simpl. lia.
  - destruct (Hcover x (or_introl eq_refl)) as [H|H]; [congruence|].
    rewrite H. simpl. lia.
Qed.

Lemma filter_length_le {A : Type} (p : A -> bool) (l : list A) :
  (List.length (filter p l) <= List.length l)%nat.
Proof. induction l as [|x l IH]; simpl; [lia|]. destruct (p x); simpl; lia. Qed.

(** The size of the join: with distinct content ids, one row for each
    evaluation that passes the filter and whose content is stored. *)
Lemma joined_length (cs : list Content) (evals : list Evaluation) (p : Evaluation -> bool) :
  NoDup (map content_id cs) ->
  List.length
    (flat_map (fun c => map (pair c)
                            (filter (fun e => (content_id c =? evaluation_content_id e)
                                              && p e) evals)) cs) =
  List.length
    (filter (fun e => p e &&
                      existsb (fun c => content_id c =? evaluation_content_id e) cs)
            evals).
Proof.
  induction cs as [|c rest IH]; intro Hnodup; cbn [flat_map map existsb].
  - induction evals as [|e evals IHe]; [reflexivity|]. cbn [filter].
    rewrite andb_false_r. exact IHe.
  - cbn [map] in Hnodup. inversion Hnodup as [|? ? Hnotin Hrest]; subst.
    rewrite length_app, length_map, (IH Hrest). clear IH.
    induction evals as [|e evals IHe]; [reflexivity|]. cbn [filter].
    destruct (content_id c =? evaluation_content_id e) eqn:Hc; cbn [andb orb].
    + assert (Hnone : existsb (fun c0 => content_id c0 =? evaluation_content_id e) rest
                      = false).
      { destruct (existsb _ rest) eqn:Hex; [|reflexivity]. exfalso.
        apply existsb_exists in Hex. destruct Hex as (c' & Hin & Heq).
        apply Z.eqb_eq in Hc, Heq. apply Hnotin. rewrite Hc, <- Heq. now apply in_map. }
      rewrite Hnone, andb_false_r, andb_true_r.
      destruct (p e); cbn [List.length]; lia.
    + destruct (p e && existsb _ rest); cbn [List.length]; lia.
Qed.

Lemma joined_filter_contents (p : Content -> bool) (f : Content -> list Evaluation)
    (cs : list Content) :
  filter (fun ce : Content * Evaluation => p (fst ce))
         (flat_map (fun c => map (pair c) (f c)) cs) =
  flat_map (fun c => map (pair c) (f c)) (filter p cs).
Proof.
  induction cs as [|c rest IH]; [reflexivity|]. cbn [flat_map filter].
  rewrite filter_app, IH.
  assert (Hhead : filter (fun ce : Content * Evaluation => p (fst ce)) (map (pair c) (f c))
                  = if p c then map (pair c) (f c) else []).
  { induction (f c) as [|e l IHl]; cbn [map filter fst].
    - now destruct (p c).
    - rewrite IHl. now destruct (p c). }
  rewrite Hhead. now destruct (p c).
Qed.

Lemma domain_counts_bound {A : Type} (key : A -> string) (l : list A) (ds : list string) :
  NoDup ds ->
  fold_right Z.add 0
    (map (fun d => Statistics.count (fun x => String.eqb (key x) d) l) ds)
  <= Z.of_nat (List.length l).
Proof.
  intro Hnodup. unfold Statistics.count.
  induction l as [|x l IH].
  - cbn [filter List.length]. induction ds as [|d ds IHd]; cbn; [lia|].
    inversion Hnodup; subst. cbn in IHd. now apply IHd.
  - assert (Hstep : forall ds', NoDup ds' ->
              fold_right Z.add 0
                (map (fun d => Z.of_nat (List.length
                                 (filter (fun y => String.eqb (key y) d) (x :: l)))) ds')
              = fold_right Z.add 0
                  (map (fun d => Z.of_nat (List.length
                                   (filter (fun y => String.eqb (key y) d) l))) ds')
                + (if existsb (String.eqb (key x)) ds' then 1 else 0)).
    { induction ds' as [|d ds' IHd]; intro Hnd; cbn [map fold_right existsb]; [lia|].
      inversion Hnd as [|? ? Hnotin Hnd']; subst. rewrite (IHd Hnd'). cbn [filter].
      destruct (String.eqb (key x) d) eqn:Hd; cbn [orb List.length].
      - apply String.eqb_eq in Hd.
        assert (Hnone : existsb (String.eqb (key x)) ds' = false).
        { destruct (existsb _ ds') eqn:Hex; [|reflexivity]. exfalso.
          apply existsb_exists in Hex. destruct Hex as (d' & Hin & Heq).
          apply String.eqb_eq in Heq. apply Hnotin. congruence. }
        rewrite Hnone. lia.
      - lia. }
    rewrite (Hstep ds Hnodup). cbn [List.length].
    destruct (existsb (String.eqb (key x)) ds); lia.
Qed.

Lemma stored_filter (cs : list Content) (p : Evaluation -> bool) (evals : list Evaluation) :
  Forall (fun e => get content_id cs (evaluation_content_id e) <> None) evals ->
  filter (fun e => p e && existsb (fun c => content_id c =? evaluation_content_id e) cs)
         evals = filter p evals.
Proof.
  induction 1 as [|e l He _ IH]; [reflexivity|]. cbn [filter].
  assert (Hfound : existsb (fun c => content_id c =? evaluation_content_id e) cs = true).
  { destruct (get content_id cs (evaluation_content_id e)) as [c|] eqn:Hget;
      [|congruence].
    unfold get in Hget. apply find_some in Hget. apply existsb_exists.
    exists c. exact Hget. }
  rewrite Hfound, andb_true_r, IH. reflexivity.
Qed.

Lemma ai_not_human (s : string) :
  String.eqb s "ai" = true -> String.eqb s "human" = false.
Proof. intro H. apply String.eqb_eq in H. now subst. Qed.

(** With distinct content ids the figures of [get_evaluation_statistics]
    add up: the completed evaluations, the AI and human contents together,
    and the domains together never exceed the total; and when every
    evaluation refers to a stored content whose source type is ai or human,
    AI and human contents together make the total. *)
Theorem evaluation_statistics_add_up (uid : option Z) (db : DB) :
  NoDup (map content_id (contents db)) ->
  let st := Statistics.get_evaluation_statistics uid db in
  0 <= Statistics.completed_evaluations st <= Statistics.total_evaluations st /\
  Statistics.ai_content st + Statistics.human_content st
    <= Statistics.total_evaluations st /\
  fold_right Z.add 0 (map snd (Statistics.domain_distribution st))
    <= Statistics.total_evaluations st /\
  (Store.content_stored db ->
   Forall (fun c => source_type c = "ai"%string \/ source_type c = "human"%string)
          (contents db) ->
   Statistics.ai_content st + Statistics.human_content st =
   Statistics.total_evaluations st).
Proof.
  intros Hnodup st. subst st. unfold Statistics.get_evaluation_statistics.
  cbn [Statistics.completed_evaluations Statistics.total_evaluations
       Statistics.ai_content Statistics.human_content Statistics.domain_distribution].
  set (query := filter (Statistics.of_user uid) (evaluations db)).
  set (rows := Statistics.joined uid db).
  assert (Hrows : (List.length rows <= List.length query)%nat).
  { subst rows query. unfold Statistics.joined. rewrite (joined_length _ _ _ Hnodup).
    clear. induction (evaluations db) as [|e l IH]; cbn [filter]; [lia|].
    destruct (Statistics.of_user uid e); cbn [andb].
    - destruct (existsb _ _); cbn [List.length]; lia.
    - exact IH. }
  split; [|split; [|split]].
  - unfold Statistics.count. pose proof (filter_length_le
      (fun e => match completion_time e with Some _ => true | None => false end) query).
    lia.
  - unfold Statistics.count.
    pose proof (filter_disjoint_length
                  (fun ce : Content * Evaluation => String.eqb (source_type (fst ce)) "ai")
                  (fun ce : Content * Evaluation => String.eqb (source_type (fst ce)) "human")
                  rows) as Hsplit.
    assert (Hle := Hsplit ltac:(intros x Hx; cbv beta in *; now apply ai_not_human)).
    lia.
  - rewrite map_map. cbn [snd].
    pose proof (domain_counts_bound (fun ce : Content * Evaluation => content_domain (fst ce))
                  rows Settings.CONTENT_DOMAINS) as Hsum.
    assert (Hdistinct : NoDup Settings.CONTENT_DOMAINS).
    { unfold Settings.CONTENT_DOMAINS.
      repeat (constructor; [cbn; intuition discriminate|]). constructor. }
    specialize (Hsum Hdistinct). lia.
  - intros Hstored Hkinds. unfold Statistics.count.
    assert (Hall : List.length rows = List.length query).
    { subst rows query. unfold Statistics.joined. rewrite (joined_length _ _ _ Hnodup).
      now rewrite stored_filter. }
    pose proof (filter_cover_length
                  (fun ce : Content * Evaluation => String.eqb (source_type (fst ce)) "ai")
                  (fun ce : Content * Evaluation => String.eqb (source_type (fst ce)) "human")
                  rows) as Hsplit.
    assert (Heq := Hsplit ltac:(intros x Hx; cbv beta in *; now apply ai_not_human)).
    rewrite <- Hall, <- Heq; [lia|].
    intros [c e] Hin. cbn [fst]. subst rows. unfold Statistics.joined in Hin.
    apply in_flat_map in Hin. destruct Hin as (c' & Hc' & Hpair).
    apply in_map_iff in Hpair. destruct Hpair as (e' & Heq' & _).
    injection Heq' as -> ->.
    destruct (proj1 (Forall_forall _ _) Hkinds c Hc') as [->| ->]; auto.
Qed.

(** The rated store: two evaluations, one of an AI text and one of a human
    text. *)
Lemma rated_store_statistics :
  Statistics.ai_content (Statistics.get_evaluation_statistics None Scenarios.rated_db) +
  Statistics.human_content (Statistics.get_evaluation_statistics None Scenarios.rated_db) =
  Statistics.total_evaluations (Statistics.get_evaluation_statistics None Scenarios.rated_db).
Proof.
  apply (proj2 (proj2 (proj2 (evaluation_statistics_add_up None Scenarios.rated_db
           ltac:(repeat constructor; cbn; intuition discriminate)))));
    repeat constructor; cbn; auto; discriminate.
Defined.

(** ** evaluator.py: assignment, then start_evaluation *)

(** An assigned evaluation is the one the expert resumes: when
    [assign_content_to_experts] has returned for a stored content, then for
    every id it returned, [start_evaluation] by the evaluator of that row on
    the same content returns this very id and adds no row. *)
Theorem assigned_evaluation_is_resumed
    (json_loads : string -> option (list string)) (profiles : list Experts.ExpertProfile)
    (clock : nat -> Z) (cid : Z) (domain : string) (db db' : DB) (ids : list Z)
    (c : Content) :
  get content_id (contents db) cid = Some c ->
  Experts.assign_content_to_experts json_loads profiles clock cid domain db =
    (db', Returned ids) ->
  Forall (fun id =>
            exists row,
              In row (evaluations db') /\ evaluation_id row = id /\
              forall now,
                Evaluator.start_evaluation now (evaluator_id row) cid db' =
                (db', Returned (Some id)))
         ids.
Proof.
  intros Hcontent. unfold Experts.assign_content_to_experts, get_db_session.
  destruct (Experts.qualified_experts json_loads profiles domain db)
    as [experts|err] eqn:Hexperts; cbn [bindO]; [|discriminate].
  destruct (assign_fold cid clock experts db []) as (added & rows & Hfold & Hall).
  rewrite Hfold. intro Hcall. injection Hcall as <- <-.
  cbn [app]. apply Forall_forall. intros id Hid. apply in_map_iff in Hid.
  destruct Hid as (row & <- & Hrow).
  assert (Hexpert : exists x, In x experts /\
            find (Evaluator.same_pair x cid) (evaluations db ++ added) = Some row).
  { clear Hfold Hexperts. induction Hall as [|x r experts rows Hx _ IH];
      [contradiction|].
    destruct Hrow as [->|Hrow].
    - exists x. split; [now left | exact Hx].
    - destruct (IH Hrow) as (x' & Hin & Hx'). exists x'. split; [now right | exact Hx']. }
  destruct Hexpert as (x & Hx & Hfind).
  destruct (find_some _ _ Hfind) as [Hin Hpair].
  apply same_pair_eq in Hpair. destruct Hpair as [Hevaluator _].
  exists row. split; [exact Hin|]. split; [reflexivity|]. intro now.
  rewrite Hevaluator.
  destruct (qualify_sound json_loads db domain _ _ _ Hexperts x Hx)
    as [[]|(p & ds & _ & _ & _ & _ & u & Hu)].
  destruct (active_user_id db x u Hu) as [Hid Hstored].
  destruct (get user_id (users db) x) as [u0|] eqn:Huser.
  2:{ exfalso. unfold get in Huser. pose proof (find_none _ _ Huser u Hstored) as Hno.
      cbn beta in Hno. rewrite Hid, Z.eqb_refl in Hno. discriminate. }
  now apply (start_evaluation_existing now x cid _ u0 c row).
Qed.

(** The news expert opens the assigned AI text. *)
Lemma news_expert_resumes :
  Forall (fun id =>
            exists row,
              In row (evaluations
                        (fst (Experts.assign_content_to_experts Examples.no_json
                                [Examples.news_expert] Examples.noon 1 "news_articles"
                                Scenarios.fresh_db))) /\
              evaluation_id row = id /\
              forall now,
                Evaluator.start_evaluation now (evaluator_id row) 1
                  (fst (Experts.assign_content_to_experts Examples.no_json
                          [Examples.news_expert] Examples.noon 1 "news_articles"
                          Scenarios.fresh_db)) =
                (fst (Experts.assign_content_to_experts Examples.no_json
                        [Examples.news_expert] Examples.noon 1 "news_articles"
                        Scenarios.fresh_db),
                 Returned (Some id)))
         [1].
Proof.
  apply (assigned_evaluation_is_resumed Examples.no_json [Examples.news_expert]
           Examples.noon 1 "news_articles" Scenarios.fresh_db _ _ Scenarios.ai_article
           eq_refl eq_refl).
Defined.
